(** * local-knowledge-base: cache, lock, watcher, index I/O and agent loop

  A shallow embedding of the Python sources under [src/locallm] and the
  properties the specification states about them.

  Conventions of the embedding.
  - A Python [str] is a Rocq [string]: the sequence of bytes of its UTF-8
    encoding.  [len], slicing, [lower] and [strip] are modelled on that
    sequence; they agree with Python on ASCII text.
  - A modification time ([st_mtime], a float) is an integer [Z]; only its
    comparisons ([>], [!=]) are used by the code.
  - Whatever the code obtains from its environment (directory scans, the
    clock, process ids, the model's replies) is an explicit argument. *)

From Stdlib Require Import ZArith String Ascii List Bool Lia DecimalString DecimalPos.
From Stdlib Require DecimalNat.
From stdpp Require Import base option list gmap strings fin_maps fin_sets.

Local Open Scope string_scope.
Local Open Scope list_scope.

(** ** Python string operations *)

Module PyStr.

(** [s[n:]] *)
Fixpoint drop (n : nat) (s : string) : string :=
  match n, s with
  | O, _ => s
  | S n', String _ r => drop n' r
  | S _, EmptyString => EmptyString
  end.

(** [s[:n]] *)
Fixpoint take (n : nat) (s : string) : string :=
  match n, s with
  | S n', String c r => String c (take n' r)
  | _, _ => EmptyString
  end.

(** [s.startswith(p)] *)
Definition startswith (p s : string) : bool := String.prefix p s.

(** [s.partition(sep)] when [sep] occurs: the text before and after the
    leftmost occurrence. *)
Fixpoint partition (sep s : string) : option (string * string) :=
  if startswith sep s then Some (EmptyString, drop (String.length sep) s)
  else match s with
       | EmptyString => None
       | String c r =>
           match partition sep r with
           | Some (b, a) => Some (String c b, a)
           | None => None
           end
       end.

(** [sub in s] *)
Definition contains (sub s : string) : bool :=
  match partition sub s with Some _ => true | None => false end.

(** [s.split(sep)] for a non-empty separator. *)
Fixpoint split_fuel (fuel : nat) (sep s : string) : list string :=
  match fuel with
  | O => [s]
  | S fuel' =>
      match partition sep s with
      | Some (b, a) => b :: split_fuel fuel' sep a
      | None => [s]
      end
  end.

Definition split (sep s : string) : list string :=
  split_fuel (String.length s) sep s.

(** [s.split(sep, 1)] *)
Definition split1 (sep s : string) : list string :=
  match partition sep s with
  | Some (b, a) => [b; a]
  | None => [s]
  end.

(** Python's ASCII whitespace: tab, LF, VT, FF, CR, FS, GS, RS, US, space. *)
Definition is_space (c : ascii) : bool :=
  let n := nat_of_ascii c in
  ((9 <=? n)%nat && (n <=? 13)%nat) || ((28 <=? n)%nat && (n <=? 32)%nat).

Fixpoint lstrip_by (f : ascii -> bool) (s : string) : string :=
  match s with
  | String c r => if f c then lstrip_by f r else s
  | EmptyString => EmptyString
  end.

Fixpoint rstrip_by (f : ascii -> bool) (s : string) : string :=
  match s with
  | String c r =>
      match rstrip_by f r with
      | EmptyString => if f c then EmptyString else String c EmptyString
      | r' => String c r'
      end
  | EmptyString => EmptyString
  end.

Definition strip_by (f : ascii -> bool) (s : string) : string :=
  rstrip_by f (lstrip_by f s).

(** [s.strip()] *)
Definition strip : string -> string := strip_by is_space.

(** [s.strip(c)] for a one-character argument *)
Definition strip_char (c : ascii) : string -> string := strip_by (Ascii.eqb c).

Definition lower_char (c : ascii) : ascii :=
  let n := nat_of_ascii c in
  if (65 <=? n)%nat && (n <=? 90)%nat then ascii_of_nat (n + 32) else c.

(** [s.lower()] *)
Fixpoint lower (s : string) : string :=
  match s with
  | String c r => String (lower_char c) (lower r)
  | EmptyString => EmptyString
  end.

(** [s.rfind(c)] for a character; [None] is Python's [-1]. *)
Fixpoint rfind_char (c : ascii) (s : string) : option nat :=
  match s with
  | EmptyString => None
  | String a r =>
      match rfind_char c r with
      | Some i => Some (S i)
      | None => if Ascii.eqb a c then Some O else None
      end
  end.

(** [str(n)] for a natural number *)
Definition of_nat (n : nat) : string :=
  NilZero.string_of_uint (Nat.to_uint n).

(** [str(z)] for an integer *)
Definition of_Z (z : Z) : string :=
  NilZero.string_of_int (Z.to_int z).

(** [sep.join(l)] *)
Fixpoint join (sep : string) (l : list string) : string :=
  match l with
  | [] => EmptyString
  | [x] => x
  | x :: r => x +:+ sep +:+ join sep r
  end.

(** The truth value of a string: [bool(s)]. *)
Definition truthy (s : string) : bool :=
  match s with EmptyString => false | _ => true end.

(** [s.isascii()]: on such a string bytes and characters are the same,
    and [strip] and [lower] are Python's. *)
Fixpoint is_ascii (s : string) : bool :=
  match s with
  | EmptyString => true
  | String c r => (nat_of_ascii c <? 128)%nat && is_ascii r
  end.

End PyStr.

(** ** pathlib *)

Module PyPath.

(** [Path(p).name]: the final component. *)
Definition name (p : string) : string :=
  match PyStr.rfind_char "/" p with
  | Some i => PyStr.drop (S i) p
  | None => p
  end.

(** [Path(p).suffix]: from the last dot of the name, unless the name
    starts or ends with it. *)
Definition suffix (p : string) : string :=
  let n := name p in
  match PyStr.rfind_char "." n with
  | Some i =>
      if (0 <? i)%nat && (i <? String.length n - 1)%nat
      then PyStr.drop i n else EmptyString
  | None => EmptyString
  end.

Definition supported_exts : list string :=
  [".pdf"; ".docx"; ".doc"; ".txt"; ".md"; ".markdown"].

(** [file_path.suffix.lower() in supported_exts] *)
Definition is_supported (p : string) : bool :=
  bool_decide (PyStr.lower (suffix p) ∈ supported_exts).

End PyPath.

(** ** utils/file_watcher.py *)

Module Watcher.

(** What a recursive scan ([rglob]) sees at a path: whether it is a
    regular file, and what [stat] gives ([None]: [stat] raises
    [OSError]). *)
Record dir_entry := { is_file : bool; st_mtime : option Z }.

Record DocumentWatcher := {
  directory : string;
  _last_snapshot : gmap string Z;
  _last_check_time : Z
}.

Record changes := {
  added : gset string;
  modified : gset string;
  deleted : gset string
}.

(** [DocumentWatcher._take_snapshot] *)
Definition _take_snapshot (fs : gmap string dir_entry) : gmap string Z :=
  map_imap (λ file_path e,
    if is_file e && PyPath.is_supported file_path then st_mtime e else None) fs.

(** [DocumentWatcher.__init__] *)
Definition init (dir : string) (fs : gmap string dir_entry) (now : Z)
  : DocumentWatcher :=
  {| directory := dir;
     _last_snapshot := _take_snapshot fs;
     _last_check_time := now |}.

(** [DocumentWatcher.check_for_changes] *)
Definition check_for_changes (fs : gmap string dir_entry) (now : Z)
    (w : DocumentWatcher) : changes * DocumentWatcher :=
  let current_snapshot := _take_snapshot fs in
  let added := dom current_snapshot ∖ dom (_last_snapshot w) in
  let deleted := dom (_last_snapshot w) ∖ dom current_snapshot in
  let modified :=
    filter (λ path, current_snapshot !! path ≠ _last_snapshot w !! path)
           (dom current_snapshot ∩ dom (_last_snapshot w)) in
  ({| added := added; modified := modified; deleted := deleted |},
   {| directory := directory w;
      _last_snapshot := current_snapshot;
      _last_check_time := now |}).

(** The truth value of a set. *)
Definition nonempty (s : gset string) : bool := bool_decide (s ≠ ∅).

Definition any_change (c : changes) : bool :=
  nonempty (added c) || nonempty (modified c) || nonempty (deleted c).

(** [DocumentWatcher.has_changes] *)
Definition has_changes (fs : gmap string dir_entry) (now : Z)
    (w : DocumentWatcher) : bool * DocumentWatcher :=
  let '(c, w') := check_for_changes fs now w in
  (any_change c, w').

(** One block of the summary; [list(s)[:3]] is taken in the order in
    which the set enumerates its elements. *)
Definition summary_block (label mark : string) (s : gset string)
  : list string :=
  if nonempty s then
    [label +:+ ": " +:+ PyStr.of_nat (size s) +:+ " file(s)"]
    ++ map (λ path, "  " +:+ mark +:+ " " +:+ PyPath.name path)
           (firstn 3 (elements s))
    ++ (if (3 <? size s)%nat
        then ["  ... and " +:+ PyStr.of_nat (size s - 3) +:+ " more"]
        else [])
  else [].

(** [DocumentWatcher.get_change_summary] *)
Definition get_change_summary (fs : gmap string dir_entry) (now : Z)
    (w : DocumentWatcher) : string * DocumentWatcher :=
  let '(c, w') := check_for_changes fs now w in
  if negb (any_change c) then ("No changes detected", w')
  else
    (PyStr.join (String "010" EmptyString)
       (summary_block "Added" "+" (added c)
        ++ summary_block "Modified" "~" (modified c)
        ++ summary_block "Deleted" "-" (deleted c)), w').

(** [DocumentWatcher.should_rebuild_map]; times in seconds. *)
Definition should_rebuild_map (fs : gmap string dir_entry) (now : Z)
    (threshold_minutes : Z) (w : DocumentWatcher) : bool * DocumentWatcher :=
  if (now - _last_check_time w <? threshold_minutes * 60)%Z then (false, w)
  else has_changes fs now w.

(** [DocumentExplorer.check_for_updates] (agents/explorer.py) on the
    explorer's watcher; both scans see the directory [fs]. *)
Definition check_for_updates (fs : gmap string dir_entry) (now : Z)
    (w : DocumentWatcher) : option string * DocumentWatcher :=
  let '(changed, w1) := has_changes fs now w in
  if changed then
    let '(summary, w2) := get_change_summary fs now w1 in
    (Some ("⚠️  Document changes detected:" +:+ String "010" EmptyString
           +:+ summary +:+ String "010" (String "010" EmptyString)
           +:+ "Consider running 'locallm rebuild-map' to update the knowledge base."),
     w2)
  else (None, w1).

End Watcher.

(** ** utils/cache.py *)

Module Cache.

(** A cached document: the dictionary stored under a cache key. *)
Record entry := {
  content : string;
  size : Z;
  mtime : Z;
  cached_at : Z;
  path : string
}.

(** [DocumentCache]: [cache] is the [OrderedDict], oldest entry first. *)
Record DocumentCache := {
  max_size_bytes : Z;
  max_items : Z;
  current_size : Z;
  cache : list (string * entry);
  hits : Z;
  misses : Z
}.

(** [DocumentCache.__init__] *)
Definition init (max_size_mb max_items : Z) : DocumentCache :=
  {| max_size_bytes := max_size_mb * 1024 * 1024;
     max_items := max_items;
     current_size := 0;
     cache := [];
     hits := 0;
     misses := 0 |}.

(** [self.cache[k]] / [k in self.cache] *)
Fixpoint lookup (k : string) (l : list (string * entry)) : option entry :=
  match l with
  | [] => None
  | (k', e) :: r => if String.eqb k k' then Some e else lookup k r
  end.

(** [self.cache.pop(k)]: the dictionary without key [k]. *)
Fixpoint remove (k : string) (l : list (string * entry))
  : list (string * entry) :=
  match l with
  | [] => []
  | (k', e) :: r => if String.eqb k k' then r else (k', e) :: remove k r
  end.

Definition with_store (c : DocumentCache) (l : list (string * entry))
    (sz : Z) : DocumentCache :=
  {| max_size_bytes := max_size_bytes c;
     max_items := max_items c;
     current_size := sz;
     cache := l;
     hits := hits c;
     misses := misses c |}.

Definition count_hit (c : DocumentCache) : DocumentCache :=
  {| max_size_bytes := max_size_bytes c;
     max_items := max_items c;
     current_size := current_size c;
     cache := cache c;
     hits := hits c + 1;
     misses := misses c |}.

Definition count_miss (c : DocumentCache) : DocumentCache :=
  {| max_size_bytes := max_size_bytes c;
     max_items := max_items c;
     current_size := current_size c;
     cache := cache c;
     hits := hits c;
     misses := misses c + 1 |}.

(** [DocumentCache._remove_entry] *)
Definition _remove_entry (cache_key : string) (c : DocumentCache)
  : DocumentCache :=
  match lookup cache_key (cache c) with
  | Some e => with_store c (remove cache_key (cache c)) (current_size c - size e)
  | None => c
  end.

(** [DocumentCache._evict_oldest] *)
Definition _evict_oldest (c : DocumentCache) : DocumentCache :=
  match cache c with
  | (oldest_key, _) :: _ => _remove_entry oldest_key c
  | [] => c
  end.

(** The condition of the [while] loop of [put]. *)
Definition must_evict (content_size : Z) (c : DocumentCache) : bool :=
  ((current_size c + content_size >? max_size_bytes c)%Z
   || (Z.of_nat (length (cache c)) >=? max_items c)%Z)
  && match cache c with [] => false | _ => true end.

(** The [while] loop of [put], at most [fuel] rounds. *)
Fixpoint evict_loop (fuel : nat) (content_size : Z) (c : DocumentCache)
  : DocumentCache :=
  match fuel with
  | O => c
  | S fuel' =>
      if must_evict content_size c
      then evict_loop fuel' content_size (_evict_oldest c)
      else c
  end.

Section WithEnvironment.

(** [_get_cache_key]: the MD5 digest of the resolved absolute path. *)
Variable _get_cache_key : string -> string.

(** The file system: the modification time [stat] reports for a path,
    [None] when [stat] raises. *)
Variable stat : string -> option Z.

(** [DocumentCache._get_file_mtime] *)
Definition _get_file_mtime (file_path : string) : Z :=
  match stat file_path with
  | Some t => t
  | None => 0
  end.

(** [DocumentCache.get] *)
Definition get (file_path : string) (c : DocumentCache)
  : option string * DocumentCache :=
  let cache_key := _get_cache_key file_path in
  match lookup cache_key (cache c) with
  | None => (None, count_miss c)
  | Some cached_entry =>
      let current_mtime := _get_file_mtime file_path in
      if (current_mtime >? mtime cached_entry)%Z
      then (None, count_miss (_remove_entry cache_key c))
      else (Some (content cached_entry),
            count_hit (with_store c
                         (remove cache_key (cache c) ++ [(cache_key, cached_entry)])
                         (current_size c)))
  end.

(** [DocumentCache.put]; [now] is [time.time()]. *)
Definition put (now : Z) (file_path content : string) (c : DocumentCache)
  : DocumentCache :=
  let cache_key := _get_cache_key file_path in
  let content_size := Z.of_nat (String.length content) in
  let c1 := match lookup cache_key (cache c) with
            | Some _ => _remove_entry cache_key c
            | None => c
            end in
  let c2 := evict_loop (length (cache c1)) content_size c1 in
  with_store c2
    (cache c2 ++ [(cache_key,
                   {| content := content;
                      size := content_size;
                      mtime := _get_file_mtime file_path;
                      cached_at := now;
                      path := file_path |})])
    (current_size c2 + content_size).

(** The entry [put] stores for a file. *)
Definition stored (now : Z) (file_path content : string) : entry :=
  {| content := content;
     size := Z.of_nat (String.length content);
     mtime := _get_file_mtime file_path;
     cached_at := now;
     path := file_path |}.

(** [DocumentCache.invalidate] *)
Definition invalidate (file_path : string) (c : DocumentCache)
  : DocumentCache :=
  _remove_entry (_get_cache_key file_path) c.

End WithEnvironment.

(** [DocumentCache.clear] *)
Definition clear (c : DocumentCache) : DocumentCache :=
  {| max_size_bytes := max_size_bytes c;
     max_items := max_items c;
     current_size := 0;
     cache := [];
     hits := 0;
     misses := 0 |}.

(** The bytes resident in the store. *)
Definition resident_bytes (l : list (string * entry)) : Z :=
  foldr (λ kv acc, (size kv.2 + acc)%Z) 0%Z l.

(** What every operation maintains: the size counter is the sum of the
    entries' sizes, and no key occurs twice. *)
Definition consistent (c : DocumentCache) : Prop :=
  current_size c = resident_bytes (cache c) ∧ NoDup (map fst (cache c)).

End Cache.

(** ** utils/file_lock.py *)

Module Lock.

(** The lock marker file as the operating system holds it: its body, and
    the process that holds the advisory lock ([flock]) on it, if any. *)
Record marker := {
  body : string;
  flock_holder : option Z
}.

(** The part of the world the lock lives in: the marker file ([None] while
    the path does not exist) and the clock, in milliseconds. *)
Record world := {
  lock_file : option marker;
  clock : Z
}.

(** [FileLock]: [timeout] in milliseconds. *)
Record FileLock := {
  lock_file_fd : bool;
  timeout : Z;
  is_locked : bool
}.

(** [FileLock.__init__] *)
Definition init (timeout : Z) : FileLock :=
  {| lock_file_fd := false; timeout := timeout; is_locked := false |}.

(** [os.open(path, O_RDWR | O_CREAT | O_TRUNC)]: the file exists
    afterwards and its body is empty; a lock held on it stays. *)
Definition os_open_trunc (w : world) : world :=
  {| lock_file :=
       Some {| body := EmptyString;
               flock_holder :=
                 match lock_file w with
                 | Some m => flock_holder m
                 | None => None
                 end |};
     clock := clock w |}.

(** [fcntl.flock(fd, LOCK_EX | LOCK_NB)] by process [pid]: [None] when it
    raises because the lock is held through another open handle. *)
Definition flock_ex_nb (pid : Z) (w : world) : option world :=
  match lock_file w with
  | Some m =>
      match flock_holder m with
      | None => Some {| lock_file := Some {| body := body m;
                                            flock_holder := Some pid |};
                        clock := clock w |}
      | Some _ => None
      end
  | None => None
  end.

(** [os.write(fd, data)] on the freshly opened handle (offset 0). *)
Definition os_write (data : string) (w : world) : world :=
  match lock_file w with
  | Some m =>
      {| lock_file :=
           Some {| body := data +:+ PyStr.drop (String.length data) (body m);
                   flock_holder := flock_holder m |};
         clock := clock w |}
  | None => w
  end.

(** [time.sleep]: only the clock moves. *)
Definition sleep (ms : Z) (w : world) : world :=
  {| lock_file := lock_file w; clock := (clock w + ms)%Z |}.

(** [fcntl.flock(fd, LOCK_UN)] and [os.close(fd)] by the holder. *)
Definition flock_un (pid : Z) (w : world) : world :=
  match lock_file w with
  | Some m =>
      {| lock_file :=
           Some {| body := body m;
                   flock_holder :=
                     match flock_holder m with
                     | Some h => if Z.eqb h pid then None else Some h
                     | None => None
                     end |};
         clock := clock w |}
  | None => w
  end.

(** [self.lock_file.unlink()] *)
Definition unlink (w : world) : world :=
  {| lock_file := None; clock := clock w |}.

(** The [while True] loop of [FileLock.acquire] run by process [pid], at
    most [fuel] rounds; [None] when the rounds are used up. *)
Fixpoint acquire_loop (fuel : nat) (blocking : bool) (start_time : Z)
    (pid : Z) (w : world) (l : FileLock) : option (bool * world * FileLock) :=
  match fuel with
  | O => None
  | S fuel' =>
      let w1 := os_open_trunc w in
      match flock_ex_nb pid w1 with
      | Some w2 =>
          let w3 := os_write (PyStr.of_Z pid) w2 in
          Some (true, w3,
                {| lock_file_fd := true; timeout := timeout l;
                   is_locked := true |})
      | None =>
          let l' := {| lock_file_fd := false; timeout := timeout l;
                       is_locked := is_locked l |} in
          if negb blocking then Some (false, w1, l')
          else if (clock w1 - start_time >=? timeout l)%Z
               then Some (false, w1, l')
               else acquire_loop fuel' blocking start_time pid (sleep 100 w1) l'
      end
  end.

(** Rounds that suffice: one per poll interval of the timeout, and one. *)
Definition rounds (l : FileLock) : nat :=
  S (S (Z.to_nat (timeout l / 100))).

(** [FileLock.acquire] *)
Definition acquire (blocking : bool) (pid : Z) (w : world) (l : FileLock)
  : option (bool * world * FileLock) :=
  acquire_loop (rounds l) blocking (clock w) pid w l.

(** [FileLock.release] on a platform where [unlink] succeeds. *)
Definition release (pid : Z) (w : world) (l : FileLock) : world * FileLock :=
  if negb (is_locked l) then (w, l)
  else
    let w1 := if lock_file_fd l then flock_un pid w else w in
    let w2 := match lock_file w1 with Some _ => unlink w1 | None => w1 end in
    (w2, {| lock_file_fd := false; timeout := timeout l; is_locked := false |}).

Definition is_digit (c : ascii) : bool :=
  let n := nat_of_ascii c in (48 <=? n)%nat && (n <=? 57)%nat.

(** The digits of a decimal literal, most significant first; single
    underscores may separate digits. *)
Fixpoint digits (after_digit : bool) (acc : Z) (s : string) : option Z :=
  match s with
  | EmptyString => if after_digit then Some acc else None
  | String c r =>
      if is_digit c
      then digits true (acc * 10 + Z.of_nat (nat_of_ascii c - 48))%Z r
      else if Ascii.eqb c "_" && after_digit
           then match r with
                | String d _ => if is_digit d then digits false acc r else None
                | EmptyString => None
                end
           else None
  end.

(** [int(s)]: [None] when Python raises [ValueError]. *)
Definition py_int (s : string) : option Z :=
  match PyStr.strip s with
  | String "-" r => option_map Z.opp (digits false 0 r)
  | String "+" r => digits false 0 r
  | t => digits false 0 t
  end.

(** The id the marker file records: [int(f.read().strip())]. *)
Definition recorded_pid (w : world) : option Z :=
  match lock_file w with
  | Some m => py_int (PyStr.strip (body m))
  | None => None
  end.

(** [KnowledgeMapLock.is_locked_by_another_process] on Unix; [alive pid]
    tells whether [os.kill(pid, 0)] returns without raising. *)
Definition is_locked_by_another_process (alive : Z -> bool) (w : world)
  : bool :=
  match lock_file w with
  | None => false
  | Some m =>
      match py_int (PyStr.strip (body m)) with
      | Some lock_pid => alive lock_pid
      | None => true
      end
  end.

End Lock.

(** ** tools/map_generator.py: reading and writing the index file *)

Module KnowledgeMap.

(** A value [yaml.safe_load] can return; [YNull] is Python's [None]. *)
#[warnings="-register-all"]
Inductive yaml :=
| YNull
| YBool (b : bool)
| YInt (z : Z)
| YStr (s : string)
| YList (items : list yaml)
| YMap (fields : list (string * yaml)).

(** A computation that returns a value or raises an exception (its
    message). *)
Inductive outcome (A : Type) :=
| Ok (a : A)
| Raise (e : string).
Arguments Ok {A} a.
Arguments Raise {A} e.

Definition is_none (v : yaml) : bool :=
  match v with YNull => true | _ => false end.

Definition is_mapping (v : yaml) : bool :=
  match v with YMap _ => true | _ => false end.

(** What the explorer holds after [_load_or_create_knowledge_map]: the
    exception that left the method (if any), the map it kept, how many
    times it called [generate_knowledge_map], and the index file. *)
Record loaded := {
  raised : option string;
  knowledge_map : yaml;
  builds : nat;
  index_file : option string
}.

Section WithParser.

(** [yaml.safe_load] on the text of a file: the parsed value, or the
    parser's exception. *)
Variable safe_load : string -> outcome yaml.

(** [generate_knowledge_map] seen from its caller: it leaves the index file
    in some state and returns, or raises. *)
Variable generate_knowledge_map : option string -> outcome (option string).

(** [load_knowledge_map]; the argument is the text of the index file,
    [None] when the file does not exist. *)
Definition load_knowledge_map (file : option string) : outcome yaml :=
  match file with
  | None => Ok YNull
  | Some text => safe_load text
  end.

(** [DocumentExplorer._load_or_create_knowledge_map] *)
Definition _load_or_create_knowledge_map (file : option string) : loaded :=
  match load_knowledge_map file with
  | Raise e =>
      {| raised := Some e; knowledge_map := YNull; builds := 0;
         index_file := file |}
  | Ok km =>
      if is_none km then
        match generate_knowledge_map file with
        | Raise e =>
            {| raised := Some e; knowledge_map := km; builds := 1;
               index_file := file |}
        | Ok file' =>
            match load_knowledge_map file' with
            | Raise e =>
                {| raised := Some e; knowledge_map := km; builds := 1;
                   index_file := file' |}
            | Ok km' =>
                {| raised := None; knowledge_map := km'; builds := 1;
                   index_file := file' |}
            end
        end
      else
        {| raised := None; knowledge_map := km; builds := 0;
           index_file := file |}
  end.

End WithParser.





(** A stand-in for [yaml.safe_load] to run the loader on concrete files:
    it answers as PyYAML does on the empty document ([None]), on a
    one-item sequence, on a one-field mapping and on an unterminated flow
    mapping (a [ParserError]); other texts are not needed and are
    rejected. *)
Definition sample_safe_load (text : string) : outcome yaml :=
  if String.eqb text "" then Ok YNull
  else if String.eqb text "- a" then Ok (YList [YStr "a"])
  else if String.eqb text "version: '1.0'"
       then Ok (YMap [("version", YStr "1.0")])
  else Raise "ParserError: while parsing a flow node".

(** A build that writes a one-field index. *)
Definition sample_generate (file : option string) : outcome (option string) :=
  Ok (Some "version: '1.0'").

End KnowledgeMap.

(** ** agents/explorer.py: the reasoning loop *)

Module Agent.

Record message := { role : string; content : string }.

Record step := { action : string; input : string; observation : string }.

(** What [ollama.chat(..., stream=True)] does for one request: the call
    itself raises, or it returns a stream that yields chunks and then ends,
    normally or with an exception.  A chunk is [Some text] when it carries
    [chunk['message']['content']]. *)
Inductive generation :=
| CallRaises (e : string)
| Stream (chunks : list (option string)) (failure : option string).

(** What [ask] returns, and the conversation history it leaves. *)
Record reply := {
  answer : string;
  steps : list step;
  conversation_history : list message
}.

(** The local variables of [ask] that live across iterations;
    [assistant_message] is unbound until its first assignment. *)
Record locals := {
  messages : list message;
  steps_so_far : list step;
  assistant_message : option string
}.

Definition nl : string := String "010" EmptyString.

(** The double quote character. *)
Definition dquote : ascii := "034"%char.

Definition max_chunks : Z := 2000.
Definition max_length : Z := 16000.

(** The [for chunk in stream] loop: the accumulated text, and the
    exception that ended the loop, if one did. *)
Fixpoint consume (chunks : list (option string)) (failure : option string)
    (assistant_message : string) (chunk_count : Z)
  : string * option string :=
  match chunks with
  | [] => (assistant_message, failure)
  | chunk :: rest =>
      let chunk_count := (chunk_count + 1)%Z in
      if (chunk_count >? max_chunks)%Z then
        (assistant_message +:+ nl +:+ nl
           +:+ "[Response truncated: exceeded maximum chunks]", None)
      else if (Z.of_nat (String.length assistant_message) >? max_length)%Z then
        (assistant_message +:+ nl +:+ nl
           +:+ "[Response truncated: exceeded maximum length]", None)
      else
        consume rest failure
          (match chunk with
           | Some content => assistant_message +:+ content
           | None => assistant_message
           end)
          chunk_count
  end.

(** The text the fragments of a stream make up, in order. *)
Fixpoint fragments_text (chunks : list (option string)) : string :=
  match chunks with
  | [] => EmptyString
  | Some content :: rest => content +:+ fragments_text rest
  | None :: rest => fragments_text rest
  end.

(** The two markers [consume] appends when it cuts a stream. *)
Definition truncation_markers : list string :=
  [nl +:+ nl +:+ "[Response truncated: exceeded maximum chunks]";
   nl +:+ nl +:+ "[Response truncated: exceeded maximum length]"].

(** The [except Exception] of the streaming block:
    [if not assistant_message: assistant_message = f"Error ...{e}"]. *)
Definition on_stream_error (assistant_message e : string) : string :=
  if PyStr.truthy assistant_message then assistant_message
  else "Error during response generation: " +:+ e.

(** The second element of [line.split(marker)]. *)
Definition after_marker (marker line : string) : string :=
  nth 1 (PyStr.split marker line) EmptyString.

(** The [for line in lines] loop over the utterance. *)
Fixpoint scan_lines (lines : list string)
    (action_line input_line : option string)
  : option string * option string :=
  match lines with
  | [] => (action_line, input_line)
  | line :: rest =>
      if PyStr.startswith "Action:" (PyStr.strip line) then
        scan_lines rest
          (Some (PyStr.strip (after_marker "Action:" line))) input_line
      else if PyStr.startswith "Action Input:" (PyStr.strip line) then
        scan_lines rest action_line
          (Some (PyStr.strip (after_marker "Action Input:" line)))
      else scan_lines rest action_line input_line
  end.

(** The tool call an utterance asks for, if it asks for one:
    [if action_line and input_line]. *)
Definition parse_action (assistant_message : string)
  : option (string * string) :=
  if PyStr.contains "Action:" assistant_message
     && PyStr.contains "Action Input:" assistant_message
  then
    match scan_lines (PyStr.split nl assistant_message) None None with
    | (Some action_line, Some input_line) =>
        if PyStr.truthy action_line && PyStr.truthy input_line
        then Some (action_line, input_line) else None
    | _ => None
    end
  else None.

Definition incomplete_indicators : list string :=
  ["I cannot"; "I don't have"; "no information"; "not found"; "unable to";
   "無法"; "找不到"; "沒有資訊"].

(** [DocumentExplorer._is_incomplete_answer] *)
Definition _is_incomplete_answer (answer : string) : bool :=
  let answer_lower := PyStr.lower answer in
  existsb (λ indicator, PyStr.contains (PyStr.lower indicator) answer_lower)
          incomplete_indicators.

(** [\w] on bytes: letters, digits, underscore; the bytes of a non-ASCII
    character count as letters. *)
Definition is_word_char (c : ascii) : bool :=
  let n := nat_of_ascii c in
  ((48 <=? n)%nat && (n <=? 57)%nat) || ((65 <=? n)%nat && (n <=? 90)%nat)
  || ((97 <=? n)%nat && (n <=? 122)%nat) || (n =? 95)%nat || (128 <=? n)%nat.

(** The maximal runs of word characters of [s], [cur] being the run in
    progress, reversed. *)
Fixpoint word_runs (s : string) (cur : list ascii) : list string :=
  match s with
  | EmptyString =>
      match cur with [] => [] | _ => [string_of_list_ascii (rev cur)] end
  | String c r =>
      if is_word_char c then word_runs r (c :: cur)
      else match cur with
           | [] => word_runs r []
           | _ => string_of_list_ascii (rev cur) :: word_runs r []
           end
  end.

(** [re.findall(r'\b\w{4,}\b', s)] *)
Definition findall_words4 (s : string) : list string :=
  filter (λ w, (4 ≤ String.length w)%nat) (word_runs s []).

Definition stop_words : list string :=
  ["what"; "when"; "where"; "which"; "who"; "how"; "the"; "this"; "that";
   "with"; "from"; "for"; "are"; "was"; "were"].

Section WithCollaborators.

(** [ollama.chat] for the message list sent to it. *)
Variable chat : list message -> generation.

(** The tools of [tools/file_ops.py]; each returns a string and raises
    nothing ([grep]'s third argument is [context_lines]). *)
Variable read_file : string -> string.
Variable grep : string -> string -> Z -> string.
Variable list_docs : string -> string.

(** [self._get_system_prompt(question)] *)
Variable _get_system_prompt : string -> string.

(** [self.directory.rglob('*')]: the paths, each with [is_file()];
    [None] when the scan raises. *)
Variable rglob : option (list (string * bool)).

(** [str(e)] of the [UnboundLocalError] raised when [assistant_message] is
    read before its first assignment. *)
Variable unbound_local_error : string.

Variable max_iterations : Z.

(** [DocumentExplorer._call_tool] *)
Definition _call_tool (tool_name tool_input : string) : string :=
  if String.eqb tool_name "read_file" then read_file tool_input
  else if String.eqb tool_name "grep" then
    match PyStr.split1 "," tool_input with
    | [p0; p1] =>
        let pattern := PyStr.strip_char "'" (PyStr.strip_char dquote (PyStr.strip p0)) in
        let file_path := PyStr.strip_char "'" (PyStr.strip_char dquote (PyStr.strip p1)) in
        grep pattern file_path 3
    | _ => "Error: grep requires pattern and file_path"
    end
  else if String.eqb tool_name "list_docs" then
    list_docs (if PyStr.truthy tool_input then tool_input else ".")
  else "Error: Unknown tool " +:+ tool_name.

(** A step as [ask] records it: the tool was named, given an input, and
    the observation is what that tool call returned. *)
Definition faithful_step (s : step) : Prop :=
  action s ≠ EmptyString ∧ input s ≠ EmptyString
  ∧ observation s = _call_tool (action s) (input s).

(** The [for file_path in self.directory.rglob('*')] loop of the fallback
    search. *)
Fixpoint search_files (keyword : string) (files : list (string * bool))
    (result_lines : list string) (found_any : bool) : list string * bool :=
  match files with
  | [] => (result_lines, found_any)
  | (file_path, is_file) :: rest =>
      if is_file && PyPath.is_supported file_path then
        let grep_result := grep keyword file_path 2 in
        if negb (PyStr.startswith "No matches" grep_result) then
          let result_lines :=
            (result_lines
             ++ ["**In " +:+ PyPath.name file_path +:+ ":**";
                 PyStr.take 200 grep_result +:+ "...";
                 EmptyString])%list in
          if (10 <? length result_lines)%nat then (result_lines, true)
          else search_files keyword rest result_lines true
        else search_files keyword rest result_lines found_any
      else search_files keyword rest result_lines found_any
  end.

(** [DocumentExplorer._fallback_keyword_search] *)
Definition _fallback_keyword_search (question : string) : string :=
  let words := findall_words4 (PyStr.lower question) in
  let keywords := filter (λ w, w ∉ stop_words) words in
  match keywords with
  | [] =>
      "💡 **Suggestion**: Try rephrasing your question or use 'locallm search <keyword>' to search documents directly."
  | keyword :: _ =>
      match rglob with
      | None =>
          "💡 **Suggestion**: Try 'locallm search " +:+ keyword
            +:+ "' to search documents directly."
      | Some files =>
          let '(result_lines, found_any) :=
            search_files keyword files
              ["💡 **Fallback Search Results** (keyword: '" +:+ keyword
                 +:+ "'):" +:+ nl] false in
          if negb found_any then
            "💡 No direct matches found. Try using 'locallm search " +:+ keyword
              +:+ "' or 'locallm list' to explore available documents."
          else PyStr.join nl result_lines
      end
  end.

(** One generation request and the consumption of its stream: the
    utterance ([inl]), or the exception that leaves the iteration
    ([inr]). *)
Definition generate (st : locals) : string + string :=
  match chat (messages st) with
  | CallRaises e =>
      match assistant_message st with
      | Some previous => inl (on_stream_error previous e)
      | None => inr unbound_local_error
      end
  | Stream chunks failure =>
      match consume chunks failure EmptyString 0 with
      | (text, Some e) => inl (on_stream_error text e)
      | (text, None) => inl text
      end
  end.

(** The [for iteration in range(self.max_iterations)] loop of [ask];
    [remaining] counts the iterations left. *)
Fixpoint ask_loop (remaining : nat) (iteration : Z) (question : string)
    (history : list message) (st : locals) : reply :=
  match remaining with
  | O =>
      {| answer := "Maximum iterations reached without final answer.";
         steps := steps_so_far st;
         conversation_history := history |}
  | S remaining' =>
      match generate st with
      | inr e =>
          {| answer := "Error: " +:+ e +:+ nl +:+ nl
                         +:+ _fallback_keyword_search question;
             steps := steps_so_far st;
             conversation_history := history |}
      | inl assistant_message =>
          let messages :=
            messages st ++ [{| role := "assistant";
                               content := assistant_message |}] in
          match parse_action assistant_message with
          | Some (action_line, input_line) =>
              let observation := _call_tool action_line input_line in
              ask_loop remaining' (iteration + 1) question history
                {| messages :=
                     messages ++ [{| role := "user";
                                     content := "Observation: " +:+ observation |}];
                   steps_so_far :=
                     steps_so_far st
                     ++ [{| action := action_line; input := input_line;
                            observation := observation |}];
                   assistant_message := Some assistant_message |}
          | None =>
              if PyStr.contains "Final Answer:" assistant_message then
                let final_answer :=
                  PyStr.strip (after_marker "Final Answer:" assistant_message) in
                {| answer := final_answer;
                   steps := steps_so_far st;
                   conversation_history :=
                     history ++ [{| role := "user"; content := question |};
                                 {| role := "assistant";
                                    content := final_answer |}] |}
              else if negb (PyStr.contains "Action:" assistant_message) then
                {| answer := assistant_message;
                   steps := steps_so_far st;
                   conversation_history :=
                     history ++ [{| role := "user"; content := question |};
                                 {| role := "assistant";
                                    content := assistant_message |}] |}
              else if (iteration =? max_iterations - 1)%Z then
                if _is_incomplete_answer assistant_message then
                  {| answer := assistant_message +:+ nl +:+ nl
                                 +:+ _fallback_keyword_search question;
                     steps := steps_so_far st;
                     conversation_history := history |}
                else
                  {| answer := assistant_message;
                     steps := steps_so_far st;
                     conversation_history := history |}
              else
                ask_loop remaining' (iteration + 1) question history
                  {| messages := messages;
                     steps_so_far := steps_so_far st;
                     assistant_message := Some assistant_message |}
          end
      end
  end.

(** [DocumentExplorer.ask] without callbacks *)
Definition ask (question : string) (history : list message) : reply :=
  let system := {| role := "system";
                   content := _get_system_prompt question |} in
  let user := {| role := "user"; content := question |} in
  ask_loop (Z.to_nat max_iterations) 0 question history
    {| messages := [system] ++ history ++ [user];
       steps_so_far := [];
       assistant_message := None |}.

End WithCollaborators.

(** The locals with which the loop goes on after an utterance that
    dispatched no tool and was not returned. *)
Definition carried_on (st : locals) (u : string) : locals :=
  {| messages := messages st ++ [{| role := "assistant"; content := u |}];
     steps_so_far := steps_so_far st;
     assistant_message := Some u |}.

(** The locals at the start of the loop of [ask]. *)
Definition initial_locals (system_prompt question : string)
    (history : list message) : locals :=
  {| messages := [{| role := "system"; content := system_prompt |}]
                 ++ history ++ [{| role := "user"; content := question |}];
     steps_so_far := [];
     assistant_message := None |}.

(** *** Stand-ins for the collaborators, to run [ask] on concrete turns *)

Definition sample_read_file (file_path : string) : string :=
  "Project Alpha uses 8GB budget.".

Definition sample_grep (pattern file_path : string) (context_lines : Z)
  : string :=
  "No matches found for '" +:+ pattern +:+ "' in " +:+ file_path.

Definition sample_list_docs (directory : string) : string :=
  "Found 1 document(s) in " +:+ directory +:+ ":" +:+ nl.

Definition sample_prompt (question : string) : string :=
  "You are a document assistant.".

Definition sample_rglob : option (list (string * bool)) :=
  Some [("notes.txt", true)].

Definition sample_unbound : string :=
  "cannot access local variable 'assistant_message' where it is not associated with a value".

(** A model that first names a tool without giving its input, and
    answers on the next request. *)
Definition chat_malformed_then_final (msgs : list message) : generation :=
  if (length msgs <=? 2)%nat then Stream [Some "Action: read_file"] None
  else Stream [Some "Final Answer: 42"] None.

(** A model that asks for a tool on every request. *)
Definition chat_always_acts (msgs : list message) : generation :=
  Stream [Some "I cannot tell yet."; Some nl; Some "Action: list_docs";
          Some nl; Some "Action Input: ."] None.

(** A model that names a tool without input on every request. *)
Definition chat_never_resolves (msgs : list message) : generation :=
  Stream [Some "I cannot find it. "; Some "Action: read_file"] None.



(** A transport that fails after two fragments of plain text. *)
Definition chat_fails_midway (msgs : list message) : generation :=
  Stream [Some "The budget "; Some "is 8"] (Some "connection reset").

(** [ask] with the sample tools. *)
Definition sample_ask (chat : list message -> generation)
    (max_iterations : Z) (question : string) : reply :=
  ask chat sample_read_file sample_grep sample_list_docs sample_prompt
    sample_rglob sample_unbound max_iterations question [].

End Agent.

(** ** tools/file_ops.py *)

Module FileOps.

Import KnowledgeMap.

(** [text.split('\n')] *)
Definition lines_of (text : string) : list string :=
  PyStr.split Agent.nl text.

Definition upper_char (c : ascii) : ascii :=
  let n := nat_of_ascii c in
  if (97 <=? n)%nat && (n <=? 122)%nat then ascii_of_nat (n - 32) else c.

(** [s.upper()] *)
Fixpoint upper (s : string) : string :=
  match s with
  | String c r => String (upper_char c) (upper r)
  | EmptyString => EmptyString
  end.

(** [file_path.suffix[1:].upper()] *)
Definition type_label (file_path : string) : string :=
  upper (PyStr.drop 1 (PyPath.suffix file_path)).

(** An item of [documents] in [list_docs]; [size_kb] is kept as the text
    an f-string prints for it. *)
Record document := {
  path : string;
  name : string;
  type_ : string;
  size_kb : string;
  modified : Z
}.

(** [documents.sort(key=lambda x: x['modified'], reverse=True)]: newest
    first, documents of the same time in the order they had. *)
Fixpoint insert_newest (doc : document) (sorted : list document)
  : list document :=
  match sorted with
  | [] => [doc]
  | doc' :: rest =>
      if (modified doc <? modified doc')%Z
      then doc' :: insert_newest doc rest
      else doc :: sorted
  end.

Definition sort_newest_first (documents : list document) : list document :=
  foldr insert_newest [] documents.

(** The two lines [list_docs] prints for each document. *)
Definition listing_lines (documents : list document) : list string :=
  flat_map
    (fun doc =>
       ["  • " +:+ name doc +:+ " (" +:+ type_ doc +:+ ", " +:+ size_kb doc
        +:+ " KB)";
        "    Path: " +:+ path doc])
    documents.

Section WithReaders.

(** [str(Path(p))]: the path as [pathlib] writes it; ["./notes.txt"]
    becomes ["notes.txt"].  [read_file] and [list_docs] turn their
    argument into a [Path] first, and what they do and print afterwards is
    on that path. *)
Variable path_str : string -> string.

(** [file_path.exists()] *)
Variable exists_ : string -> bool.

(** What the document libraries give: the texts of the pages of a PDF
    ([page.get_text()]), the texts of the paragraphs of a Word document
    ([para.text]), the text of a text file; or the exception they raise. *)
Variable pdf_pages : string -> outcome (list string).
Variable docx_paragraphs : string -> outcome (list string).
Variable text_of : string -> outcome string.

(** [re.compile(pattern, re.IGNORECASE)]: the compiled pattern as the
    test [regex.search(line)], or the exception of [re.compile]. *)
Variable compile : string -> outcome (string -> bool).

(** The page blocks of [_read_pdf], pages numbered from [page_num]. *)
Fixpoint page_blocks (page_num : nat) (pages : list string) : list string :=
  match pages with
  | [] => []
  | text :: rest =>
      ("--- Page " +:+ PyStr.of_nat page_num +:+ " ---" +:+ Agent.nl +:+ text)
      :: page_blocks (S page_num) rest
  end.

(** [_read_pdf] *)
Definition _read_pdf (file_path : string) : outcome string :=
  match pdf_pages file_path with
  | Ok pages => Ok (PyStr.join (Agent.nl +:+ Agent.nl) (page_blocks 1 pages))
  | Raise e => Raise e
  end.

(** [_read_docx] *)
Definition _read_docx (file_path : string) : outcome string :=
  match docx_paragraphs file_path with
  | Ok paragraphs =>
      Ok (PyStr.join (Agent.nl +:+ Agent.nl)
            (List.filter (fun text => PyStr.truthy (PyStr.strip text))
               paragraphs))
  | Raise e => Raise e
  end.

(** [_read_text] *)
Definition _read_text (file_path : string) : outcome string :=
  text_of file_path.

(** The [except Exception] of [read_file]. *)
Definition or_read_error (file_path : string) (r : outcome string) : string :=
  match r with
  | Ok text => text
  | Raise e => "Error reading file " +:+ file_path +:+ ": " +:+ e
  end.

(** [read_file] *)
Definition read_file (file_path : string) : string :=
  let file_path := path_str file_path in
  if negb (exists_ file_path) then "Error: File not found: " +:+ file_path
  else
    let suffix := PyStr.lower (PyPath.suffix file_path) in
    if String.eqb suffix ".pdf" then
      or_read_error file_path (_read_pdf file_path)
    else if String.eqb suffix ".docx" || String.eqb suffix ".doc" then
      or_read_error file_path (_read_docx file_path)
    else if String.eqb suffix ".txt" || String.eqb suffix ".md"
            || String.eqb suffix ".markdown" then
      or_read_error file_path (_read_text file_path)
    else "Error: Unsupported file type: " +:+ PyPath.suffix file_path.

(** What [grep] prints for line [j] in the block of a match at line [i]:
    [f"{prefix}Line {j+1}: {lines[j]}"]. *)
Definition shown (lines : list string) (i j : nat) : string :=
  (if Nat.eqb j i then ">>> " else "    ")
  +:+ "Line " +:+ PyStr.of_nat (j + 1) +:+ ": " +:+ nth j lines EmptyString.

(** One context block of [grep]: the lines [start .. end-1] (counted
    from 0), each with its number, line [i] marked. *)
Fixpoint context_block (lines : list string) (i j : nat) (count : nat)
  : list string :=
  match count with
  | O => []
  | S count' => shown lines i j :: context_block lines i (S j) count'
  end.

(** The [for i, line in enumerate(lines)] loop of [grep]; [rest] are the
    lines from index [i] on. *)
Fixpoint match_blocks (search : string -> bool) (lines : list string)
    (context_lines : nat) (i : nat) (rest : list string) : list string :=
  match rest with
  | [] => []
  | line :: rest' =>
      if search line then
        let start := Nat.max 0 (i - context_lines) in
        let end_ := Nat.min (length lines) (i + context_lines + 1) in
        PyStr.join Agent.nl (context_block lines i start (end_ - start))
        :: match_blocks search lines context_lines (S i) rest'
      else match_blocks search lines context_lines (S i) rest'
  end.

(** [grep] *)
Definition grep (pattern file_path : string) (context_lines : nat) : string :=
  let content := read_file file_path in
  if PyStr.startswith "Error:" content then content
  else
    let lines := lines_of content in
    match compile pattern with
    | Raise e => "Error searching file " +:+ file_path +:+ ": " +:+ e
    | Ok search =>
        match match_blocks search lines context_lines 0 lines with
        | [] => "No matches found for '" +:+ pattern +:+ "' in " +:+ file_path
        | matches =>
            "Found " +:+ PyStr.of_nat (length matches) +:+ " match(es) for '"
            +:+ pattern +:+ "' in " +:+ file_path +:+ ":" +:+ Agent.nl
            +:+ Agent.nl
            +:+ PyStr.join (Agent.nl +:+ Agent.nl +:+ "---" +:+ Agent.nl
                            +:+ Agent.nl) matches
        end
    end.

(** [directory.exists()], [directory.rglob('*')] with [is_file()] for each
    path, [file_path.stat()] (size and mtime, or the exception),
    [str(file_path.relative_to(directory))] and the text of
    [round(st_size / 1024, 2)]. *)
Variable dir_exists : string -> bool.
Variable rglob : string -> list (string * bool).
Variable stat : string -> outcome (Z * Z).
Variable relative_to : string -> string -> string.
Variable show_kb : Z -> string.

(** The [for file_path in directory.rglob('*')] loop of [list_docs]. *)
Fixpoint collect (directory : string) (entries : list (string * bool))
  : outcome (list document) :=
  match entries with
  | [] => Ok []
  | (file_path, is_file) :: rest =>
      if is_file && PyPath.is_supported file_path then
        match stat file_path with
        | Raise e => Raise e
        | Ok (st_size, st_mtime) =>
            match collect directory rest with
            | Raise e => Raise e
            | Ok documents =>
                Ok ({| path := relative_to file_path directory;
                       name := PyPath.name file_path;
                       type_ := type_label file_path;
                       size_kb := show_kb st_size;
                       modified := st_mtime |} :: documents)
            end
        end
      else collect directory rest
  end.

(** [list_docs] *)
Definition list_docs (directory : string) : string :=
  let directory := path_str directory in
  if negb (dir_exists directory) then
    "Error: Directory not found: " +:+ directory
  else
    match collect directory (rglob directory) with
    | Raise e => "Error listing documents in " +:+ directory +:+ ": " +:+ e
    | Ok [] => "No documents found in " +:+ directory
    | Ok documents =>
        let documents := sort_newest_first documents in
        PyStr.join Agent.nl
          (("Found " +:+ PyStr.of_nat (length documents) +:+ " document(s) in "
            +:+ directory +:+ ":" +:+ Agent.nl)
           :: listing_lines documents)
    end.

End WithReaders.

(** Stand-ins to run the tools on a small directory [docs]: a guide and
    notes that can be read, a text file of blanks, a PDF the reader cannot
    open, and a file of a type that is not supported.  The paths of the
    stand-ins are written the way [pathlib] writes them. *)
Definition sample_path_str (p : string) : string := p.

Definition sample_exists (file_path : string) : bool := true.

Definition sample_pdf_pages (file_path : string) : outcome (list string) :=
  Raise "cannot open broken document".

Definition sample_docx_paragraphs (file_path : string)
  : outcome (list string) :=
  Ok [].

Definition sample_text_of (file_path : string) : outcome string :=
  if String.eqb file_path "docs/guide.md" then
    Ok ("# Guide" +:+ Agent.nl +:+ "Install it, then run it.")
  else if String.eqb file_path "docs/notes.txt" then
    Ok ("budget 2024" +:+ Agent.nl +:+ "travel" +:+ Agent.nl
        +:+ "Budget review")
  else Ok ("  " +:+ Agent.nl).

(** [re.compile(pattern, re.IGNORECASE)] for a pattern without special
    characters: the search for the pattern in any case. *)
Definition sample_compile (pattern : string) : outcome (string -> bool) :=
  Ok (fun line => PyStr.contains (PyStr.lower pattern) (PyStr.lower line)).

Definition sample_dir_exists (directory : string) : bool := true.

Definition sample_rglob (directory : string) : list (string * bool) :=
  [("docs", false); ("docs/guide.md", true); ("docs/blank.txt", true);
   ("docs/scan.pdf", true); ("docs/notes.txt", true);
   ("docs/todo.yaml", true)].

Definition sample_stat (file_path : string) : outcome (Z * Z) :=
  Ok (2048, 1700000000)%Z.

Definition sample_relative_to (file_path directory : string) : string :=
  PyStr.drop (String.length directory + 1) file_path.

Definition sample_show_kb (st_size : Z) : string :=
  PyStr.of_Z (st_size / 1024) +:+ ".0".

Definition sample_read_file : string -> string :=
  read_file sample_path_str sample_exists sample_pdf_pages
    sample_docx_paragraphs sample_text_of.

Definition sample_grep : string -> string -> nat -> string :=
  grep sample_path_str sample_exists sample_pdf_pages sample_docx_paragraphs
    sample_text_of sample_compile.

Definition sample_list_docs : string -> string :=
  list_docs sample_path_str sample_dir_exists sample_rglob sample_stat
    sample_relative_to sample_show_kb.

End FileOps.

(** ** tools/map_generator.py: building the index *)

Module Builder.

Import KnowledgeMap.

Local Abbreviation type_label := FileOps.type_label.

(** [Path(p).stem]: the name without its suffix. *)
Definition stem (p : string) : string :=
  let n := PyPath.name p in
  match PyStr.rfind_char "." n with
  | Some i =>
      if (0 <? i)%nat && (i <? String.length n - 1)%nat
      then PyStr.take i n else n
  | None => n
  end.

(** The three bytes of a character in [一-鿿]. *)
Definition is_cjk (b0 b1 b2 : ascii) : bool :=
  let n0 := nat_of_ascii b0 in
  let n1 := nat_of_ascii b1 in
  let n2 := nat_of_ascii b2 in
  ((128 <=? n1)%nat && (n1 <=? 191)%nat && (128 <=? n2)%nat && (n2 <=? 191)%nat)
  && (((n0 =? 228)%nat && (184 <=? n1)%nat)
      || ((229 <=? n0)%nat && (n0 <=? 233)%nat)).

(** [re.findall(r'[一-鿿]+', s)]; [cur] is the run in progress,
    reversed. *)
Fixpoint cjk_runs (s : string) (cur : list ascii) : list string :=
  let close := match cur with
               | [] => []
               | _ => [string_of_list_ascii (rev cur)]
               end in
  match s with
  | EmptyString => close
  | String b0 t =>
      match t with
      | String b1 (String b2 r) =>
          if is_cjk b0 b1 b2 then cjk_runs r (b2 :: b1 :: b0 :: cur)
          else close ++ cjk_runs t []
      | _ => close ++ cjk_runs t []
      end
  end.

(** [re.search(r'[一-鿿]', s)] as a truth value *)
Fixpoint has_cjk (s : string) : bool :=
  match s with
  | EmptyString => false
  | String b0 t =>
      match t with
      | String b1 (String b2 _) => is_cjk b0 b1 b2 || has_cjk t
      | _ => has_cjk t
      end
  end.

(** [f"{n:03d}"] *)
Definition pad3 (digits : string) : string :=
  match String.length digits with
  | 0%nat => "000" +:+ digits
  | 1%nat => "00" +:+ digits
  | 2%nat => "0" +:+ digits
  | _ => digits
  end.

(** [f"doc_{n:03d}"] *)
Definition doc_id (n : nat) : string := "doc_" +:+ pad3 (PyStr.of_nat n).

(** The sample of a document's text: the text itself up to 8000
    characters, else its first 4800 ([int(max_chars * 0.6)]) and its last
    3200, around an elision mark. *)
Definition sample (content : string) : string :=
  let max_chars := 8000%N in
  if (N.of_nat (String.length content) <=? max_chars)%N then content
  else
    let head_size := 4800%N in
    let tail_size := (max_chars - head_size)%N in
    PyStr.take (N.to_nat head_size) content
    +:+ Agent.nl +:+ Agent.nl +:+ "..." +:+ Agent.nl +:+ Agent.nl
    +:+ PyStr.drop (String.length content - N.to_nat tail_size) content.

(** The filename fallback for empty key concepts. *)
Definition filename_concepts (file_path : string) : list string :=
  if has_cjk (stem file_path) then
    match cjk_runs (stem file_path) [] with
    | [] => [type_label file_path +:+ " document"]
    | filename_words => firstn 3 filename_words
    end
  else [stem file_path].

Section WithCollaborators.

(** The type of the floats kept in the index as they are. *)
Variable float : Type.

(** [round(st_size / 1024, 2)] *)
Variable size_kb_of : Z -> float.

Record entry := {
  id : string;
  title : string;
  path : string;
  file_type : string;
  size_kb : float;
  description : string;
  key_concepts : list string;
  last_updated : Z
}.

Record knowledge_map := {
  version : string;
  directory : string;
  total_documents : nat;
  documents : list entry
}.

(** What [generate_knowledge_map] returns, and the index it has written
    to the output file, if it has written one.  The directory scan and the
    write at the end ([open] and [yaml.dump], whose steps are
    [KnowledgeMap.save_states]) are taken to succeed. *)
Record built := {
  message : string;
  written : option knowledge_map
}.

(** [list_docs.invoke(str(directory))] *)
Variable docs_list : string.

(** [directory.rglob('*')]: the paths with [is_file()]. *)
Variable rglob : list (string * bool).

(** [read_file.invoke(str(file_path))] *)
Variable read_file : string -> string.

(** [_extract_toc_or_abstract], [_ai_analyze_toc] (title, text, type) and
    [_ai_analyze_document] (title, content, type). *)
Variable _extract_toc_or_abstract : string -> string.
Variable _ai_analyze_toc : string -> string -> string -> string * list string.
Variable _ai_analyze_document :
  string -> string -> string -> string * list string.

(** [file_path.stat()]: size and mtime, or the exception. *)
Variable stat : string -> outcome (Z * Z).

(** [str(file_path.relative_to(directory))] and
    [str(directory.absolute())] *)
Variable relative_to_directory : string -> string.
Variable absolute_directory : string.

Variable output_file : string.
Variable fast_mode : bool.

(** The files to process: supported regular files other than the output
    file. *)
Definition files_to_process : list string :=
  omap (fun '(file_path, is_file) =>
          if is_file && PyPath.is_supported file_path
             && negb (String.eqb (PyPath.name file_path) output_file)
          then Some file_path else None) rglob.

(** The description and key concepts of one document. *)
Definition analyze (file_path content : string) : string * list string :=
  let '(description, key_concepts) :=
    if fast_mode then
      let content_sample := sample content in
      let toc_or_abstract := _extract_toc_or_abstract content_sample in
      let toc_or_abstract :=
        if negb (PyStr.truthy toc_or_abstract)
           || (String.length toc_or_abstract <? 100)%nat
        then PyStr.take 2000 content_sample else toc_or_abstract in
      _ai_analyze_toc (stem file_path) toc_or_abstract (type_label file_path)
    else
      _ai_analyze_document (PyPath.name file_path) content
        (type_label file_path) in
  (description,
   match key_concepts with
   | [] => filename_concepts file_path
   | _ => key_concepts
   end).

(** Whether the loop skips a file for what [read_file] returned. *)
Definition skipped (content : string) : bool :=
  PyStr.startswith "Error:" content
  || negb (PyStr.truthy content)
  || (String.length (PyStr.strip content) =? 0)%nat.

(** The [for idx, file_path in enumerate(files_to_process, 1)] loop. *)
Fixpoint process (files : list string) (document_entries : list entry)
  : outcome (list entry) :=
  match files with
  | [] => Ok document_entries
  | file_path :: rest =>
      let content := read_file file_path in
      if skipped content then process rest document_entries
      else
        let '(description, key_concepts) := analyze file_path content in
        match stat file_path with
        | Raise e => Raise e
        | Ok (st_size, st_mtime) =>
            process rest
              (document_entries
               ++ [{| id := doc_id (length document_entries);
                      title := stem file_path;
                      path := relative_to_directory file_path;
                      file_type := PyStr.drop 1 (PyPath.suffix file_path);
                      size_kb := size_kb_of st_size;
                      description := description;
                      key_concepts := key_concepts;
                      last_updated := st_mtime |}])
        end
  end.

(** [generate_knowledge_map] *)
Definition generate_knowledge_map : outcome built :=
  if PyStr.startswith "Error:" docs_list
     || PyStr.contains "No documents found" docs_list
  then Ok {| message := docs_list; written := None |}
  else
    match files_to_process with
    | [] => Ok {| message := "No documents found to process.";
                  written := None |}
    | _ =>
        match process files_to_process [] with
        | Raise e => Raise e
        | Ok document_entries =>
            Ok {| message :=
                    "✓ Knowledge map created ("
                    +:+ PyStr.of_nat (length document_entries)
                    +:+ " documents)";
                  written :=
                    Some {| version := "1.0";
                            directory := absolute_directory;
                            total_documents := length document_entries;
                            documents := document_entries |} |}
        end
    end.

(** The files of the loop that end up in the index. *)
Definition indexable (file_path : string) : bool :=
  negb (skipped (read_file file_path)).

End WithCollaborators.

Arguments id {float}.
Arguments title {float}.
Arguments path {float}.
Arguments file_type {float}.
Arguments size_kb {float}.
Arguments description {float}.
Arguments key_concepts {float}.
Arguments last_updated {float}.
Arguments version {float}.
Arguments directory {float}.
Arguments total_documents {float}.
Arguments documents {float}.
Arguments message {float}.
Arguments written {float}.

(** Stand-ins to run the builder on the directory of the stand-ins of
    [FileOps], with a model that cannot be reached: both analyses then
    give their own fallback descriptions and no key concept.  Sizes are
    kept in whole kilobytes. *)
Definition sample_extract (content_sample : string) : string := "".

Definition sample_analyze_toc (title toc_or_abstract file_type : string)
  : string * list string :=
  ("Document: " +:+ title, []).

Definition sample_analyze_document (title content file_type : string)
  : string * list string :=
  (file_type +:+ " document: " +:+ title, []).

Definition sample_build (docs_list : string) (stat : string -> outcome (Z * Z))
  : outcome (built Z) :=
  generate_knowledge_map Z (fun st_size => (st_size / 1024)%Z) docs_list
    (FileOps.sample_rglob "docs") FileOps.sample_read_file sample_extract
    sample_analyze_toc sample_analyze_document stat
    (fun file_path => FileOps.sample_relative_to file_path "docs")
    "/home/user/docs" "knowledge_map.yaml" true.

End Builder.

(** * Properties *)

(** ** Strings *)

Lemma append_nil_r (s : string) : s +:+ "" = s.
Proof.
  induction s as [|a s IH]; [done|].
  change (String a (s +:+ "") = String a s). by f_equal.
Qed.

Lemma append_assoc (s1 s2 s3 : string) :
  (s1 +:+ s2) +:+ s3 = s1 +:+ (s2 +:+ s3).
Proof.
  induction s1 as [|a s1 IH]; [done|].
  change (String a ((s1 +:+ s2) +:+ s3) = String a (s1 +:+ (s2 +:+ s3))).
  by f_equal.
Qed.

Lemma drop_nil (n : nat) : PyStr.drop n "" = "".
Proof. by destruct n. Qed.

Lemma truthy_nonempty (s : string) : PyStr.truthy s = true → s ≠ "".
Proof. by destruct s. Qed.

(** ** Change watcher *)

Section WatcherFacts.

Import Watcher.

Implicit Types (fs : gmap string dir_entry) (w : DocumentWatcher).

Lemma take_snapshot_lookup fs p :
  _take_snapshot fs !! p =
  fs !! p ≫= (λ e, if is_file e && PyPath.is_supported p
                    then st_mtime e else None).
Proof. unfold _take_snapshot. by rewrite map_lookup_imap. Qed.

Lemma take_snapshot_added fs F e t :
  is_file e = true → PyPath.is_supported F = true → st_mtime e = Some t →
  _take_snapshot (<[F:=e]> fs) !! F = Some t.
Proof.
  intros Hf Hs Ht. rewrite take_snapshot_lookup, lookup_insert_eq. simpl.
  by rewrite Hf, Hs.
Qed.

Lemma check_stores_scan fs now w :
  _last_snapshot (check_for_changes fs now w).2 = _take_snapshot fs.
Proof. reflexivity. Qed.

(** A check against a watcher whose stored snapshot is the scan of the
    same directory finds nothing. *)
Lemma check_same_scan_empty fs now w :
  _last_snapshot w = _take_snapshot fs →
  let c := (check_for_changes fs now w).1 in
  added c = ∅ ∧ modified c = ∅ ∧ deleted c = ∅.
Proof.
  intros Hw. simpl. rewrite Hw. repeat split.
  - apply difference_diag_L.
  - apply leibniz_equiv. intros x. rewrite elem_of_filter.
    split; [intros [Hne _]; by destruct Hne | intros Hx; by apply elem_of_empty in Hx].
  - apply difference_diag_L.
Qed.

Lemma any_change_false c :
  added c = ∅ → modified c = ∅ → deleted c = ∅ → any_change c = false.
Proof.
  intros Ha Hm Hd. unfold any_change, nonempty. rewrite Ha, Hm, Hd.
  by rewrite !bool_decide_eq_false_2 by (intros H; by apply H).
Qed.

(** Adding the supported, readable file [F] to the directory the stored
    snapshot was taken of: the check reports exactly [F], as added. *)
Lemma check_after_adding_file fs now w F e t :
  _last_snapshot w = _take_snapshot fs →
  fs !! F = None →
  is_file e = true → PyPath.is_supported F = true → st_mtime e = Some t →
  let c := (check_for_changes (<[F:=e]> fs) now w).1 in
  added c = {[F]} ∧ modified c = ∅ ∧ deleted c = ∅.
Proof.
  intros Hw Hnew Hf Hs Ht. simpl. rewrite Hw.
  assert (Hsnap : _take_snapshot (<[F:=e]> fs) = <[F:=t]> (_take_snapshot fs)).
  { unfold _take_snapshot. apply map_imap_insert_Some. by rewrite Hf, Hs. }
  assert (HF : _take_snapshot fs !! F = None).
  { by rewrite take_snapshot_lookup, Hnew. }
  rewrite Hsnap, dom_insert_L.
  apply not_elem_of_dom in HF as HFd.
  repeat split; apply leibniz_equiv.
  - intros x. rewrite elem_of_difference, elem_of_union, !elem_of_singleton.
    split; [intros [[->|Hx] Hn]; [done|by destruct Hn]|intros ->; by split; [left|]].
  - intros x. rewrite elem_of_filter, elem_of_intersection, elem_of_union,
      elem_of_singleton.
    split; [|intros Hx; by apply elem_of_empty in Hx].
    intros (Hne & _ & Hx). destruct (decide (x = F)) as [->|Hxf]; [done|].
    by rewrite lookup_insert_ne in Hne.
  - intros x. rewrite elem_of_difference, elem_of_union.
    split; [|intros Hx; by apply elem_of_empty in Hx].
    intros [Hx Hn]. destruct Hn. by right.
Qed.

End WatcherFacts.

(** C8. Whatever snapshot the watcher holds, once a supported, readable
    file [F] it does not know is added to the directory, the next
    [check_for_changes] reports [F] as added (and neither as modified nor
    as deleted), and the call after it, on the unchanged directory, reports
    all three sets empty: [F] is reported exactly once. *)
Theorem check_for_changes_reports_added_once
    (w : Watcher.DocumentWatcher) (fs : gmap string Watcher.dir_entry)
    (F : string) (e : Watcher.dir_entry) (t now1 now2 : Z) :
  F ∉ dom (Watcher._last_snapshot w) →
  Watcher.is_file e = true →
  PyPath.is_supported F = true →
  Watcher.st_mtime e = Some t →
  let fs' := <[F:=e]> fs in
  let r1 := Watcher.check_for_changes fs' now1 w in
  let r2 := Watcher.check_for_changes fs' now2 (snd r1) in
  (F ∈ Watcher.added (fst r1) ∧ (F ∉ Watcher.modified (fst r1))
   ∧ (F ∉ Watcher.deleted (fst r1)))
  ∧ Watcher.added (fst r2) = ∅ ∧ Watcher.modified (fst r2) = ∅
  ∧ Watcher.deleted (fst r2) = ∅.
Proof.
  intros Hnew Hf Hs Ht fs' r1 r2.
  pose proof (take_snapshot_added fs F e t Hf Hs Ht) as HF.
  split.
  - subst r1 fs'. simpl. repeat split.
    + apply elem_of_difference. split; [|done].
      apply elem_of_dom. by rewrite HF.
    + rewrite elem_of_filter, elem_of_intersection. by intros (_ & _ & Hin).
    + rewrite elem_of_difference. by intros [Hin _].
  - apply (check_same_scan_empty fs' now2 (snd r1)). reflexivity.
Qed.

(** Witness for C8: a watcher started on an empty directory, to which
    [notes.txt] is added. *)
Lemma check_for_changes_reports_added_once_witness :
  let w := Watcher.init "." ∅ 0 in
  let e := {| Watcher.is_file := true; Watcher.st_mtime := Some 1700000000%Z |} in
  let fs' := <["notes.txt":=e]> (∅ : gmap string Watcher.dir_entry) in
  let r1 := Watcher.check_for_changes fs' 1 w in
  let r2 := Watcher.check_for_changes fs' 2 (snd r1) in
  ("notes.txt" ∈ Watcher.added (fst r1)
   ∧ ("notes.txt" ∉ Watcher.modified (fst r1))
   ∧ ("notes.txt" ∉ Watcher.deleted (fst r1)))
  ∧ Watcher.added (fst r2) = ∅ ∧ Watcher.modified (fst r2) = ∅
  ∧ Watcher.deleted (fst r2) = ∅.
Proof.
  apply (check_for_changes_reports_added_once
           (Watcher.init "." ∅ 0) ∅ "notes.txt"
           {| Watcher.is_file := true; Watcher.st_mtime := Some 1700000000%Z |}
           1700000000 1 2).
  - apply not_elem_of_dom. reflexivity.
  - reflexivity.
  - vm_compute. reflexivity.
  - reflexivity.
Defined.

(** C10. [has_changes] is a full [check_for_changes]: it stores the new
    scan.  So after it has answered [true], a [check_for_changes] on the
    unchanged directory reports all three sets empty,
    [get_change_summary] says that nothing changed, and the summary
    [check_for_updates] puts in its warning is that very sentence. *)
Theorem has_changes_consumes_delta
    (w : Watcher.DocumentWatcher) (fs : gmap string Watcher.dir_entry)
    (now1 now2 now3 : Z) :
  (Watcher.has_changes fs now1 w).1 = true →
  let w' := (Watcher.has_changes fs now1 w).2 in
  let c := (Watcher.check_for_changes fs now2 w').1 in
  Watcher._last_snapshot w' = Watcher._take_snapshot fs
  ∧ (Watcher.added c = ∅ ∧ Watcher.modified c = ∅ ∧ Watcher.deleted c = ∅)
  ∧ (Watcher.get_change_summary fs now3 w').1 = "No changes detected"
  ∧ (Watcher.check_for_updates fs now1 w).1 =
      Some ("⚠️  Document changes detected:" +:+ String "010" EmptyString
            +:+ "No changes detected" +:+ String "010" (String "010" EmptyString)
            +:+ "Consider running 'locallm rebuild-map' to update the knowledge base.").
Proof.
  intros Hchg w' c.
  assert (Hsnap : Watcher._last_snapshot w' = Watcher._take_snapshot fs)
    by reflexivity.
  assert (Hsum : ∀ now, (Watcher.get_change_summary fs now w').1
                        = "No changes detected").
  { intros now. unfold Watcher.get_change_summary.
    destruct (check_same_scan_empty fs now w' Hsnap) as (Ha & Hm & Hd).
    destruct (Watcher.check_for_changes fs now w') as [c' w''] eqn:E.
    simpl in Ha, Hm, Hd.
    by rewrite (any_change_false c' Ha Hm Hd). }
  split; [done|]. split; [exact (check_same_scan_empty fs now2 w' Hsnap)|].
  split; [apply Hsum|].
  unfold Watcher.check_for_updates.
  destruct (Watcher.has_changes fs now1 w) as [changed w1] eqn:E.
  simpl in Hchg. subst changed. simpl in w'. subst w'.
  specialize (Hsum now1).
  destruct (Watcher.get_change_summary fs now1 w1) as [summary w2].
  simpl in Hsum. by subst summary.
Qed.

(** Witness for C10: the watcher was started on an empty directory and
    [notes.txt] appeared since. *)
Lemma has_changes_consumes_delta_witness :
  let w := Watcher.init "." ∅ 0 in
  let fs := <["notes.txt":={| Watcher.is_file := true;
                             Watcher.st_mtime := Some 1700000000%Z |}]>
              (∅ : gmap string Watcher.dir_entry) in
  let w' := (Watcher.has_changes fs 1 w).2 in
  let c := (Watcher.check_for_changes fs 2 w').1 in
  Watcher._last_snapshot w' = Watcher._take_snapshot fs
  ∧ (Watcher.added c = ∅ ∧ Watcher.modified c = ∅ ∧ Watcher.deleted c = ∅)
  ∧ (Watcher.get_change_summary fs 3 w').1 = "No changes detected"
  ∧ (Watcher.check_for_updates fs 1 w).1 =
      Some ("⚠️  Document changes detected:" +:+ String "010" EmptyString
            +:+ "No changes detected" +:+ String "010" (String "010" EmptyString)
            +:+ "Consider running 'locallm rebuild-map' to update the knowledge base.").
Proof.
  apply (has_changes_consumes_delta
           (Watcher.init "." ∅ 0)
           (<["notes.txt":={| Watcher.is_file := true;
                              Watcher.st_mtime := Some 1700000000%Z |}]> ∅)
           1 2 3).
  vm_compute. reflexivity.
Defined.

(** ** Document cache *)

Section CacheFacts.

Import Cache.

Implicit Types (l : list (string * entry)) (c : DocumentCache).

Lemma lookup_remove_same k l :
  NoDup (map fst l) → lookup k (remove k l) = None.
Proof.
  induction l as [|[k' e] r IH]; intros Hnd; [done|].
  inversion Hnd as [|? ? Hnotin Hr]; subst. simpl.
  destruct (String.eqb k k') eqn:E.
  - apply String.eqb_eq in E. subst k'. clear IH Hnd Hr.
    induction r as [|[k2 e2] r IH]; [done|]. simpl.
    destruct (String.eqb k k2) eqn:E2.
    + apply String.eqb_eq in E2. subst. exfalso. apply Hnotin. left.
    + apply IH. intros Hin. apply Hnotin. by right.
  - simpl. rewrite E. by apply IH.
Qed.

Lemma lookup_app_new k e l :
  lookup k l = None → lookup k (l ++ [(k, e)]) = Some e.
Proof.
  induction l as [|[k' e'] r IH]; simpl.
  - by rewrite String.eqb_refl.
  - destruct (String.eqb k k'); [done|]. apply IH.
Qed.

Lemma lookup_suffix k l1 l2 :
  lookup k (l1 ++ l2) = None → lookup k l2 = None.
Proof.
  induction l1 as [|[k' e'] r IH]; simpl; [done|].
  destruct (String.eqb k k'); [done|]. apply IH.
Qed.

Lemma remove_absent k l : lookup k l = None → remove k l = l.
Proof.
  induction l as [|[k' e'] r IH]; simpl; [done|].
  destruct (String.eqb k k'); [done|]. intros H. by rewrite IH.
Qed.

Lemma remove_keys_subset k l x :
  x ∈ map fst (remove k l) → x ∈ map fst l.
Proof.
  induction l as [|[k' e'] r IH]; simpl; [done|].
  destruct (String.eqb k k').
  - intros H. by right.
  - simpl. rewrite !elem_of_cons. intros [->|H]; [by left|right; by apply IH].
Qed.

Lemma remove_NoDup k l : NoDup (map fst l) → NoDup (map fst (remove k l)).
Proof.
  induction l as [|[k' e'] r IH]; simpl; [done|].
  intros Hnd. inversion Hnd as [|? ? Hnotin Hr]; subst.
  destruct (String.eqb k k'); [done|]. simpl. constructor.
  - intros Hin. apply Hnotin. by apply (remove_keys_subset k).
  - by apply IH.
Qed.

Lemma resident_bytes_app l1 l2 :
  resident_bytes (l1 ++ l2) = (resident_bytes l1 + resident_bytes l2)%Z.
Proof.
  unfold resident_bytes. induction l1 as [|kv r IH]; simpl; [done|].
  rewrite IH. lia.
Qed.

Lemma resident_bytes_remove k e l :
  lookup k l = Some e →
  resident_bytes (remove k l) = (resident_bytes l - size e)%Z.
Proof.
  induction l as [|[k' e'] r IH]; simpl; [done|].
  destruct (String.eqb k k').
  - intros [= ->]. unfold resident_bytes. simpl. lia.
  - intros H. unfold resident_bytes in *. simpl. rewrite (IH H). lia.
Qed.

Lemma lookup_Some_elem k e l : lookup k l = Some e → k ∈ map fst l.
Proof.
  induction l as [|[k' e'] r IH]; simpl; [done|].
  destruct (String.eqb k k') eqn:E.
  - apply String.eqb_eq in E. subst. intros _. left.
  - intros H. right. by apply IH.
Qed.

Lemma lookup_None_not_elem k l : lookup k l = None → k ∉ map fst l.
Proof.
  induction l as [|[k' e'] r IH]; simpl; [intros _; apply not_elem_of_nil|].
  destruct (String.eqb k k') eqn:E; [done|].
  apply String.eqb_neq in E. intros H. apply not_elem_of_cons. split; [done|].
  by apply IH.
Qed.

(** [_remove_entry] keeps the cache consistent and frees the key. *)
Lemma remove_entry_consistent k c :
  consistent c →
  consistent (_remove_entry k c)
  ∧ lookup k (cache (_remove_entry k c)) = None
  ∧ cache (_remove_entry k c) = remove k (cache c)
  ∧ max_size_bytes (_remove_entry k c) = max_size_bytes c
  ∧ max_items (_remove_entry k c) = max_items c.
Proof.
  intros [Hsz Hnd]. unfold _remove_entry.
  destruct (lookup k (cache c)) as [e|] eqn:E; simpl.
  - repeat split.
    + simpl. rewrite (resident_bytes_remove k e _ E). by rewrite Hsz.
    + simpl. by apply remove_NoDup.
    + by apply lookup_remove_same.
  - repeat split; try done. by rewrite remove_absent.
Qed.

(** The eviction loop of [put] stops with its condition false, having
    dropped a prefix of the store, oldest entries first. *)
Lemma evict_loop_spec content_size fuel c :
  (length (cache c) ≤ fuel)%nat →
  let c' := evict_loop fuel content_size c in
  must_evict content_size c' = false
  ∧ max_size_bytes c' = max_size_bytes c
  ∧ max_items c' = max_items c
  ∧ ∃ evicted,
      cache c = evicted ++ cache c'
      ∧ current_size c' = (current_size c - resident_bytes evicted)%Z.
Proof.
  revert c. induction fuel as [|fuel IH]; intros c Hlen; simpl.
  - destruct (cache c) eqn:E; [|simpl in Hlen; lia].
    repeat split.
    + unfold must_evict. rewrite E. apply andb_false_r.
    + exists []. split; [done|]. unfold resident_bytes. simpl. lia.
  - destruct (must_evict content_size c) eqn:Hm.
    + unfold must_evict in Hm. apply andb_true_iff in Hm as [_ Hne].
      destruct (cache c) as [|[k e] r] eqn:E; [done|].
      assert (Hev : _evict_oldest c = with_store c r (current_size c - size e)).
      { unfold _evict_oldest, _remove_entry. rewrite E. simpl.
        by rewrite String.eqb_refl. }
      rewrite Hev.
      destruct (IH (with_store c r (current_size c - size e))) as
        (Hstop & Hb & Hi & evicted & Hcache & Hsize).
      { simpl. simpl in Hlen. lia. }
      repeat split; [done|done|done|].
      exists ((k, e) :: evicted). simpl in Hcache, Hsize. split.
      * simpl. f_equal. exact Hcache.
      * rewrite Hsize. unfold resident_bytes. simpl. lia.
    + repeat split; [done|]. exists []. split; [done|].
      unfold resident_bytes. simpl. lia.
Qed.

Lemma resident_bytes_cons (x : string * entry) l :
  resident_bytes (x :: l) = (size x.2 + resident_bytes l)%Z.
Proof. reflexivity. Qed.

(** The eviction loop drops no entry it could have kept: with the last
    entry it dropped still in the store, the loop condition held. *)
Lemma evict_loop_minimal content_size fuel c :
  (length (cache c) ≤ fuel)%nat →
  current_size c = resident_bytes (cache c) →
  let c' := evict_loop fuel content_size c in
  ∀ evicted x,
    cache c = evicted ++ x :: cache c' →
    (max_size_bytes c < resident_bytes (x :: cache c') + content_size)%Z
    ∨ (max_items c ≤ Z.of_nat (length (x :: cache c')))%Z.
Proof.
  revert c. induction fuel as [|fuel IH]; intros c Hlen Hsz; simpl.
  - intros evicted x Hc. rewrite Hc, length_app in Hlen. simpl in Hlen. lia.
  - destruct (must_evict content_size c) eqn:Hm.
    + unfold must_evict in Hm. apply andb_true_iff in Hm as [Hcond _].
      destruct (cache c) as [|[k e] r] eqn:E.
      { intros evicted x Hc. by destruct evicted. }
      assert (Hev : _evict_oldest c = with_store c r (current_size c - size e)).
      { unfold _evict_oldest, _remove_entry. rewrite E. simpl.
        by rewrite String.eqb_refl. }
      rewrite Hev. intros evicted x Hc.
      destruct evicted as [|y evicted].
      * simpl in Hc. injection Hc as <- Hr.
        apply orb_true_iff in Hcond as [H|H].
        -- left. apply Z.gtb_lt in H. rewrite Hsz in H. rewrite <- Hr.
           rewrite resident_bytes_cons in *. simpl in *. lia.
        -- right. rewrite Z.geb_leb in H. apply Z.leb_le in H.
           rewrite <- Hr. cbn [length] in *. lia.
      * simpl in Hc. injection Hc as _ Hr.
        apply (IH (with_store c r (current_size c - size e))) with evicted.
        -- simpl. simpl in Hlen. lia.
        -- simpl. rewrite Hsz, resident_bytes_cons. simpl. lia.
        -- exact Hr.
    + intros evicted x Hc. exfalso.
      apply (f_equal (@length _)) in Hc. rewrite length_app in Hc.
      simpl in Hc. lia.
Qed.

Lemma init_consistent max_size_mb items :
  consistent (init max_size_mb items).
Proof. split; [reflexivity|]. simpl. apply NoDup_nil_2. Qed.

Lemma clear_consistent c : consistent (clear c).
Proof. split; [reflexivity|]. simpl. apply NoDup_nil_2. Qed.

Lemma invalidate_consistent (key : string → string) file_path c :
  consistent c → consistent (invalidate key file_path c).
Proof. intros Hc. by destruct (remove_entry_consistent (key file_path) c Hc). Qed.

(** [get] keeps the cache consistent, on a hit (the entry moves to the
    most recently used end) and on a miss. *)
Lemma get_consistent (key : string → string) (stat : string → option Z)
    file_path c :
  consistent c → consistent (get key stat file_path c).2.
Proof.
  intros Hc. unfold get.
  destruct (lookup (key file_path) (cache c)) as [e|] eqn:E; [|exact Hc].
  destruct (_get_file_mtime stat file_path >? mtime e)%Z.
  - by destruct (remove_entry_consistent (key file_path) c Hc).
  - destruct Hc as [Hsz Hnd]. split; simpl.
    + rewrite resident_bytes_app, (resident_bytes_remove _ e _ E), Hsz.
      unfold resident_bytes. simpl. lia.
    + rewrite map_app. apply NoDup_app. repeat split.
      * by apply remove_NoDup.
      * intros x Hx Hx'. simpl in Hx'. apply list_elem_of_singleton in Hx'.
        subst x. revert Hx. apply lookup_None_not_elem.
        by apply lookup_remove_same.
      * simpl. apply NoDup_singleton.
Qed.

End CacheFacts.

Section CachePut.

Import Cache.

Variable _get_cache_key : string → string.

Implicit Types (c : DocumentCache) (stat : string → option Z).

Lemma put_unfold stat now file_path content c :
  put _get_cache_key stat now file_path content c =
  let k := _get_cache_key file_path in
  let c2 := evict_loop (length (cache (_remove_entry k c)))
              (Z.of_nat (String.length content)) (_remove_entry k c) in
  with_store c2 (cache c2 ++ [(k, stored stat now file_path content)])
    (current_size c2 + Z.of_nat (String.length content)).
Proof.
  unfold put, _remove_entry.
  by destruct (lookup (_get_cache_key file_path) (cache c)).
Qed.

(** After [put] the new entry is the most recently used one, what it
    displaced were the oldest entries, and both bounds hold as far as one
    admitted entry allows. *)
Lemma put_spec stat now file_path content c :
  consistent c →
  let k := _get_cache_key file_path in
  let new := stored stat now file_path content in
  let c' := put _get_cache_key stat now file_path content c in
  consistent c'
  ∧ max_size_bytes c' = max_size_bytes c
  ∧ max_items c' = max_items c
  ∧ lookup k (cache c') = Some new
  ∧ (∃ evicted kept,
       remove k (cache c) = evicted ++ kept ∧ cache c' = kept ++ [(k, new)])
  ∧ (Z.of_nat (length (cache c')) ≤ Z.max (max_items c) 1)%Z
  ∧ ((current_size c' ≤ max_size_bytes c)%Z
     ∨ ((max_size_bytes c < size new)%Z ∧ cache c' = [(k, new)])).
Proof.
  intros Hc k new c'. subst c'. rewrite put_unfold. cbv zeta. fold k new.
  destruct (remove_entry_consistent k c Hc) as ([Hsz1 Hnd1] & Hno & Hrm & Hb1 & Hi1).
  set (c1 := _remove_entry k c) in *.
  destruct (evict_loop_spec (Z.of_nat (String.length content))
              (length (cache c1)) c1 (le_n _))
    as (Hstop & Hb2 & Hi2 & evicted & Hcache & Hsize).
  set (c2 := evict_loop (length (cache c1))
               (Z.of_nat (String.length content)) c1) in *.
  simpl.
  assert (Hno2 : lookup k (cache c2) = None).
  { apply (lookup_suffix k evicted). by rewrite <- Hcache. }
  assert (Hsz2 : current_size c2 = resident_bytes (cache c2)).
  { rewrite Hsize, Hsz1, Hcache, resident_bytes_app. lia. }
  assert (Hnd2 : NoDup (map fst (cache c2))).
  { rewrite Hcache, map_app in Hnd1. by apply NoDup_app in Hnd1 as (_ & _ & ?). }
  split.
  { split; simpl.
    - rewrite resident_bytes_app, Hsz2. unfold resident_bytes. simpl. lia.
    - rewrite map_app. apply NoDup_app. repeat split; [done| |].
      + intros x Hx Hx'. simpl in Hx'. apply list_elem_of_singleton in Hx'.
        subst x. by apply (lookup_None_not_elem k (cache c2)).
      + simpl. apply NoDup_singleton. }
  split; [by rewrite Hb2|]. split; [by rewrite Hi2|].
  split; [by apply lookup_app_new|].
  split; [exists evicted, (cache c2); by rewrite <- Hrm|].
  unfold must_evict in Hstop. rewrite length_app. simpl.
  rewrite Hb2, Hb1, Hi2, Hi1 in Hstop.
  destruct (cache c2) as [|kv r] eqn:E.
  - split; [cbn [length]; lia|].
    unfold resident_bytes in Hsz2. simpl in Hsz2. rewrite Hsz2.
    destruct (Z_le_gt_dec (Z.of_nat (String.length content)) (max_size_bytes c)).
    + left. lia.
    + right. split; [lia|done].
  - rewrite andb_true_r in Hstop. apply orb_false_iff in Hstop as [Hs Hn].
    rewrite Z.gtb_ltb, Z.ltb_ge in Hs. rewrite Z.geb_leb, Z.leb_gt in Hn.
    cbn [length] in *. split; [lia|]. left. lia.
Qed.

(** The entries [put] drops are the oldest ones, and the youngest of them
    had to go: with it, the loop condition of [put] held. *)
Lemma put_evicts_oldest stat now file_path content c :
  consistent c →
  let k := _get_cache_key file_path in
  let new := stored stat now file_path content in
  let c' := put _get_cache_key stat now file_path content c in
  ∃ evicted kept,
    remove k (cache c) = evicted ++ kept
    ∧ cache c' = kept ++ [(k, new)]
    ∧ ∀ older x,
        evicted = older ++ [x] →
        (max_size_bytes c < resident_bytes (x :: kept) + size new)%Z
        ∨ (max_items c ≤ Z.of_nat (length (x :: kept)))%Z.
Proof.
  intros Hc k new c'. subst c'. rewrite put_unfold. cbv zeta. fold k new.
  destruct (remove_entry_consistent k c Hc) as ([Hsz1 _] & _ & Hrm & Hb1 & Hi1).
  set (c1 := _remove_entry k c) in *.
  destruct (evict_loop_spec (Z.of_nat (String.length content))
              (length (cache c1)) c1 (le_n _))
    as (_ & _ & _ & evicted & Hcache & _).
  pose proof (evict_loop_minimal (Z.of_nat (String.length content))
                (length (cache c1)) c1 (le_n _) Hsz1) as Hmin.
  cbv zeta in Hmin.
  set (c2 := evict_loop (length (cache c1))
               (Z.of_nat (String.length content)) c1) in *.
  exists evicted, (cache c2). split; [by rewrite <- Hrm|].
  split; [reflexivity|]. intros older x ->.
  rewrite <- Hb1, <- Hi1. apply (Hmin older x).
  by rewrite Hcache, <- app_assoc.
Qed.

End CachePut.

(** [get] right after [put], the file system having moved from [stat] to
    [stat'] in between: the entry is served whenever the file's mtime is
    not larger than the stored one, and evicted when it is larger. *)
Lemma get_after_put (key : string → string) (stat stat' : string → option Z)
    (now : Z) (file_path content : string) (c : Cache.DocumentCache) :
  Cache.consistent c →
  let c' := Cache.put key stat now file_path content c in
  let r := Cache.get key stat' file_path c' in
  ((Cache._get_file_mtime stat' file_path
      ≤ Cache._get_file_mtime stat file_path)%Z →
   r.1 = Some content)
  ∧ ((Cache._get_file_mtime stat' file_path
        > Cache._get_file_mtime stat file_path)%Z →
     r.1 = None ∧ Cache.lookup (key file_path) (Cache.cache r.2) = None).
Proof.
  intros Hc c' r.
  destruct (put_spec key stat now file_path content c Hc)
    as (Hc' & _ & _ & Hlook & _).
  fold c' in Hc', Hlook. subst r. unfold Cache.get. rewrite Hlook.
  cbn [Cache.mtime Cache.stored Cache.content].
  split; intros Hm.
  - destruct (Z.gtb_spec (Cache._get_file_mtime stat' file_path)
                (Cache._get_file_mtime stat file_path)); [lia|done].
  - destruct (Z.gtb_spec (Cache._get_file_mtime stat' file_path)
                (Cache._get_file_mtime stat file_path)); [|lia].
    split; [done|]. simpl.
    by destruct (remove_entry_consistent (key file_path) c' Hc') as (_ & ? & _).
Qed.

(** A [get] right after a [put] for a file whose mtime did not change
    returns exactly the stored content. *)
Lemma get_after_put_unmodified (key : string → string)
    (stat : string → option Z) (now : Z) (file_path content : string)
    (c : Cache.DocumentCache) :
  Cache.consistent c →
  (Cache.get key stat file_path
     (Cache.put key stat now file_path content c)).1 = Some content.
Proof.
  intros Hc.
  destruct (get_after_put key stat stat now file_path content c Hc) as [H _].
  apply H. lia.
Qed.

(** C1. The code invalidates only when the file's mtime has grown
    ([current_mtime > cached_entry['mtime']]).  A document cached at mtime
    100 is still served, as a hit, after the file's mtime went back to 50,
    and after the file became unstattable (mtime read as 0): the stale
    content is returned and the entry stays in the cache. *)
Theorem get_serves_stale_content_when_mtime_decreases :
  let key := λ p : string, p in
  let c1 := Cache.put key (λ _, Some 100%Z) 0 "notes.txt" "old text"
              (Cache.init 100 50) in
  let older := Cache.get key (λ _, Some 50%Z) "notes.txt" c1 in
  let gone := Cache.get key (λ _, None) "notes.txt" c1 in
  (older.1 = Some "old text" ∧ Cache.hits older.2 = 1%Z
   ∧ Cache.misses older.2 = 0%Z
   ∧ Cache.lookup "notes.txt" (Cache.cache older.2) ≠ None)
  ∧ (gone.1 = Some "old text" ∧ Cache.hits gone.2 = 1%Z
     ∧ Cache.misses gone.2 = 0%Z
     ∧ Cache.lookup "notes.txt" (Cache.cache gone.2) ≠ None).
Proof. vm_compute. repeat split; discriminate. Qed.

(** C3 does not hold as stated: with [max_items = 0] the loop of [put]
    stops on the empty store and the entry is admitted, so the cache holds
    one item. *)
Lemma put_exceeds_item_bound_of_zero :
  let c' := Cache.put (λ p : string, p) (λ _, Some 5%Z) 0 "a.txt" "x"
              (Cache.init 100 0) in
  ¬ (Z.of_nat (length (Cache.cache c')) ≤ Cache.max_items c')%Z.
Proof. vm_compute. intros H. by apply H. Qed.

(** C3 (amended). On every [put] into a consistent cache, entries are
    evicted from the least recently used end, one at a time, until both
    bounds leave room for the new entry or the store is empty, and no
    further: had the last entry that was evicted been kept, the store with
    the new entry would have exceeded the byte bound or the item bound.
    The new entry becomes the most recently used one.  Afterwards the item
    count is at most [max_items] when [max_items] is at least 1 (and at
    most 1 otherwise), and the resident bytes, which the size counter
    equals, are at most the byte bound, unless the new entry alone is
    larger than the bound, in which case it is the only entry. *)
Theorem put_enforces_capacity_bounds (key : string → string)
    (stat : string → option Z) (now : Z) (file_path content : string)
    (c : Cache.DocumentCache) :
  Cache.consistent c →
  let k := key file_path in
  let new := Cache.stored stat now file_path content in
  let c' := Cache.put key stat now file_path content c in
  (∃ evicted kept,
     Cache.remove k (Cache.cache c) = evicted ++ kept
     ∧ Cache.cache c' = kept ++ [(k, new)]
     ∧ ∀ older x,
         evicted = older ++ [x] →
         (Cache.max_size_bytes c
            < Cache.resident_bytes (x :: kept) + Cache.size new)%Z
         ∨ (Cache.max_items c ≤ Z.of_nat (length (x :: kept)))%Z)
  ∧ (Z.of_nat (length (Cache.cache c')) ≤ Z.max (Cache.max_items c) 1)%Z
  ∧ ((1 ≤ Cache.max_items c)%Z →
     (Z.of_nat (length (Cache.cache c')) ≤ Cache.max_items c')%Z)
  ∧ ((Cache.resident_bytes (Cache.cache c') ≤ Cache.max_size_bytes c')%Z
     ∨ ((Cache.max_size_bytes c' < Cache.size new)%Z
        ∧ Cache.cache c' = [(k, new)]))
  ∧ Cache.current_size c' = Cache.resident_bytes (Cache.cache c')
  ∧ Cache.consistent c'.
Proof.
  intros Hc k new c'.
  destruct (put_spec key stat now file_path content c Hc)
    as (Hc' & Hb & Hi & _ & _ & Hcount & Hbytes).
  fold k new c' in Hc', Hb, Hi, Hcount, Hbytes.
  split; [exact (put_evicts_oldest key stat now file_path content c Hc)|].
  split; [exact Hcount|].
  split; [intros H1; rewrite Hi; lia|].
  destruct Hc' as [Hsz Hnd].
  split; [rewrite Hb, <- Hsz; exact Hbytes|]. split; [exact Hsz|]. by split.
Qed.

(** Witness for C3: a cache of two items and one megabyte that holds
    [a.txt] and [b.txt] receives [c.txt]. *)
Lemma put_enforces_capacity_bounds_witness :
  let key := λ p : string, p in
  let stat := λ _ : string, Some 7%Z in
  let a := Cache.stored stat 0 "a.txt" "aaaa" in
  let b := Cache.stored stat 1 "b.txt" "bb" in
  let c := {| Cache.max_size_bytes := 1048576; Cache.max_items := 2;
              Cache.current_size := 6;
              Cache.cache := [("a.txt", a); ("b.txt", b)];
              Cache.hits := 0; Cache.misses := 0 |} in
  let new := Cache.stored stat 2 "c.txt" "c" in
  let c' := Cache.put key stat 2 "c.txt" "c" c in
  Cache.consistent c
  ∧ Cache.cache c' = [("b.txt", b); ("c.txt", new)]
  ∧ (∃ evicted kept,
       Cache.remove "c.txt" (Cache.cache c) = evicted ++ kept
       ∧ Cache.cache c' = kept ++ [("c.txt", new)]
       ∧ ∀ older x,
           evicted = older ++ [x] →
           (Cache.max_size_bytes c
              < Cache.resident_bytes (x :: kept) + Cache.size new)%Z
           ∨ (Cache.max_items c ≤ Z.of_nat (length (x :: kept)))%Z)
  ∧ (Z.of_nat (length (Cache.cache c')) ≤ Z.max (Cache.max_items c) 1)%Z
  ∧ ((1 ≤ Cache.max_items c)%Z →
     (Z.of_nat (length (Cache.cache c')) ≤ Cache.max_items c')%Z)
  ∧ ((Cache.resident_bytes (Cache.cache c') ≤ Cache.max_size_bytes c')%Z
     ∨ ((Cache.max_size_bytes c' < Cache.size new)%Z
        ∧ Cache.cache c' = [("c.txt", new)]))
  ∧ Cache.current_size c' = Cache.resident_bytes (Cache.cache c')
  ∧ Cache.consistent c'.
Proof.
  intros key stat a b c new c'.
  assert (Hc : Cache.consistent c).
  { split; [reflexivity|]. simpl. apply NoDup_cons. split.
    - rewrite list_elem_of_singleton. discriminate.
    - apply NoDup_singleton. }
  split; [exact Hc|]. split; [reflexivity|].
  exact (put_enforces_capacity_bounds key stat 2 "c.txt" "c" c Hc).
Defined.

(** ** Concurrency guard *)

(** Acquiring a free lock records the acquirer's process id in the marker
    file and takes the advisory lock. *)
Lemma acquire_free_records_pid (blocking : bool) (pid : Z) (w : Lock.world)
    (l : Lock.FileLock) :
  (∀ m, Lock.lock_file w = Some m → Lock.flock_holder m = None) →
  ∃ w' l',
    Lock.acquire blocking pid w l = Some (true, w', l')
    ∧ Lock.lock_file w' =
        Some {| Lock.body := PyStr.of_Z pid; Lock.flock_holder := Some pid |}
    ∧ Lock.is_locked l' = true.
Proof.
  intros Hfree. unfold Lock.acquire, Lock.rounds. cbn [Lock.acquire_loop].
  unfold Lock.flock_ex_nb, Lock.os_open_trunc. cbn [Lock.lock_file Lock.flock_holder].
  assert (Hh : match Lock.lock_file w with
               | Some m => Lock.flock_holder m
               | None => None
               end = None).
  { destruct (Lock.lock_file w) as [m|] eqn:E; [by apply Hfree|done]. }
  rewrite Hh. eexists _, _. split; [reflexivity|]. split; [|reflexivity].
  unfold Lock.os_write. cbn [Lock.lock_file Lock.body Lock.flock_holder].
  f_equal. f_equal. by rewrite drop_nil, append_nil_r.
Qed.



(** C2. Process 100 acquires the lock of a directory that has no marker
    file; the marker's body is then ["100"].  Process 200 tries the same
    lock without blocking, and with a timeout of 300 ms: both attempts fail,
    and after either the lock is still held by process 100 while the marker
    file is empty, so the probe reads no process id from it. *)
Theorem failed_acquire_erases_recorded_pid :
  let w0 := {| Lock.lock_file := None; Lock.clock := 0 |} in
  ∃ w1 lP w2 lQ w3 lQ',
    Lock.acquire true 100 w0 (Lock.init 30000) = Some (true, w1, lP)
    ∧ Lock.lock_file w1 =
        Some {| Lock.body := "100"; Lock.flock_holder := Some 100%Z |}
    ∧ Lock.recorded_pid w1 = Some 100%Z
    ∧ Lock.acquire false 200 w1 (Lock.init 30000) = Some (false, w2, lQ)
    ∧ Lock.lock_file w2 =
        Some {| Lock.body := ""; Lock.flock_holder := Some 100%Z |}
    ∧ Lock.recorded_pid w2 = None
    ∧ Lock.acquire true 200 w1 (Lock.init 300) = Some (false, w3, lQ')
    ∧ Lock.lock_file w3 =
        Some {| Lock.body := ""; Lock.flock_holder := Some 100%Z |}
    ∧ Lock.recorded_pid w3 = None.
Proof.
  eexists _, _, _, _, _, _.
  split; [vm_compute; reflexivity|].
  split; [reflexivity|]. split; [reflexivity|].
  split; [vm_compute; reflexivity|].
  split; [reflexivity|]. split; [reflexivity|].
  split; [vm_compute; reflexivity|].
  split; reflexivity.
Qed.

(** ** Index file: loading *)

(** C7 does not hold as stated.  An index file that does not parse makes
    the loader raise (no build is triggered), and one that parses to
    something other than a mapping is kept as the knowledge map, again
    without a build. *)
Lemma malformed_index_not_treated_as_no_index :
  let run := KnowledgeMap._load_or_create_knowledge_map
               KnowledgeMap.sample_safe_load KnowledgeMap.sample_generate in
  (KnowledgeMap.raised (run (Some "{"))
     = Some "ParserError: while parsing a flow node"
   ∧ KnowledgeMap.builds (run (Some "{")) = 0)
  ∧ (KnowledgeMap.raised (run (Some "- a")) = None
     ∧ KnowledgeMap.builds (run (Some "- a")) = 0
     ∧ KnowledgeMap.knowledge_map (run (Some "- a"))
         = KnowledgeMap.YList [KnowledgeMap.YStr "a"]
     ∧ KnowledgeMap.is_mapping
         (KnowledgeMap.knowledge_map (run (Some "- a"))) = false).
Proof. vm_compute. repeat split. Qed.

(** C7 (amended).  Loading the knowledge map: when the index file is absent,
    or parses to nothing (an empty document), the consumer triggers one
    build and raises only if the build or the reload does; when the file
    does not parse, the parser's exception leaves the loader and no build
    is triggered; when it parses to any other value, of the expected shape
    or not, that value is kept as the map and no build is triggered. *)
Theorem load_or_create_cases
    (safe_load : string → KnowledgeMap.outcome KnowledgeMap.yaml)
    (generate : option string → KnowledgeMap.outcome (option string))
    (file : option string) :
  let r := KnowledgeMap._load_or_create_knowledge_map safe_load generate file in
  ((file = None ∨ ∃ text, file = Some text
                          ∧ safe_load text = KnowledgeMap.Ok KnowledgeMap.YNull) →
   KnowledgeMap.builds r = 1
   ∧ ∀ file' km,
       generate file = KnowledgeMap.Ok file' →
       KnowledgeMap.load_knowledge_map safe_load file' = KnowledgeMap.Ok km →
       KnowledgeMap.raised r = None ∧ KnowledgeMap.knowledge_map r = km)
  ∧ (∀ text e,
       file = Some text → safe_load text = KnowledgeMap.Raise e →
       KnowledgeMap.raised r = Some e ∧ KnowledgeMap.builds r = 0)
  ∧ (∀ text v,
       file = Some text → safe_load text = KnowledgeMap.Ok v →
       KnowledgeMap.is_none v = false →
       KnowledgeMap.raised r = None ∧ KnowledgeMap.builds r = 0
       ∧ KnowledgeMap.knowledge_map r = v).
Proof.
  intros r. subst r. unfold KnowledgeMap._load_or_create_knowledge_map.
  split; [|split].
  - intros Hno.
    assert (Hload : KnowledgeMap.load_knowledge_map safe_load file
                    = KnowledgeMap.Ok KnowledgeMap.YNull).
    { destruct Hno as [->|(text & -> & Ht)]; [done|exact Ht]. }
    rewrite Hload. cbn [KnowledgeMap.is_none].
    destruct (generate file) as [file'|e] eqn:G.
    + destruct (KnowledgeMap.load_knowledge_map safe_load file') as [km'|e] eqn:L.
      * split; [done|]. intros f km [= <-] Hkm. rewrite L in Hkm.
        injection Hkm as <-. done.
      * split; [done|]. intros f km [= <-] Hkm. rewrite L in Hkm. done.
    + split; [done|]. intros f km Hg. done.
  - intros text e -> Ht. cbn [KnowledgeMap.load_knowledge_map]. by rewrite Ht.
  - intros text v -> Ht Hv. cbn [KnowledgeMap.load_knowledge_map].
    rewrite Ht, Hv. done.
Qed.

(** Witness for C7: the four kinds of index file, with the sample parser. *)
Lemma load_or_create_cases_witness :
  let run := KnowledgeMap._load_or_create_knowledge_map
               KnowledgeMap.sample_safe_load KnowledgeMap.sample_generate in
  (KnowledgeMap.builds (run None) = 1
   ∧ KnowledgeMap.raised (run None) = None)
  ∧ KnowledgeMap.builds (run (Some "")) = 1
  ∧ (KnowledgeMap.raised (run (Some "{"))
       = Some "ParserError: while parsing a flow node"
     ∧ KnowledgeMap.builds (run (Some "{")) = 0)
  ∧ (KnowledgeMap.raised (run (Some "- a")) = None
     ∧ KnowledgeMap.builds (run (Some "- a")) = 0
     ∧ KnowledgeMap.knowledge_map (run (Some "- a"))
         = KnowledgeMap.YList [KnowledgeMap.YStr "a"]).
Proof.
  intros run. split; [|split; [|split]].
  - destruct (load_or_create_cases KnowledgeMap.sample_safe_load
                KnowledgeMap.sample_generate None) as (H & _).
    destruct (H (or_introl eq_refl)) as [Hb Hr]. split; [exact Hb|].
    by destruct (Hr (Some "version: '1.0'")
                    (KnowledgeMap.YMap [("version", KnowledgeMap.YStr "1.0")])
                    eq_refl eq_refl).
  - destruct (load_or_create_cases KnowledgeMap.sample_safe_load
                KnowledgeMap.sample_generate (Some "")) as (H & _).
    apply H. right. by exists "".
  - destruct (load_or_create_cases KnowledgeMap.sample_safe_load
                KnowledgeMap.sample_generate (Some "{")) as (_ & H & _).
    by apply (H "{").
  - destruct (load_or_create_cases KnowledgeMap.sample_safe_load
                KnowledgeMap.sample_generate (Some "- a")) as (_ & _ & H).
    by apply (H "- a").
Defined.

(** ** Index file: saving *)





(** ** Reasoning agent *)

Lemma length_append (s1 s2 : string) :
  String.length (s1 +:+ s2) = (String.length s1 + String.length s2)%nat.
Proof.
  induction s1 as [|a s1 IH]; [done|].
  change (S (String.length (s1 +:+ s2))
          = S (String.length s1 + String.length s2)). by f_equal.
Qed.

Section AgentFacts.

Import Agent.

Variable chat : list message → generation.
Variable read_file : string → string.
Variable grep : string → string → Z → string.
Variable list_docs : string → string.
Variable _get_system_prompt : string → string.
Variable rglob : option (list (string * bool)).
Variable unbound_local_error : string.
Variable max_iterations : Z.

Local Abbreviation run_loop :=
  (ask_loop chat read_file grep list_docs rglob unbound_local_error
     max_iterations).
Local Abbreviation fallback := (_fallback_keyword_search grep rglob).
Local Abbreviation call_tool := (_call_tool read_file grep list_docs).
Local Abbreviation gen := (generate chat unbound_local_error).

Implicit Types (st : locals) (u question : string) (history : list message).

(** One iteration whose utterance dispatches a tool. *)
Lemma ask_loop_dispatch remaining iteration question history st u a i :
  gen st = inl u →
  parse_action u = Some (a, i) →
  run_loop (S remaining) iteration question history st =
  run_loop remaining (iteration + 1)%Z question history
    {| messages :=
         (messages st ++ [{| role := "assistant"; content := u |}])
         ++ [{| role := "user";
                content := "Observation: " +:+ call_tool a i |}];
       steps_so_far :=
         steps_so_far st
         ++ [{| action := a; input := i; observation := call_tool a i |}];
       assistant_message := Some u |}.
Proof. intros Hg Hp. cbn [ask_loop]. by rewrite Hg, Hp. Qed.

(** One iteration whose utterance dispatches no tool and has no
    final-answer marker. *)
Lemma ask_loop_no_action remaining iteration question history st u :
  gen st = inl u →
  parse_action u = None →
  PyStr.contains "Final Answer:" u = false →
  run_loop (S remaining) iteration question history st =
  if negb (PyStr.contains "Action:" u) then
    {| answer := u;
       steps := steps_so_far st;
       conversation_history :=
         history ++ [{| role := "user"; content := question |};
                     {| role := "assistant"; content := u |}] |}
  else if (iteration =? max_iterations - 1)%Z then
    {| answer := if _is_incomplete_answer u
                 then u +:+ nl +:+ nl +:+ fallback question else u;
       steps := steps_so_far st;
       conversation_history := history |}
  else run_loop remaining (iteration + 1)%Z question history (carried_on st u).
Proof.
  intros Hg Hp Hf. cbn [ask_loop]. rewrite Hg, Hp, Hf.
  destruct (negb (PyStr.contains "Action:" u)); [done|].
  destruct (iteration =? max_iterations - 1)%Z; [|done].
  by destruct (_is_incomplete_answer u).
Qed.

(** C4 (amended).  An utterance without a well-formed action/input pair
    and without a final-answer marker never fails the turn and dispatches
    no tool.  If it does not contain the action marker at all, the whole
    utterance is returned as the final answer and recorded in the history.
    If it contains the action marker, it is not returned: before the last
    iteration the loop goes on to a further generation request with the
    utterance added to the messages, and on the last iteration the
    utterance is returned, followed by the fallback search result when it
    looks incomplete. *)
Theorem malformed_directive_is_no_action
    remaining iteration question history st u :
  gen st = inl u →
  parse_action u = None →
  PyStr.contains "Final Answer:" u = false →
  let r := run_loop (S remaining) iteration question history st in
  (PyStr.contains "Action:" u = false →
   answer r = u ∧ steps r = steps_so_far st
   ∧ conversation_history r =
       history ++ [{| role := "user"; content := question |};
                   {| role := "assistant"; content := u |}])
  ∧ (PyStr.contains "Action:" u = true → iteration ≠ (max_iterations - 1)%Z →
     r = run_loop remaining (iteration + 1)%Z question history
           (carried_on st u))
  ∧ (PyStr.contains "Action:" u = true → iteration = (max_iterations - 1)%Z →
     steps r = steps_so_far st ∧ conversation_history r = history
     ∧ answer r = if _is_incomplete_answer u
                  then u +:+ nl +:+ nl +:+ fallback question else u).
Proof.
  intros Hg Hp Hf r. subst r.
  rewrite (ask_loop_no_action remaining iteration question history st u Hg Hp Hf).
  split; [|split].
  - by intros ->.
  - intros -> Hit. cbn [negb].
    by destruct (Z.eqb_spec iteration (max_iterations - 1)).
  - intros -> ->. cbn [negb]. by rewrite Z.eqb_refl.
Qed.

(** C5 (amended).  On the last iteration, when the utterance dispatches a
    tool the loop ends and [ask] returns the fixed sentence that the
    iterations are used up, with the tool call recorded and neither the
    utterance nor a fallback search in the answer.  When the utterance
    carries the action marker without a well-formed directive and has no
    final-answer marker, it is scanned against the incomplete-answer
    phrases: on a match the fallback search result is appended to it,
    otherwise it is returned as it is. *)
Theorem iteration_cap_outcome question history st u :
  gen st = inl u →
  let r := run_loop 1 (max_iterations - 1)%Z question history st in
  (∀ a i, parse_action u = Some (a, i) →
     answer r = "Maximum iterations reached without final answer."
     ∧ steps r = steps_so_far st
                 ++ [{| action := a; input := i;
                        observation := call_tool a i |}]
     ∧ conversation_history r = history)
  ∧ (parse_action u = None →
     PyStr.contains "Final Answer:" u = false →
     PyStr.contains "Action:" u = true →
     answer r = (if _is_incomplete_answer u
                 then u +:+ nl +:+ nl +:+ fallback question else u)
     ∧ steps r = steps_so_far st
     ∧ conversation_history r = history).
Proof.
  intros Hg r. subst r. split.
  - intros a i Hp.
    by rewrite (ask_loop_dispatch 0 _ question history st u a i Hg Hp).
  - intros Hp Hf Ha.
    rewrite (ask_loop_no_action 0 _ question history st u Hg Hp Hf), Ha.
    cbn [negb]. by rewrite Z.eqb_refl.
Qed.



(** When the request itself raises on the first iteration, nothing has
    been assigned to [assistant_message]; reading it raises, the outer
    handler takes over and answers with the error and the fallback
    search. *)
Lemma first_call_raises_outcome remaining iteration question history st e :
  chat (messages st) = CallRaises e →
  assistant_message st = None →
  run_loop (S remaining) iteration question history st =
  {| answer := "Error: " +:+ unbound_local_error +:+ nl +:+ nl
                 +:+ fallback question;
     steps := steps_so_far st;
     conversation_history := history |}.
Proof.
  intros Hchat Hnone. cbn [ask_loop]. unfold generate.
  by rewrite Hchat, Hnone.
Qed.

End AgentFacts.

(** *** Concrete turns *)

(** C4 does not hold as stated.  The model's first utterance is an action
    line without an input line and without a final-answer marker; it is
    not returned as the answer: the loop asks the model again, and the
    answer is the one of the second utterance. *)
Lemma malformed_action_line_is_not_returned :
  let question := "What budget does Project Alpha use?" in
  let u := "Action: read_file" in
  let st0 := Agent.initial_locals (Agent.sample_prompt question) question [] in
  let r := Agent.sample_ask Agent.chat_malformed_then_final 10 question in
  Agent.generate Agent.chat_malformed_then_final Agent.sample_unbound st0
    = inl u
  ∧ Agent.parse_action u = None
  ∧ PyStr.contains "Final Answer:" u = false
  ∧ Agent.answer r = "42"
  ∧ Agent.answer r ≠ u.
Proof. vm_compute. repeat split. discriminate. Qed.

(** Witness for C4: the same turn; the first iteration hands over to the
    second one. *)
Lemma malformed_directive_is_no_action_witness :
  let question := "What budget does Project Alpha use?" in
  let u := "Action: read_file" in
  let st0 := Agent.initial_locals (Agent.sample_prompt question) question [] in
  let loop := Agent.ask_loop Agent.chat_malformed_then_final
                Agent.sample_read_file Agent.sample_grep
                Agent.sample_list_docs Agent.sample_rglob
                Agent.sample_unbound 10 in
  loop 10%nat 0%Z question [] st0
    = loop 9%nat 1%Z question [] (Agent.carried_on st0 u)
  ∧ Agent.answer (loop 1%nat 9%Z question [] st0) = u
  ∧ Agent.answer
      (Agent.ask_loop Agent.chat_fails_midway Agent.sample_read_file
         Agent.sample_grep Agent.sample_list_docs Agent.sample_rglob
         Agent.sample_unbound 10 10%nat 0%Z question [] st0)
    = "The budget is 8".
Proof.
  intros question u st0 loop. split; [|split].
  - pose proof (malformed_directive_is_no_action
                  Agent.chat_malformed_then_final Agent.sample_read_file
                  Agent.sample_grep Agent.sample_list_docs Agent.sample_rglob
                  Agent.sample_unbound 10 9 0 question [] st0 u) as H.
    destruct H as (_ & H & _); [vm_compute; reflexivity ..|].
    apply H; [vm_compute; reflexivity | discriminate].
  - pose proof (malformed_directive_is_no_action
                  Agent.chat_malformed_then_final Agent.sample_read_file
                  Agent.sample_grep Agent.sample_list_docs Agent.sample_rglob
                  Agent.sample_unbound 10 0 9 question [] st0 u) as H.
    destruct H as (_ & _ & H); [vm_compute; reflexivity ..|].
    destruct H as (_ & _ & H); [vm_compute; reflexivity | reflexivity |].
    exact H.
  - pose proof (malformed_directive_is_no_action
                  Agent.chat_fails_midway Agent.sample_read_file
                  Agent.sample_grep Agent.sample_list_docs Agent.sample_rglob
                  Agent.sample_unbound 10 9 0 question [] st0
                  "The budget is 8") as H.
    destruct H as (H & _); [vm_compute; reflexivity ..|].
    destruct H as (H & _); [vm_compute; reflexivity|]. exact H.
Defined.

(** C5 does not hold as stated.  With one iteration allowed, an utterance
    that matches an incomplete-answer phrase and dispatches a tool reaches
    the cap; the answer is the fixed sentence, not the utterance, and no
    fallback search result is appended. *)
Lemma cap_after_tool_call_skips_fallback :
  let question := "What budget does Project Alpha use?" in
  let u := "I cannot tell yet." +:+ Agent.nl +:+ "Action: list_docs"
           +:+ Agent.nl +:+ "Action Input: ." in
  let st0 := Agent.initial_locals (Agent.sample_prompt question) question [] in
  let r := Agent.sample_ask Agent.chat_always_acts 1 question in
  Agent.generate Agent.chat_always_acts Agent.sample_unbound st0 = inl u
  ∧ Agent._is_incomplete_answer u = true
  ∧ Agent.answer r = "Maximum iterations reached without final answer."
  ∧ Agent.answer r ≠
      u +:+ Agent.nl +:+ Agent.nl
        +:+ Agent._fallback_keyword_search Agent.sample_grep
              Agent.sample_rglob question
  ∧ Agent.answer r ≠ u.
Proof. vm_compute. repeat split; discriminate. Qed.

(** Witness for C5: on the only iteration allowed, one model dispatches a
    tool and another one names a tool without input. *)
Lemma iteration_cap_outcome_witness :
  let question := "What budget does Project Alpha use?" in
  let st0 := Agent.initial_locals (Agent.sample_prompt question) question [] in
  let loop := λ chat,
    Agent.ask_loop chat Agent.sample_read_file Agent.sample_grep
      Agent.sample_list_docs Agent.sample_rglob Agent.sample_unbound 1
      1%nat 0%Z question [] st0 in
  Agent.answer (loop Agent.chat_always_acts)
    = "Maximum iterations reached without final answer."
  ∧ Agent.answer (loop Agent.chat_never_resolves)
    = "I cannot find it. Action: read_file" +:+ Agent.nl +:+ Agent.nl
      +:+ Agent._fallback_keyword_search Agent.sample_grep
            Agent.sample_rglob question.
Proof.
  intros question st0 loop. split.
  - pose proof (iteration_cap_outcome Agent.chat_always_acts
                  Agent.sample_read_file Agent.sample_grep
                  Agent.sample_list_docs Agent.sample_rglob
                  Agent.sample_unbound 1 question [] st0
                  ("I cannot tell yet." +:+ Agent.nl +:+ "Action: list_docs"
                   +:+ Agent.nl +:+ "Action Input: .")) as H.
    destruct H as (H & _); [vm_compute; reflexivity|].
    destruct (H "list_docs" ".") as (H' & _); [vm_compute; reflexivity|].
    exact H'.
  - pose proof (iteration_cap_outcome Agent.chat_never_resolves
                  Agent.sample_read_file Agent.sample_grep
                  Agent.sample_list_docs Agent.sample_rglob
                  Agent.sample_unbound 1 question [] st0
                  "I cannot find it. Action: read_file") as H.
    destruct H as (_ & H); [vm_compute; reflexivity|].
    destruct H as (H & _); [vm_compute; reflexivity ..|].
    exact H.
Defined.




(** * Further properties of the code *)

(** ** Document cache: lookups, counters and eviction order *)

Section CacheMore.

Import Cache.

Implicit Types (l : list (string * entry)) (c : DocumentCache).

Lemma lookup_remove_ne k k' l :
  k' ≠ k → lookup k' (remove k l) = lookup k' l.
Proof.
  intros Hne. induction l as [|[k2 e2] r IH]; [done|]. simpl.
  destruct (String.eqb k k2) eqn:E.
  - apply String.eqb_eq in E. subst k2.
    by rewrite (proj2 (String.eqb_neq k' k) Hne).
  - simpl. by rewrite IH.
Qed.

Lemma lookup_app_ne k k' e l :
  k' ≠ k → lookup k' (l ++ [(k, e)]) = lookup k' l.
Proof.
  intros Hne. induction l as [|[k2 e2] r IH]; simpl.
  - by rewrite (proj2 (String.eqb_neq k' k) Hne).
  - by rewrite IH.
Qed.

Lemma lookup_elem_Some k l : k ∈ map fst l → lookup k l ≠ None.
Proof.
  induction l as [|[k2 e2] r IH]; simpl.
  - by intros ?%elem_of_nil.
  - destruct (String.eqb k k2) eqn:E; [done|].
    apply String.eqb_neq in E. intros [?|Hin]%elem_of_cons; [done|].
    by apply IH.
Qed.

Lemma evict_oldest_counters c :
  hits (_evict_oldest c) = hits c ∧ misses (_evict_oldest c) = misses c.
Proof.
  unfold _evict_oldest, _remove_entry.
  destruct (cache c) as [|[k e] r]; [done|].
  by destruct (lookup k ((k, e) :: r)).
Qed.

Lemma evict_loop_counters fuel content_size c :
  hits (evict_loop fuel content_size c) = hits c
  ∧ misses (evict_loop fuel content_size c) = misses c.
Proof.
  revert c. induction fuel as [|fuel IH]; intros c; [done|]. simpl.
  destruct (must_evict content_size c); [|done].
  destruct (IH (_evict_oldest c)) as [-> ->]. apply evict_oldest_counters.
Qed.

End CacheMore.

(** X1. A lookup is counted exactly once: a [get] that returns content adds
    one to [hits] and leaves [misses], a [get] that returns nothing adds one
    to [misses] and leaves [hits]; [put] changes neither counter. *)
Theorem counters_count_lookups (key : string → string)
    (stat : string → option Z) (now : Z) (file_path content : string)
    (c : Cache.DocumentCache) :
  let r := Cache.get key stat file_path c in
  let c' := Cache.put key stat now file_path content c in
  (is_Some r.1 →
   Cache.hits r.2 = (Cache.hits c + 1)%Z ∧ Cache.misses r.2 = Cache.misses c)
  ∧ (r.1 = None →
     Cache.hits r.2 = Cache.hits c
     ∧ Cache.misses r.2 = (Cache.misses c + 1)%Z)
  ∧ Cache.hits c' = Cache.hits c ∧ Cache.misses c' = Cache.misses c.
Proof.
  intros r c'. subst r c'. split; [|split].
  - unfold Cache.get.
    destruct (Cache.lookup (key file_path) (Cache.cache c)) as [e|];
      [|by intros [? ?]].
    destruct (Cache._get_file_mtime stat file_path >? Cache.mtime e)%Z;
      [by intros [? ?]|done].
  - unfold Cache.get, Cache._remove_entry.
    destruct (Cache.lookup (key file_path) (Cache.cache c)) as [e|]; [|done].
    destruct (Cache._get_file_mtime stat file_path >? Cache.mtime e)%Z; done.
  - rewrite put_unfold. cbv zeta. cbn [Cache.hits Cache.misses Cache.with_store].
    destruct (evict_loop_counters
                (length (Cache.cache (Cache._remove_entry (key file_path) c)))
                (Z.of_nat (String.length content))
                (Cache._remove_entry (key file_path) c)) as [-> ->].
    unfold Cache._remove_entry.
    by destruct (Cache.lookup (key file_path) (Cache.cache c)).
Qed.

(** Witness for X1: a miss on the empty cache and a hit after a [put]. *)
Lemma counters_count_lookups_witness :
  let key := λ p : string, p in
  let stat := λ _ : string, Some 7%Z in
  let c0 := Cache.init 100 50 in
  let c1 := Cache.put key stat 0 "a.txt" "aaaa" c0 in
  (Cache.misses (Cache.get key stat "a.txt" c0).2 = 1%Z
   ∧ Cache.hits (Cache.get key stat "a.txt" c0).2 = 0%Z)
  ∧ (Cache.hits (Cache.get key stat "a.txt" c1).2 = 1%Z
     ∧ Cache.misses (Cache.get key stat "a.txt" c1).2 = 0%Z).
Proof.
  intros key stat c0 c1. split.
  - destruct (counters_count_lookups key stat 0 "a.txt" "" c0) as (_ & H & _).
    destruct (H eq_refl) as [Hh Hm]. split; [exact Hm|exact Hh].
  - destruct (counters_count_lookups key stat 0 "a.txt" "" c1) as (H & _).
    apply H. vm_compute. by eexists.
Defined.

(** X2. [invalidate] forgets a path: the next [get] for it is a miss,
    whatever the file's mtime, and the entries of all other keys are as
    they were. *)
Theorem invalidate_then_get_misses (key : string → string)
    (stat : string → option Z) (file_path : string) (c : Cache.DocumentCache) :
  Cache.consistent c →
  let c' := Cache.invalidate key file_path c in
  (Cache.get key stat file_path c').1 = None
  ∧ (∀ k, k ≠ key file_path →
       Cache.lookup k (Cache.cache c') = Cache.lookup k (Cache.cache c))
  ∧ Cache.consistent c'.
Proof.
  intros Hc c'. subst c'. unfold Cache.invalidate.
  destruct (remove_entry_consistent (key file_path) c Hc)
    as (Hc' & Hno & Hrm & _).
  split; [|split; [|exact Hc']].
  - unfold Cache.get. by rewrite Hno.
  - intros k Hk. rewrite Hrm. by apply lookup_remove_ne.
Qed.

(** Witness for X2: a cache that holds [a.txt] and [b.txt]. *)
Lemma invalidate_then_get_misses_witness :
  let key := λ p : string, p in
  let stat := λ _ : string, Some 7%Z in
  let c := Cache.put key stat 1 "b.txt" "bb"
             (Cache.put key stat 0 "a.txt" "aaaa" (Cache.init 100 50)) in
  let c' := Cache.invalidate key "a.txt" c in
  (Cache.get key stat "a.txt" c').1 = None
  ∧ (Cache.get key stat "b.txt" c').1 = Some "bb".
Proof.
  intros key stat c c'.
  assert (Hc : Cache.consistent c).
  { split; [reflexivity|]. vm_compute. apply NoDup_cons. split.
    - rewrite list_elem_of_singleton. discriminate.
    - apply NoDup_singleton. }
  destruct (invalidate_then_get_misses key stat "a.txt" c Hc) as (H & _).
  split; [exact H|reflexivity].
Defined.

(** X3. A [get] touches only the entry it asks for: whether it hits,
    misses or evicts the stale entry, every other key keeps its entry. *)
Theorem get_keeps_other_entries (key : string → string)
    (stat : string → option Z) (file_path : string) (c : Cache.DocumentCache)
    (k : string) :
  k ≠ key file_path →
  Cache.lookup k (Cache.cache (Cache.get key stat file_path c).2)
  = Cache.lookup k (Cache.cache c).
Proof.
  intros Hk. unfold Cache.get, Cache._remove_entry.
  destruct (Cache.lookup (key file_path) (Cache.cache c)) as [e|]; [|done].
  destruct (Cache._get_file_mtime stat file_path >? Cache.mtime e)%Z; simpl.
  - by apply lookup_remove_ne.
  - rewrite lookup_app_ne by done. by apply lookup_remove_ne.
Qed.

(** Witness for X3: [a.txt] went stale and is evicted by the lookup;
    [b.txt] stays. *)
Lemma get_keeps_other_entries_witness :
  let key := λ p : string, p in
  let c := Cache.put key (λ _, Some 7%Z) 1 "b.txt" "bb"
             (Cache.put key (λ _, Some 7%Z) 0 "a.txt" "aaaa"
                (Cache.init 100 50)) in
  let r := Cache.get key (λ _, Some 9%Z) "a.txt" c in
  r.1 = None
  ∧ Cache.lookup "b.txt" (Cache.cache r.2) = Cache.lookup "b.txt" (Cache.cache c).
Proof.
  intros key c r. split; [reflexivity|].
  apply (get_keeps_other_entries key (λ _, Some 9%Z) "a.txt" c "b.txt").
  discriminate.
Defined.

(** X4. [put] evicts no more than it must: the entries it drops are the
    oldest ones, and had the youngest of them been kept, the store with
    the new entry would have exceeded the byte bound or the item bound. *)
Theorem put_evicts_minimally (key : string → string)
    (stat : string → option Z) (now : Z) (file_path content : string)
    (c : Cache.DocumentCache) :
  Cache.consistent c →
  let k := key file_path in
  let new := Cache.stored stat now file_path content in
  let c' := Cache.put key stat now file_path content c in
  ∃ evicted kept,
    Cache.remove k (Cache.cache c) = evicted ++ kept
    ∧ Cache.cache c' = kept ++ [(k, new)]
    ∧ ∀ older x,
        evicted = older ++ [x] →
        (Cache.max_size_bytes c
           < Cache.resident_bytes (x :: kept) + Cache.size new)%Z
        ∨ (Cache.max_items c ≤ Z.of_nat (length (x :: kept)))%Z.
Proof.
  intros Hc k new c'. subst c'. rewrite put_unfold. cbv zeta. fold k new.
  destruct (remove_entry_consistent k c Hc) as ([Hsz1 _] & _ & Hrm & Hb1 & Hi1).
  set (c1 := Cache._remove_entry k c) in *.
  destruct (evict_loop_spec (Z.of_nat (String.length content))
              (length (Cache.cache c1)) c1 (le_n _))
    as (_ & _ & _ & evicted & Hcache & _).
  pose proof (evict_loop_minimal (Z.of_nat (String.length content))
                (length (Cache.cache c1)) c1 (le_n _) Hsz1) as Hmin.
  cbv zeta in Hmin.
  set (c2 := Cache.evict_loop (length (Cache.cache c1))
               (Z.of_nat (String.length content)) c1) in *.
  exists evicted, (Cache.cache c2). split; [by rewrite <- Hrm|].
  split; [reflexivity|]. intros older x ->.
  rewrite <- Hb1, <- Hi1. apply (Hmin older x).
  by rewrite Hcache, <- app_assoc.
Qed.

(** Witness for X4: a cache of two items holds [a.txt] and [b.txt];
    putting [c.txt] drops [a.txt] only. *)
Lemma put_evicts_minimally_witness :
  let key := λ p : string, p in
  let stat := λ _ : string, Some 7%Z in
  let a := Cache.stored stat 0 "a.txt" "aaaa" in
  let b := Cache.stored stat 1 "b.txt" "bb" in
  let c := {| Cache.max_size_bytes := 1048576; Cache.max_items := 2;
              Cache.current_size := 6;
              Cache.cache := [("a.txt", a); ("b.txt", b)];
              Cache.hits := 0; Cache.misses := 0 |} in
  let new := Cache.stored stat 2 "c.txt" "c" in
  let c' := Cache.put key stat 2 "c.txt" "c" c in
  Cache.cache c' = [("b.txt", b); ("c.txt", new)]
  ∧ ∃ evicted kept,
      Cache.remove "c.txt" (Cache.cache c) = evicted ++ kept
      ∧ Cache.cache c' = kept ++ [("c.txt", new)]
      ∧ ∀ older x,
          evicted = older ++ [x] →
          (Cache.max_size_bytes c
             < Cache.resident_bytes (x :: kept) + Cache.size new)%Z
          ∨ (Cache.max_items c ≤ Z.of_nat (length (x :: kept)))%Z.
Proof.
  intros key stat a b c new c'. split; [reflexivity|].
  apply (put_evicts_minimally key stat 2 "c.txt" "c" c).
  split; [reflexivity|]. simpl. apply NoDup_cons. split.
  - rewrite list_elem_of_singleton. discriminate.
  - apply NoDup_singleton.
Defined.

Lemma remove_keeps_last (k k' : string) (e : Cache.entry)
    (l : list (string * Cache.entry)) :
  k' ≠ k →
  ∃ l', Cache.remove k' (l ++ [(k, e)]) = l' ++ [(k, e)].
Proof.
  intros Hne. induction l as [|[k2 e2] r IH]; simpl.
  - rewrite (proj2 (String.eqb_neq k' k) Hne). by exists [].
  - destruct (String.eqb k' k2).
    + by exists r.
    + destruct IH as [l' ->]. by exists ((k2, e2) :: l').
Qed.

(** X5. Least recently used means least recently looked up: an entry that
    a [get] has just served is the last one a following [put] for another
    path evicts.  After that [put] the entry is still cached, unless the
    [put] evicted everything and the cache holds the new entry only. *)
Theorem hit_entry_is_evicted_last (key : string → string)
    (stat stat' : string → option Z) (now : Z)
    (file_path other content served : string) (c : Cache.DocumentCache) :
  Cache.consistent c →
  (Cache.get key stat file_path c).1 = Some served →
  key other ≠ key file_path →
  let c1 := (Cache.get key stat file_path c).2 in
  let c2 := Cache.put key stat' now other content c1 in
  Cache.lookup (key file_path) (Cache.cache c2) ≠ None
  ∨ Cache.cache c2 = [(key other, Cache.stored stat' now other content)].
Proof.
  intros Hc Hhit Hne c1 c2.
  assert (Hc1 : Cache.consistent c1) by (by apply get_consistent).
  assert (Hlast : ∃ l e, Cache.cache c1 = l ++ [(key file_path, e)]).
  { subst c1. revert Hhit. unfold Cache.get.
    destruct (Cache.lookup (key file_path) (Cache.cache c)) as [e|]; [|done].
    destruct (Cache._get_file_mtime stat file_path >? Cache.mtime e)%Z;
      [done|]. intros _. simpl. by eexists _, _. }
  destruct Hlast as (l & e & Hl).
  destruct (put_spec key stat' now other content c1 Hc1)
    as (_ & _ & _ & _ & (evicted & kept & Hsplit & Hcache) & _).
  fold c2 in Hcache. rewrite Hl in Hsplit.
  destruct (remove_keeps_last (key file_path) (key other) e l Hne) as [l' Hl'].
  rewrite Hl' in Hsplit.
  destruct kept as [|y kept _] using rev_ind.
  - right. exact Hcache.
  - left. rewrite app_assoc in Hsplit. apply app_inj_tail in Hsplit as [_ <-].
    rewrite Hcache. apply lookup_elem_Some.
    rewrite !map_app. simpl. rewrite !elem_of_app. left. right.
    apply list_elem_of_singleton. reflexivity.
Qed.

(** Witness for X5: in a cache of two items, [a.txt] is older than
    [b.txt] but has just been read; putting [c.txt] evicts [b.txt]. *)
Lemma hit_entry_is_evicted_last_witness :
  let key := λ p : string, p in
  let stat := λ _ : string, Some 7%Z in
  let c := Cache.put key stat 1 "b.txt" "bb"
             (Cache.put key stat 0 "a.txt" "aaaa" (Cache.init 1 2)) in
  let c1 := (Cache.get key stat "a.txt" c).2 in
  let c2 := Cache.put key stat 2 "c.txt" "c" c1 in
  map fst (Cache.cache c2) = ["a.txt"; "c.txt"]
  ∧ (Cache.lookup "a.txt" (Cache.cache c2) ≠ None
     ∨ Cache.cache c2 = [("c.txt", Cache.stored stat 2 "c.txt" "c")]).
Proof.
  intros key stat c c1 c2. split; [reflexivity|].
  apply (hit_entry_is_evicted_last key stat stat 2 "a.txt" "c.txt" "c" "aaaa" c).
  - split; [reflexivity|]. vm_compute. apply NoDup_cons. split.
    + rewrite list_elem_of_singleton. discriminate.
    + apply NoDup_singleton.
  - reflexivity.
  - discriminate.
Defined.

(** X6. Insert then look up: as long as the file's mtime has not grown
    since the [put] (it may have stayed or gone back), a [get] for the
    same path returns exactly the content that was put, counts a hit, and
    keeps the entry; a second [put] for the path replaces the content, so
    the latest one is served. *)
Theorem put_get_round_trip (key : string → string)
    (stat stat1 stat2 stat3 : string → option Z) (now now' : Z)
    (file_path content content' : string) (c : Cache.DocumentCache) :
  Cache.consistent c →
  (Cache._get_file_mtime stat1 file_path
   ≤ Cache._get_file_mtime stat file_path)%Z →
  (Cache._get_file_mtime stat3 file_path
   ≤ Cache._get_file_mtime stat2 file_path)%Z →
  let c1 := Cache.put key stat now file_path content c in
  let c2 := Cache.put key stat2 now' file_path content' c1 in
  (Cache.get key stat1 file_path c1).1 = Some content
  ∧ Cache.hits (Cache.get key stat1 file_path c1).2 = (Cache.hits c + 1)%Z
  ∧ Cache.lookup (key file_path)
      (Cache.cache (Cache.get key stat1 file_path c1).2)
    = Some (Cache.stored stat now file_path content)
  ∧ (Cache.get key stat3 file_path c2).1 = Some content'.
Proof.
  intros Hc Hm1 Hm3 c1 c2.
  destruct (put_spec key stat now file_path content c Hc)
    as (Hc1 & _ & _ & Hlook & _).
  fold c1 in Hc1, Hlook.
  assert (Hget : Cache.get key stat1 file_path c1 =
                 (Some content,
                  Cache.count_hit
                    (Cache.with_store c1
                       (Cache.remove (key file_path) (Cache.cache c1)
                        ++ [(key file_path,
                             Cache.stored stat now file_path content)])
                       (Cache.current_size c1)))).
  { unfold Cache.get. rewrite Hlook. cbn [Cache.mtime Cache.stored].
    destruct (Z.gtb_spec (Cache._get_file_mtime stat1 file_path)
                (Cache._get_file_mtime stat file_path)); [lia|done]. }
  rewrite Hget. cbn [fst snd Cache.hits Cache.count_hit Cache.with_store
                     Cache.cache].
  split; [done|]. split.
  { f_equal. subst c1. rewrite put_unfold. cbv zeta.
    cbn [Cache.hits Cache.with_store].
    destruct (evict_loop_counters
                (length (Cache.cache (Cache._remove_entry (key file_path) c)))
                (Z.of_nat (String.length content))
                (Cache._remove_entry (key file_path) c)) as [-> _].
    unfold Cache._remove_entry.
    by destruct (Cache.lookup (key file_path) (Cache.cache c)). }
  split.
  { apply lookup_app_new. apply lookup_remove_same. by destruct Hc1. }
  subst c2.
  destruct (get_after_put key stat2 stat3 now' file_path content' c1 Hc1)
    as [H _].
  by apply H.
Qed.

(** Witness for X6: two successive versions of [a.txt]; the first is
    looked up after the file's mtime went back from 7 to 5, the second
    with the mtime unchanged. *)
Lemma put_get_round_trip_witness :
  let key := λ p : string, p in
  let stat := λ _ : string, Some 7%Z in
  let earlier := λ _ : string, Some 5%Z in
  let c1 := Cache.put key stat 0 "a.txt" "first" (Cache.init 100 50) in
  let c2 := Cache.put key stat 1 "a.txt" "second" c1 in
  (Cache.get key earlier "a.txt" c1).1 = Some "first"
  ∧ (Cache.get key stat "a.txt" c2).1 = Some "second".
Proof.
  intros key stat earlier c1 c2.
  destruct (put_get_round_trip key stat earlier stat stat 0 1 "a.txt" "first"
              "second" (Cache.init 100 50)) as (H1 & _ & _ & H2).
  - split; [reflexivity|]. simpl. apply NoDup_nil_2.
  - vm_compute. discriminate.
  - vm_compute. discriminate.
  - split; [exact H1|exact H2].
Defined.

(** ** Concurrency guard: cycles, exclusion and the recorded id *)

Section DecimalText.

Import Decimal.

Ltac digit_char :=
  match goal with
  | |- context [Lock.is_digit (Ascii ?b0 ?b1 ?b2 ?b3 ?b4 ?b5 ?b6 ?b7)] =>
      change (Lock.is_digit (Ascii b0 b1 b2 b3 b4 b5 b6 b7)) with true
  end.

Lemma digits_of_uint_acc (d : uint) (acc : positive) (b : bool) :
  d ≠ Nil ∨ b = true →
  Lock.digits b (Z.pos acc) (NilEmpty.string_of_uint d)
  = Some (Z.pos (Pos.of_uint_acc d acc)).
Proof.
  revert acc b. induction d as [|d IH|d IH|d IH|d IH|d IH|d IH|d IH|d IH|d IH|d IH];
    intros acc b Hb;
    [destruct Hb as [?| ->]; [done|reflexivity]|..];
    cbn [NilEmpty.string_of_uint Lock.digits Pos.of_uint_acc];
    digit_char; cbv iota;
    (rewrite <- (IH _ true) by (by right)); f_equal;
    match goal with
    | |- context [Z.of_nat ?n] =>
        let v := eval vm_compute in (Z.of_nat n) in
        change (Z.of_nat n) with v
    end; lia.
Qed.

Lemma digits_of_uint (d : uint) (b : bool) :
  d ≠ Nil ∨ b = true →
  Lock.digits b 0 (NilEmpty.string_of_uint d) = Some (Z.of_N (Pos.of_uint d)).
Proof.
  revert b. induction d as [|d IH|d IH|d IH|d IH|d IH|d IH|d IH|d IH|d IH|d IH];
    intros b Hb;
    [destruct Hb as [?| ->]; [done|reflexivity]|..];
    cbn [NilEmpty.string_of_uint Lock.digits Pos.of_uint];
    digit_char; cbv iota;
    [exact (IH true (or_intror eq_refl))|..];
    exact (digits_of_uint_acc d _ true (or_intror eq_refl)).
Qed.

Lemma rstrip_string_of_uint (d : uint) :
  PyStr.rstrip_by PyStr.is_space (NilEmpty.string_of_uint d)
  = NilEmpty.string_of_uint d.
Proof.
  induction d as [|d IH|d IH|d IH|d IH|d IH|d IH|d IH|d IH|d IH|d IH];
    [done|..];
    cbn [NilEmpty.string_of_uint PyStr.rstrip_by]; rewrite IH;
    by destruct (NilEmpty.string_of_uint d).
Qed.

Lemma strip_string_of_uint (d : uint) :
  PyStr.strip (NilEmpty.string_of_uint d) = NilEmpty.string_of_uint d.
Proof.
  unfold PyStr.strip, PyStr.strip_by.
  assert (H : PyStr.lstrip_by PyStr.is_space (NilEmpty.string_of_uint d)
              = NilEmpty.string_of_uint d) by (by destruct d).
  rewrite H. apply rstrip_string_of_uint.
Qed.

(** Printing an integer in decimal and reading it back with [int]. *)
Lemma py_int_of_Z (z : Z) : Lock.py_int (PyStr.of_Z z) = Some z.
Proof.
  unfold PyStr.of_Z, Lock.py_int. destruct z as [|p|p]; [reflexivity|..];
    cbn [Z.to_int NilZero.string_of_int];
    pose proof (DecimalPos.Unsigned.to_uint_nonnil p) as Hnil;
    pose proof (DecimalPos.Unsigned.of_to p) as Hp.
  - assert (Hs : NilZero.string_of_uint (Pos.to_uint p)
                 = NilEmpty.string_of_uint (Pos.to_uint p))
      by (by destruct (Pos.to_uint p)).
    rewrite Hs, strip_string_of_uint.
    pose proof (digits_of_uint (Pos.to_uint p) false (or_introl Hnil)) as Hd.
    rewrite Hp in Hd. by destruct (Pos.to_uint p).
  - assert (Hs : NilZero.string_of_uint (Pos.to_uint p)
                 = NilEmpty.string_of_uint (Pos.to_uint p))
      by (by destruct (Pos.to_uint p)).
    rewrite Hs.
    assert (Hstrip : PyStr.strip (String "-" (NilEmpty.string_of_uint (Pos.to_uint p)))
                     = String "-" (NilEmpty.string_of_uint (Pos.to_uint p))).
    { unfold PyStr.strip, PyStr.strip_by.
      cbn [PyStr.lstrip_by].
      change (PyStr.is_space "-") with false. cbv iota.
      cbn [PyStr.rstrip_by]. rewrite rstrip_string_of_uint.
      by destruct (NilEmpty.string_of_uint (Pos.to_uint p)). }
    rewrite Hstrip.
    rewrite (digits_of_uint (Pos.to_uint p) false (or_introl Hnil)), Hp.
    reflexivity.
Qed.

End DecimalText.

Lemma strip_of_Z (z : Z) : PyStr.strip (PyStr.of_Z z) = PyStr.of_Z z.
Proof.
  unfold PyStr.of_Z. destruct z as [|p|p]; [reflexivity|..];
    cbn [Z.to_int NilZero.string_of_int];
    pose proof (DecimalPos.Unsigned.to_uint_nonnil p) as Hnil;
    assert (Hs : NilZero.string_of_uint (Pos.to_uint p)
                 = NilEmpty.string_of_uint (Pos.to_uint p))
      by (by destruct (Pos.to_uint p));
    rewrite Hs.
  - apply strip_string_of_uint.
  - unfold PyStr.strip, PyStr.strip_by. cbn [PyStr.lstrip_by].
    change (PyStr.is_space "-") with false. cbv iota.
    cbn [PyStr.rstrip_by]. rewrite rstrip_string_of_uint.
    by destruct (NilEmpty.string_of_uint (Pos.to_uint p)).
Qed.

(** X7. Acquire, release, acquire again: on a lock nobody holds, [acquire]
    succeeds at once; the following [release] removes the marker file,
    frees the lock and clears [is_locked]; releasing once more changes
    nothing; and a further [acquire], by the same or another process,
    succeeds again. *)
Theorem acquire_release_cycle (blocking blocking' : bool) (pid pid' : Z)
    (w : Lock.world) (l l' : Lock.FileLock) :
  (∀ m, Lock.lock_file w = Some m → Lock.flock_holder m = None) →
  ∃ w1 l1,
    Lock.acquire blocking pid w l = Some (true, w1, l1)
    ∧ Lock.is_locked l1 = true
    ∧ let r := Lock.release pid w1 l1 in
      Lock.lock_file r.1 = None
      ∧ Lock.is_locked r.2 = false
      ∧ Lock.release pid r.1 r.2 = r
      ∧ ∃ w3 l3,
          Lock.acquire blocking' pid' r.1 l' = Some (true, w3, l3)
          ∧ Lock.lock_file w3 =
              Some {| Lock.body := PyStr.of_Z pid';
                      Lock.flock_holder := Some pid' |}.
Proof.
  intros Hfree.
  destruct (acquire_free_records_pid blocking pid w l Hfree)
    as (w1 & l1 & Hacq & Hfile & Hlocked).
  exists w1, l1. split; [exact Hacq|]. split; [exact Hlocked|].
  assert (Hrel : Lock.lock_file (Lock.release pid w1 l1).1 = None
                 ∧ Lock.is_locked (Lock.release pid w1 l1).2 = false).
  { unfold Lock.release. rewrite Hlocked. cbn [negb].
    destruct (Lock.lock_file_fd l1);
      unfold Lock.flock_un; rewrite Hfile; done. }
  destruct Hrel as [Hgone Hunl]. cbv zeta.
  split; [exact Hgone|]. split; [exact Hunl|]. split.
  - destruct (Lock.release pid w1 l1) as [w2 l2]. simpl in *.
    unfold Lock.release. by rewrite Hunl.
  - destruct (acquire_free_records_pid blocking' pid' (Lock.release pid w1 l1).1 l')
      as (w3 & l3 & Hacq3 & Hfile3 & _).
    + intros m Hm. by rewrite Hgone in Hm.
    + by exists w3, l3.
Qed.

(** Witness for X7: process 100 locks and unlocks a directory without a
    marker file, then process 200 locks it. *)
Lemma acquire_release_cycle_witness :
  let w := {| Lock.lock_file := None; Lock.clock := 0 |} in
  ∃ w1 l1,
    Lock.acquire true 100 w (Lock.init 30000) = Some (true, w1, l1)
    ∧ Lock.is_locked l1 = true
    ∧ let r := Lock.release 100 w1 l1 in
      Lock.lock_file r.1 = None
      ∧ Lock.is_locked r.2 = false
      ∧ Lock.release 100 r.1 r.2 = r
      ∧ ∃ w3 l3,
          Lock.acquire false 200 r.1 (Lock.init 30000) = Some (true, w3, l3)
          ∧ Lock.lock_file w3 =
              Some {| Lock.body := PyStr.of_Z 200;
                      Lock.flock_holder := Some 200%Z |}.
Proof.
  intros w.
  apply (acquire_release_cycle true false 100 200 w
           (Lock.init 30000) (Lock.init 30000)).
  intros m Hm. discriminate Hm.
Defined.



(** X9. The liveness probe reads back what [acquire] wrote: after an
    uncontended [acquire] by a process, the id recorded in the marker file
    is that process's id, for every id, so the probe answers whether that
    process is alive (also when the caller is the holder itself); after
    the holder's [release] there is no marker file and the probe answers
    [False]. *)
Theorem probe_reads_back_holder (blocking : bool) (pid : Z)
    (alive : Z → bool) (w : Lock.world) (l : Lock.FileLock) :
  (∀ m, Lock.lock_file w = Some m → Lock.flock_holder m = None) →
  ∃ w1 l1,
    Lock.acquire blocking pid w l = Some (true, w1, l1)
    ∧ Lock.recorded_pid w1 = Some pid
    ∧ Lock.is_locked_by_another_process alive w1 = alive pid
    ∧ Lock.is_locked_by_another_process alive (Lock.release pid w1 l1).1
      = false.
Proof.
  intros Hfree.
  destruct (acquire_free_records_pid blocking pid w l Hfree)
    as (w1 & l1 & Hacq & Hfile & Hlocked).
  exists w1, l1. split; [exact Hacq|].
  unfold Lock.recorded_pid, Lock.is_locked_by_another_process.
  rewrite Hfile. cbn [Lock.body]. rewrite strip_of_Z, py_int_of_Z.
  split; [done|]. split; [done|].
  unfold Lock.release. rewrite Hlocked. cbn [negb].
  destruct (Lock.lock_file_fd l1); unfold Lock.flock_un; rewrite Hfile; done.
Qed.

(** Witness for X9: process 4242 takes the free lock. *)
Lemma probe_reads_back_holder_witness :
  let w := {| Lock.lock_file := None; Lock.clock := 0 |} in
  let alive := λ pid : Z, (pid =? 4242)%Z in
  ∃ w1 l1,
    Lock.acquire false 4242 w (Lock.init 30000) = Some (true, w1, l1)
    ∧ Lock.recorded_pid w1 = Some 4242%Z
    ∧ Lock.is_locked_by_another_process alive w1 = alive 4242%Z
    ∧ Lock.is_locked_by_another_process alive
        (Lock.release 4242 w1 l1).1 = false.
Proof.
  intros w alive.
  apply (probe_reads_back_holder false 4242 alive w (Lock.init 30000)).
  intros m Hm. discriminate Hm.
Defined.

(** ** Change watcher: what a check reports *)

Section WatcherMore.

Import Watcher.

Implicit Types (fs : gmap string dir_entry) (w : DocumentWatcher).

Lemma elem_of_added fs now w p :
  p ∈ added (check_for_changes fs now w).1
  ↔ is_Some (_take_snapshot fs !! p) ∧ _last_snapshot w !! p = None.
Proof.
  simpl. by rewrite elem_of_difference, elem_of_dom, not_elem_of_dom.
Qed.

Lemma elem_of_deleted fs now w p :
  p ∈ deleted (check_for_changes fs now w).1
  ↔ _take_snapshot fs !! p = None ∧ is_Some (_last_snapshot w !! p).
Proof.
  simpl. rewrite elem_of_difference, elem_of_dom, not_elem_of_dom. tauto.
Qed.

Lemma elem_of_modified fs now w p :
  p ∈ modified (check_for_changes fs now w).1
  ↔ ∃ t t', _take_snapshot fs !! p = Some t
            ∧ _last_snapshot w !! p = Some t' ∧ t ≠ t'.
Proof.
  simpl. rewrite elem_of_filter, elem_of_intersection, !elem_of_dom. split.
  - intros (Hne & [t Ht] & [t' Ht']). exists t, t'.
    repeat split; [done|done|]. intros ->. apply Hne. by rewrite Ht, Ht'.
  - intros (t & t' & Ht & Ht' & Hne).
    rewrite Ht, Ht'. repeat split; [|by eexists|by eexists].
    intros [= ?]. done.
Qed.

(** A path is reported, in one of the three sets, exactly when its entry
    in the new scan differs from its entry in the stored snapshot. *)
Lemma reported_iff_differs fs now w p :
  let c := (check_for_changes fs now w).1 in
  p ∈ added c ∪ modified c ∪ deleted c
  ↔ _take_snapshot fs !! p ≠ _last_snapshot w !! p.
Proof.
  cbv zeta. rewrite !elem_of_union, elem_of_added, elem_of_deleted,
    elem_of_modified.
  destruct (_take_snapshot fs !! p) as [t|] eqn:Ht;
    destruct (_last_snapshot w !! p) as [t'|] eqn:Ht'; split.
  - intros [[[_ ?]|(? & ? & [= <-] & [= <-] & Hne)]|[? _]]; try done.
    by intros [= ?].
  - intros Hne. left. right. exists t, t'. repeat split. by intros ->.
  - done.
  - intros _. left. left. split; [by eexists|done].
  - done.
  - intros _. right. split; [done|by eexists].
  - intros [[[[? ?] _]|(? & ? & ? & _)]|[_ [? ?]]]; done.
  - done.
Qed.

End WatcherMore.

(** X10. What [check_for_changes] reports is exactly the difference between
    the new scan and the stored snapshot: a path is in one of [added],
    [modified], [deleted] if and only if its mtime entry differs between
    the two, and no path is in two of the sets. *)
Theorem changes_are_the_snapshot_difference
    (fs : gmap string Watcher.dir_entry) (now : Z)
    (w : Watcher.DocumentWatcher) :
  let c := (Watcher.check_for_changes fs now w).1 in
  (∀ p, p ∈ Watcher.added c ∪ Watcher.modified c ∪ Watcher.deleted c
        ↔ Watcher._take_snapshot fs !! p ≠ Watcher._last_snapshot w !! p)
  ∧ Watcher.added c ## Watcher.modified c
  ∧ Watcher.added c ## Watcher.deleted c
  ∧ Watcher.modified c ## Watcher.deleted c.
Proof.
  cbv zeta. split; [intros p; apply reported_iff_differs|].
  repeat split; intros p.
  - rewrite elem_of_added, elem_of_modified.
    intros [_ Hn] (? & ? & _ & Hs & _). by rewrite Hn in Hs.
  - rewrite elem_of_added, elem_of_deleted.
    intros [[? Hs] _] [Hn _]. by rewrite Hn in Hs.
  - rewrite elem_of_modified, elem_of_deleted.
    intros (? & ? & Hs & _) [Hn _]. by rewrite Hn in Hs.
Qed.

(** No change is seen exactly when the scan is the stored snapshot. *)
Lemma no_change_iff_scan_is_snapshot
    (fs : gmap string Watcher.dir_entry) (now : Z)
    (w : Watcher.DocumentWatcher) :
  (Watcher.has_changes fs now w).1 = false
  ↔ Watcher._take_snapshot fs = Watcher._last_snapshot w.
Proof.
  unfold Watcher.has_changes.
  pose proof (reported_iff_differs fs now w) as Hrep. cbv zeta in Hrep.
  destruct (Watcher.check_for_changes fs now w) as [c w'] eqn:E.
  cbn [fst] in *. unfold Watcher.any_change, Watcher.nonempty.
  rewrite !orb_false_iff, !bool_decide_eq_false. split.
  - intros [[Ha Hm] Hd]. apply map_eq. intros p.
    destruct (decide (Watcher._take_snapshot fs !! p
                      = Watcher._last_snapshot w !! p)) as [|Hne]; [done|].
    apply Hrep in Hne. exfalso.
    apply elem_of_union in Hne as [Hne|Hne];
      [apply elem_of_union in Hne as [Hne|Hne]|].
    + apply Ha. intros Hempty. rewrite Hempty in Hne. by apply elem_of_empty in Hne.
    + apply Hm. intros Hempty. rewrite Hempty in Hne. by apply elem_of_empty in Hne.
    + apply Hd. intros Hempty. rewrite Hempty in Hne. by apply elem_of_empty in Hne.
  - intros Heq.
    assert (Hnone : ∀ p, p ∉ Watcher.added c ∪ Watcher.modified c
                            ∪ Watcher.deleted c).
    { intros p Hp. apply Hrep in Hp. apply Hp. by rewrite Heq. }
    repeat split; intros Hne; apply Hne; apply leibniz_equiv;
      intros p; split; [|by intros ?%elem_of_empty| |by intros ?%elem_of_empty
                        | |by intros ?%elem_of_empty];
      intros Hp; exfalso; apply (Hnone p); rewrite !elem_of_union; tauto.
Qed.

(** X11. [has_changes] answers [False] exactly when the scan of the
    directory equals the stored snapshot: the same supported files with the
    same mtimes. *)
Theorem has_changes_false_iff_same_snapshot
    (fs : gmap string Watcher.dir_entry) (now : Z)
    (w : Watcher.DocumentWatcher) :
  (Watcher.has_changes fs now w).1 = false
  ↔ Watcher._take_snapshot fs = Watcher._last_snapshot w.
Proof. apply no_change_iff_scan_is_snapshot. Qed.

(** X12. A file the watcher knows is reported once when it changes and
    once when it goes away: after its mtime has changed, to a later or to
    an earlier time, the next check lists it as modified; after it has been
    removed from the directory, the next check lists it as deleted; in both
    cases the check after that, on the unchanged directory, reports
    nothing. *)
Theorem modified_and_deleted_reported_once
    (w : Watcher.DocumentWatcher) (fs : gmap string Watcher.dir_entry)
    (F : string) (e : Watcher.dir_entry) (t0 t now1 now2 : Z) :
  Watcher._last_snapshot w !! F = Some t0 →
  Watcher.is_file e = true →
  PyPath.is_supported F = true →
  Watcher.st_mtime e = Some t →
  t ≠ t0 →
  (let r1 := Watcher.check_for_changes (<[F:=e]> fs) now1 w in
   let r2 := Watcher.check_for_changes (<[F:=e]> fs) now2 (snd r1) in
   (F ∈ Watcher.modified (fst r1) ∧ (F ∉ Watcher.added (fst r1))
    ∧ (F ∉ Watcher.deleted (fst r1)))
   ∧ Watcher.added (fst r2) = ∅ ∧ Watcher.modified (fst r2) = ∅
   ∧ Watcher.deleted (fst r2) = ∅)
  ∧ (let r1 := Watcher.check_for_changes (delete F fs) now1 w in
     let r2 := Watcher.check_for_changes (delete F fs) now2 (snd r1) in
     (F ∈ Watcher.deleted (fst r1) ∧ (F ∉ Watcher.added (fst r1))
      ∧ (F ∉ Watcher.modified (fst r1)))
     ∧ Watcher.added (fst r2) = ∅ ∧ Watcher.modified (fst r2) = ∅
     ∧ Watcher.deleted (fst r2) = ∅).
Proof.
  intros Hold Hf Hs Ht Hne.
  pose proof (take_snapshot_added fs F e t Hf Hs Ht) as HF.
  assert (Hgone : Watcher._take_snapshot (delete F fs) !! F = None).
  { by rewrite take_snapshot_lookup, lookup_delete_eq. }
  split; cbv zeta.
  - split.
    + rewrite elem_of_modified, elem_of_added, elem_of_deleted.
      repeat split.
      * by exists t, t0.
      * intros [_ Hn]. by rewrite Hold in Hn.
      * intros [Hn _]. by rewrite HF in Hn.
    + by apply check_same_scan_empty.
  - split.
    + rewrite elem_of_modified, elem_of_added, elem_of_deleted.
      repeat split.
      * done.
      * by eexists.
      * intros [_ Hn]. by rewrite Hold in Hn.
      * intros (? & ? & Hn & _). by rewrite Hgone in Hn.
    + by apply check_same_scan_empty.
Qed.

(** Witness for X12: [notes.txt] was seen with mtime 100; it is then
    touched back to mtime 50, or removed. *)
Lemma modified_and_deleted_reported_once_witness :
  let seen := {| Watcher.is_file := true; Watcher.st_mtime := Some 100%Z |} in
  let older := {| Watcher.is_file := true; Watcher.st_mtime := Some 50%Z |} in
  let fs := <["notes.txt":=seen]> (∅ : gmap string Watcher.dir_entry) in
  let w := Watcher.init "." fs 0 in
  "notes.txt" ∈ Watcher.modified
     (fst (Watcher.check_for_changes (<["notes.txt":=older]> fs) 1 w))
  ∧ "notes.txt" ∈ Watcher.deleted
       (fst (Watcher.check_for_changes (delete "notes.txt" fs) 1 w)).
Proof.
  intros seen older fs w.
  destruct (modified_and_deleted_reported_once w fs "notes.txt" older
              100 50 1 2) as [[(Hm & _) _] [(Hd & _) _]].
  - reflexivity.
  - reflexivity.
  - vm_compute. reflexivity.
  - reflexivity.
  - discriminate.
  - split; [exact Hm|exact Hd].
Defined.

(** X13. Only supported regular files count.  When something else
    appears in the directory (an entry for which [is_file()] answers
    [False], such as a directory; a file whose extension, written in
    ASCII, is not a supported one; or a file that [is_file()] reports and
    whose [stat()] then raises [OSError], having vanished in between), the
    scan is what it was, and a watcher that held that scan reports no
    change. *)
Theorem ignored_entries_are_not_reported
    (w : Watcher.DocumentWatcher) (fs : gmap string Watcher.dir_entry)
    (F : string) (e : Watcher.dir_entry) (now : Z) :
  fs !! F = None →
  Watcher.is_file e = false
  ∨ (PyStr.is_ascii (PyPath.suffix F) = true
     ∧ PyPath.is_supported F = false)
  ∨ (Watcher.is_file e = true ∧ Watcher.st_mtime e = None) →
  Watcher._take_snapshot (<[F:=e]> fs) = Watcher._take_snapshot fs
  ∧ (Watcher._last_snapshot w = Watcher._take_snapshot fs →
     (Watcher.has_changes (<[F:=e]> fs) now w).1 = false).
Proof.
  intros Hnew Hign.
  assert (Hsame : Watcher._take_snapshot (<[F:=e]> fs)
                  = Watcher._take_snapshot fs).
  { unfold Watcher._take_snapshot. rewrite map_imap_insert_None.
    - apply delete_id. by rewrite map_lookup_imap, Hnew.
    - destruct Hign as [->| [[_ ->]| [_ ->]]]; [done| |].
      + by rewrite andb_false_r.
      + by destruct (_ && _). }
  split; [exact Hsame|]. intros Hw.
  apply no_change_iff_scan_is_snapshot. by rewrite Hsame.
Qed.

(** Witness for X13: a Python source file appears next to [notes.txt]. *)
Lemma ignored_entries_are_not_reported_witness :
  let doc := {| Watcher.is_file := true; Watcher.st_mtime := Some 100%Z |} in
  let fs := <["notes.txt":=doc]> (∅ : gmap string Watcher.dir_entry) in
  let w := Watcher.init "." fs 0 in
  Watcher._take_snapshot (<["setup.py":=doc]> fs) = Watcher._take_snapshot fs
  ∧ (Watcher.has_changes (<["setup.py":=doc]> fs) 1 w).1 = false.
Proof.
  intros doc fs w.
  destruct (ignored_entries_are_not_reported w fs "setup.py" doc 1)
    as [Hs Hc].
  - reflexivity.
  - right. left. split; vm_compute; reflexivity.
  - split; [exact Hs|]. apply Hc. reflexivity.
Defined.

(** ** Reasoning agent: what every turn keeps *)

Section AgentMore.

Import Agent.

Variable chat : list message → generation.
Variable read_file : string → string.
Variable grep : string → string → Z → string.
Variable list_docs : string → string.
Variable _get_system_prompt : string → string.
Variable rglob : option (list (string * bool)).
Variable unbound_local_error : string.
Variable max_iterations : Z.

Local Abbreviation run_loop :=
  (ask_loop chat read_file grep list_docs rglob unbound_local_error
     max_iterations).
Local Abbreviation call_tool := (_call_tool read_file grep list_docs).
Local Abbreviation run_ask :=
  (ask chat read_file grep list_docs _get_system_prompt rglob
     unbound_local_error max_iterations).

Implicit Types (st : locals) (question : string) (history : list message).

Local Abbreviation faithful_step :=
  (Agent.faithful_step read_file grep list_docs).

Lemma parse_action_nonempty u a i :
  parse_action u = Some (a, i) → a ≠ "" ∧ i ≠ "".
Proof.
  unfold parse_action. destruct (_ && _); [|done].
  destruct (scan_lines _ None None) as [[a'|] [i'|]]; try done.
  destruct (PyStr.truthy a') eqn:Ea; [|done].
  destruct (PyStr.truthy i') eqn:Ei; [|done].
  intros [= <- <-]. split; by apply truthy_nonempty.
Qed.

(** What the loop keeps, whatever the model says. *)
Lemma ask_loop_invariants remaining iteration question history st :
  let r := run_loop remaining iteration question history st in
  (∃ new, steps r = steps_so_far st ++ new
          ∧ (length new ≤ remaining)%nat
          ∧ Forall faithful_step new)
  ∧ (conversation_history r = history
     ∨ conversation_history r =
         history ++ [{| role := "user"; content := question |};
                     {| role := "assistant"; content := answer r |}]).
Proof.
  cbv zeta. revert iteration st.
  induction remaining as [|remaining IH]; intros iteration st.
  { cbn [ask_loop]. split; [|by left].
    exists []. by rewrite app_nil_r. }
  cbn [ask_loop].
  destruct (generate chat unbound_local_error st) as [u|e].
  2:{ split; [|by left]. exists []. rewrite app_nil_r.
      split; [done|]. split; [simpl; lia|done]. }
  destruct (parse_action u) as [[a i]|] eqn:Hp.
  - match goal with
    | |- context [run_loop remaining ?it question history ?st'] =>
        destruct (IH it st') as [(new & Hs & Hl & Hf) Hh]
    end.
    cbn [steps_so_far] in Hs. split; [|exact Hh].
    exists ({| action := a; input := i; observation := call_tool a i |} :: new).
    split; [by rewrite Hs, <- app_assoc|]. split; [simpl; lia|].
    constructor; [|exact Hf].
    destruct (parse_action_nonempty u a i Hp). by repeat split.
  - assert (Hnone : ∃ new, steps_so_far st = steps_so_far st ++ new
                           ∧ (length new ≤ S remaining)%nat
                           ∧ Forall faithful_step new).
    { exists []. rewrite app_nil_r.
      split; [done|]. split; [simpl; lia|done]. }
    destruct (PyStr.contains "Final Answer:" u).
    { split; [by apply Hnone|by right]. }
    destruct (negb (PyStr.contains "Action:" u)).
    { split; [by apply Hnone|by right]. }
    destruct (iteration =? max_iterations - 1)%Z.
    { destruct (_is_incomplete_answer u); (split; [by apply Hnone|by left]). }
    destruct (IH (iteration + 1)%Z (carried_on st u))
      as [(new & Hs & Hl & Hf) Hh].
    split; [|exact Hh]. exists new. cbn [steps_so_far carried_on] in Hs.
    split; [exact Hs|]. split; [lia|exact Hf].
Qed.

(** X14. The iteration cap bounds the tool calls: [ask] records at most
    [max_iterations] steps, whatever the model replies; with a cap of zero
    or less it asks the model nothing and returns the fixed sentence with
    no step. *)
Theorem tool_calls_bounded_by_iteration_cap question history :
  (length (steps
             (ask chat read_file grep list_docs _get_system_prompt rglob
                unbound_local_error max_iterations question history))
   ≤ Z.to_nat max_iterations)%nat
  ∧ ((max_iterations ≤ 0)%Z →
     ask chat read_file grep list_docs _get_system_prompt rglob
       unbound_local_error max_iterations question history =
     {| answer := "Maximum iterations reached without final answer.";
        steps := [];
        conversation_history := history |}).
Proof.
  split.
  - unfold ask.
    match goal with
    | |- context [run_loop ?n ?it question history ?st] =>
        destruct (ask_loop_invariants n it question history st)
          as [(new & Hs & Hl & _) _]
    end.
    rewrite Hs. simpl. exact Hl.
  - intros Hle. unfold ask.
    replace (Z.to_nat max_iterations) with 0%nat by lia. reflexivity.
Qed.

(** X15. Every recorded step is a real tool call: the tool name and the
    input are not empty, and the observation is exactly what [_call_tool]
    returned for them. *)
Theorem recorded_steps_are_tool_calls question history :
  Forall faithful_step (steps (run_ask question history)).
Proof.
  unfold ask.
  match goal with
  | |- context [run_loop ?n ?it question history ?st] =>
      destruct (ask_loop_invariants n it question history st)
        as [(new & Hs & _ & Hf) _]
  end.
  rewrite Hs. exact Hf.
Qed.

(** X16. A turn leaves the conversation history as it was, or appends
    exactly one exchange to it: the question, then the answer that [ask]
    returns.  Earlier turns are never rewritten. *)
Theorem history_gains_one_exchange_or_nothing question history :
  let r := ask chat read_file grep list_docs _get_system_prompt rglob
             unbound_local_error max_iterations question history in
  conversation_history r = history
  ∨ conversation_history r =
      history ++ [{| role := "user"; content := question |};
                  {| role := "assistant"; content := answer r |}].
Proof.
  cbv zeta. unfold ask.
  match goal with
  | |- context [run_loop ?n ?it question history ?st] =>
      destruct (ask_loop_invariants n it question history st) as [_ Hh]
  end.
  exact Hh.
Qed.

End AgentMore.

(** Witness for X14: a model that asks for a tool at every turn, with a cap
    of three iterations and with a cap of zero. *)
Lemma tool_calls_bounded_by_iteration_cap_witness :
  (length (Agent.steps (Agent.sample_ask Agent.chat_always_acts 3 "budget"))
   ≤ 3)%nat
  ∧ Agent.sample_ask Agent.chat_always_acts 0 "budget"
    = {| Agent.answer := "Maximum iterations reached without final answer.";
         Agent.steps := [];
         Agent.conversation_history := [] |}.
Proof.
  split.
  - exact (proj1 (tool_calls_bounded_by_iteration_cap
                    Agent.chat_always_acts Agent.sample_read_file
                    Agent.sample_grep Agent.sample_list_docs
                    Agent.sample_prompt Agent.sample_rglob
                    Agent.sample_unbound 3 "budget" [])).
  - apply (proj2 (tool_calls_bounded_by_iteration_cap
                    Agent.chat_always_acts Agent.sample_read_file
                    Agent.sample_grep Agent.sample_list_docs
                    Agent.sample_prompt Agent.sample_rglob
                    Agent.sample_unbound 0 "budget" [])).
    lia.
Defined.

(** ** Strings: prefixes, search and case *)

Lemma append_cons (a : ascii) (s t : string) :
  String a s +:+ t = String a (s +:+ t).
Proof. reflexivity. Qed.

Lemma startswith_nil (s : string) : PyStr.startswith "" s = true.
Proof. by destruct s. Qed.

Lemma startswith_append (p s t : string) :
  PyStr.startswith p s = true → PyStr.startswith p (s +:+ t) = true.
Proof.
  unfold PyStr.startswith. revert p.
  induction s as [|b s IH]; intros [|a p].
  - intros _. apply startswith_nil.
  - done.
  - intros _. apply startswith_nil.
  - rewrite append_cons. simpl. destruct (ascii_dec a b); [apply IH|done].
Qed.

Lemma startswith_self (s : string) : PyStr.startswith s s = true.
Proof.
  unfold PyStr.startswith. induction s as [|a s IH]; [done|]. simpl.
  by destruct (ascii_dec a a).
Qed.

Lemma partition_unfold (sep s : string) :
  PyStr.partition sep s =
  if PyStr.startswith sep s
  then Some (EmptyString, PyStr.drop (String.length sep) s)
  else match s with
       | EmptyString => None
       | String c r =>
           match PyStr.partition sep r with
           | Some (b, a) => Some (String c b, a)
           | None => None
           end
       end.
Proof. by destruct s. Qed.

Lemma contains_infix (sub a b : string) :
  PyStr.contains sub (a +:+ sub +:+ b) = true.
Proof.
  unfold PyStr.contains. induction a as [|c a IH].
  - change ("" +:+ sub +:+ b) with (sub +:+ b).
    rewrite partition_unfold.
    by rewrite (startswith_append sub sub b (startswith_self sub)).
  - rewrite append_cons, partition_unfold.
    destruct (PyStr.startswith sub (String c (a +:+ sub +:+ b))); [done|].
    by destruct (PyStr.partition sub (a +:+ sub +:+ b)) as [[? ?]|].
Qed.

Lemma lower_append (s t : string) :
  PyStr.lower (s +:+ t) = PyStr.lower s +:+ PyStr.lower t.
Proof.
  induction s as [|a s IH]; [done|].
  rewrite append_cons. simpl. rewrite IH. reflexivity.
Qed.

(** ** Reasoning agent: consuming the stream *)

Section ConsumeFacts.

Import Agent.

Lemma consume_within_limits chunks failure text count :
  (count + Z.of_nat (length chunks) ≤ max_chunks)%Z →
  (Z.of_nat (String.length (text +:+ fragments_text chunks)) ≤ max_length)%Z →
  consume chunks failure text count
  = (text +:+ fragments_text chunks, failure).
Proof.
  revert text count. induction chunks as [|chunk rest IH];
    intros text count Hn Hlen.
  - simpl. by rewrite append_nil_r.
  - cbn [consume]. cbn [length] in Hn.
    destruct (Z.gtb_spec (count + 1) max_chunks); [lia|].
    assert (Hpre : (Z.of_nat (String.length text) ≤ max_length)%Z).
    { rewrite length_append in Hlen. lia. }
    destruct (Z.gtb_spec (Z.of_nat (String.length text)) max_length); [lia|].
    destruct chunk as [content|]; cbn [fragments_text] in *.
    + rewrite IH; [by rewrite append_assoc|lia|by rewrite append_assoc].
    + apply IH; [lia|done].
Qed.

Lemma consume_bounded chunks failure text count (L : nat) :
  Forall (λ chunk, ∀ content, chunk = Some content →
                              (String.length content ≤ L)%nat) chunks →
  (Z.of_nat (String.length text) ≤ max_length + Z.of_nat L)%Z →
  (Z.of_nat (String.length (consume chunks failure text count).1)
   ≤ max_length + Z.of_nat L + 47)%Z.
Proof.
  intros Hall. revert text count.
  induction Hall as [|chunk rest Hc _ IH]; intros text count Hlen.
  - simpl. lia.
  - cbn [consume].
    destruct (count + 1 >? max_chunks)%Z.
    { cbn [fst]. rewrite !length_append.
      change (String.length nl) with 1%nat.
      change (String.length "[Response truncated: exceeded maximum chunks]")
        with 45%nat. lia. }
    destruct (Z.gtb_spec (Z.of_nat (String.length text)) max_length).
    { cbn [fst]. rewrite !length_append.
      change (String.length nl) with 1%nat.
      change (String.length "[Response truncated: exceeded maximum length]")
        with 45%nat. lia. }
    apply IH. destruct chunk as [content|]; [|lia].
    rewrite length_append. specialize (Hc content eq_refl). lia.
Qed.

Lemma consume_overlong chunks failure text count :
  (count ≤ max_chunks)%Z →
  (max_chunks < count + Z.of_nat (length chunks))%Z →
  ∃ kept marker,
    consume chunks failure text count = (kept +:+ marker, None)
    ∧ marker ∈ truncation_markers.
Proof.
  revert text count. induction chunks as [|chunk rest IH];
    intros text count Hle Hlong.
  - simpl in Hlong. lia.
  - cbn [consume]. cbn [length] in Hlong.
    destruct (Z.gtb_spec (count + 1) max_chunks).
    { eexists text, _. split; [reflexivity|]. apply list_elem_of_here. }
    destruct (Z.of_nat (String.length text) >? max_length)%Z.
    { eexists text, _. split; [reflexivity|].
      apply list_elem_of_further, list_elem_of_here. }
    apply IH; lia.
Qed.

End ConsumeFacts.

(** X17. Under the limits nothing is lost: when a stream has at most 2000
    chunks and its fragments make up at most 16000 bytes, the accumulated
    utterance is the fragments in order, and the failure that ended the
    stream, if any, is passed on. *)
Theorem stream_within_limits_is_concatenated
    (chunks : list (option string)) (failure : option string) :
  (Z.of_nat (length chunks) ≤ Agent.max_chunks)%Z →
  (Z.of_nat (String.length (Agent.fragments_text chunks)) ≤ Agent.max_length)%Z →
  Agent.consume chunks failure "" 0 = (Agent.fragments_text chunks, failure).
Proof.
  intros Hn Hlen.
  by apply (consume_within_limits chunks failure "" 0).
Qed.

(** Witness for X17: two fragments and a chunk without content. *)
Lemma stream_within_limits_is_concatenated_witness :
  Agent.consume [Some "The budget "; None; Some "is 8GB."] None "" 0
  = ("The budget is 8GB.", None).
Proof.
  apply (stream_within_limits_is_concatenated
           [Some "The budget "; None; Some "is 8GB."] None);
    vm_compute; discriminate.
Defined.

(** X18. The accumulated utterance is bounded.  For a stream of ASCII
    text, on which the characters the code counts are the bytes counted
    here: when no fragment is longer than [L] characters, the utterance,
    truncation marker included, has at most 16000 + L + 47 characters,
    however long the stream is. *)
Theorem utterance_length_is_bounded
    (chunks : list (option string)) (failure : option string) (L : nat) :
  Forall (λ chunk, ∀ content, chunk = Some content →
                              PyStr.is_ascii content = true
                              ∧ (String.length content ≤ L)%nat) chunks →
  (Z.of_nat (String.length (Agent.consume chunks failure "" 0).1)
   ≤ Agent.max_length + Z.of_nat L + 47)%Z.
Proof.
  intros Hall. apply consume_bounded.
  - eapply Forall_impl; [exact Hall|].
    intros chunk Hc content Hcontent. by destruct (Hc content Hcontent).
  - change (String.length "") with 0%nat. unfold Agent.max_length. lia.
Qed.

(** Witness for X18: three fragments of at most eleven characters. *)
Lemma utterance_length_is_bounded_witness :
  (Z.of_nat (String.length
     (Agent.consume [Some "The budget "; None; Some "is 8GB."] None "" 0).1)
   ≤ Agent.max_length + Z.of_nat 11 + 47)%Z.
Proof.
  apply (utterance_length_is_bounded
           [Some "The budget "; None; Some "is 8GB."] None 11).
  repeat (apply Forall_cons; split;
          [intros content H;
           first [discriminate H
                 |injection H as <-; split; [reflexivity|vm_compute; lia]]
          |]).
  apply Forall_nil_2.
Defined.

(** X19. A stream of more than 2000 chunks is always cut: the utterance
    ends with one of the two truncation markers, and a failure of the
    stream beyond the cut is never seen. *)
Theorem overlong_stream_is_truncated
    (chunks : list (option string)) (failure : option string) :
  (Agent.max_chunks < Z.of_nat (length chunks))%Z →
  ∃ kept marker,
    Agent.consume chunks failure "" 0 = (kept +:+ marker, None)
    ∧ marker ∈ Agent.truncation_markers.
Proof.
  intros Hlong. apply consume_overlong; [unfold Agent.max_chunks; lia|lia].
Qed.

(** Witness for X19: 2001 chunks of one byte each, then a failure. *)
Lemma overlong_stream_is_truncated_witness :
  ∃ kept marker,
    Agent.consume (replicate 2001 (Some "a")) (Some "connection reset") "" 0
    = (kept +:+ marker, None)
    ∧ marker ∈ Agent.truncation_markers.
Proof.
  apply (overlong_stream_is_truncated (replicate 2001 (Some "a"))
           (Some "connection reset")).
  rewrite length_replicate. vm_compute. reflexivity.
Defined.

Lemma startswith_char_cons (c a : ascii) (s : string) :
  PyStr.startswith (String c "") (String a s) = true ↔ c = a.
Proof.
  unfold PyStr.startswith. simpl. destruct (ascii_dec c a) as [->|Hne].
  - split; [done|]. intros _. by destruct s.
  - split; [done|]. intros ->. done.
Qed.

Lemma contains_char_cons (c a : ascii) (s : string) :
  PyStr.contains (String c "") (String a s) = false
  ↔ c ≠ a ∧ PyStr.contains (String c "") s = false.
Proof.
  unfold PyStr.contains. rewrite (partition_unfold _ (String a s)).
  destruct (PyStr.startswith (String c "") (String a s)) eqn:E.
  - apply startswith_char_cons in E. split; [done|]. by intros [? _].
  - assert (c ≠ a).
    { intros ->. by rewrite (proj2 (startswith_char_cons a a s) eq_refl) in E. }
    destruct (PyStr.partition (String c "") s) as [[? ?]|]; split;
      try done; by intros [_ ?].
Qed.

(** Splitting at a one-character separator that does not occur before
    it. *)
Lemma partition_char (c : ascii) (p f : string) :
  PyStr.contains (String c "") p = false →
  PyStr.partition (String c "") (p +:+ String c "" +:+ f) = Some (p, f).
Proof.
  induction p as [|a p IH]; intros Hp.
  - change ("" +:+ String c "" +:+ f) with (String c f).
    rewrite partition_unfold.
    by rewrite (proj2 (startswith_char_cons c c f) eq_refl).
  - apply contains_char_cons in Hp as [Hne Hp].
    rewrite append_cons, partition_unfold.
    destruct (PyStr.startswith (String c "")
                (String a (p +:+ String c "" +:+ f))) eqn:E.
    + by apply startswith_char_cons in E.
    + by rewrite (IH Hp).
Qed.

Lemma contains_false_partition (sep s : string) :
  PyStr.contains sep s = false → PyStr.partition sep s = None.
Proof. unfold PyStr.contains. by destruct (PyStr.partition sep s). Qed.

(** X20. Tool dispatch answers misuse with an error string instead of
    failing: a tool name other than [read_file], [grep] and [list_docs]
    gives ["Error: Unknown tool <name>"], and a [grep] input without a
    comma gives ["Error: grep requires pattern and file_path"]; in both
    cases no tool is run, so the answer does not depend on the tools. *)
Theorem tool_misuse_gives_error_string
    (read_file list_docs : string → string) (grep : string → string → Z → string)
    (tool_name tool_input : string) :
  (tool_name ≠ "read_file" → tool_name ≠ "grep" → tool_name ≠ "list_docs" →
   Agent._call_tool read_file grep list_docs tool_name tool_input
   = "Error: Unknown tool " +:+ tool_name)
  ∧ (PyStr.contains "," tool_input = false →
     Agent._call_tool read_file grep list_docs "grep" tool_input
     = "Error: grep requires pattern and file_path").
Proof.
  split.
  - intros H1 H2 H3. unfold Agent._call_tool.
    by rewrite (proj2 (String.eqb_neq _ _) H1), (proj2 (String.eqb_neq _ _) H2),
      (proj2 (String.eqb_neq _ _) H3).
  - intros Hc. unfold Agent._call_tool, PyStr.split1.
    change ("grep" =? "read_file")%string with false.
    change ("grep" =? "grep")%string with true. cbv iota.
    by rewrite (contains_false_partition _ _ Hc).
Qed.

(** Witness for X20: a tool the agent does not have, and a [grep] input
    that names no file. *)
Lemma tool_misuse_gives_error_string_witness :
  Agent._call_tool Agent.sample_read_file Agent.sample_grep
    Agent.sample_list_docs "delete_file" "notes.txt"
  = "Error: Unknown tool delete_file"
  ∧ Agent._call_tool Agent.sample_read_file Agent.sample_grep
      Agent.sample_list_docs "grep" "budget"
    = "Error: grep requires pattern and file_path".
Proof.
  split.
  - apply (tool_misuse_gives_error_string Agent.sample_read_file
             Agent.sample_list_docs Agent.sample_grep "delete_file" "notes.txt");
      discriminate.
  - apply (tool_misuse_gives_error_string Agent.sample_read_file
             Agent.sample_list_docs Agent.sample_grep "grep" "budget").
    reflexivity.
Defined.

(** X21. A [grep] input is split at its first comma only: what stands
    before it is the pattern, everything after it (further commas
    included) is the file path; both are trimmed of surrounding blanks and
    of surrounding double, then single, quotes, and [grep] is called with
    three lines of context. *)
Theorem grep_input_splits_at_first_comma
    (read_file list_docs : string → string) (grep : string → string → Z → string)
    (pattern file_path : string) :
  PyStr.contains "," pattern = false →
  let unquote := λ s,
    PyStr.strip_char "'" (PyStr.strip_char Agent.dquote (PyStr.strip s)) in
  Agent._call_tool read_file grep list_docs "grep"
    (pattern +:+ "," +:+ file_path)
  = grep (unquote pattern) (unquote file_path) 3%Z.
Proof.
  intros Hc unquote. unfold Agent._call_tool, PyStr.split1.
  change ("grep" =? "read_file")%string with false.
  change ("grep" =? "grep")%string with true. cbv iota.
  by rewrite (partition_char "," pattern file_path Hc).
Qed.

(** Witness for X21: a quoted pattern and a file name with a comma. *)
Lemma grep_input_splits_at_first_comma_witness :
  Agent._call_tool Agent.sample_read_file
    (λ pattern file_path _, pattern +:+ "|" +:+ file_path)
    Agent.sample_list_docs "grep" "'budget' , notes, v2.txt"
  = "budget|notes, v2.txt".
Proof.
  apply (grep_input_splits_at_first_comma Agent.sample_read_file
           Agent.sample_list_docs
           (λ pattern file_path _, pattern +:+ "|" +:+ file_path)
           "'budget' " " notes, v2.txt").
  reflexivity.
Defined.

(** X22. The incomplete-answer test finds each of its phrases anywhere in
    an answer and in any letter case. *)
Theorem incomplete_phrase_found_in_any_case
    (before after phrase written : string) :
  phrase ∈ Agent.incomplete_indicators →
  PyStr.lower written = PyStr.lower phrase →
  Agent._is_incomplete_answer (before +:+ written +:+ after) = true.
Proof.
  intros Hin Hcase. unfold Agent._is_incomplete_answer.
  apply existsb_exists. exists phrase. split; [by apply list_elem_of_In|].
  rewrite !lower_append, Hcase. apply contains_infix.
Qed.

(** Witness for X22: the phrase in capitals inside a sentence. *)
Lemma incomplete_phrase_found_in_any_case_witness :
  Agent._is_incomplete_answer "Sorry, the file was NOT FOUND anywhere." = true.
Proof.
  apply (incomplete_phrase_found_in_any_case
           "Sorry, the file was " " anywhere." "not found" "NOT FOUND").
  - do 3 apply list_elem_of_further. apply list_elem_of_here.
  - reflexivity.
Defined.

(** ** Reasoning agent: the fallback search *)

Section FallbackFacts.

Import Agent.

Variable grep : string → string → Z → string.

Lemma search_files_keeps keyword files result_lines found_any :
  ∃ more,
    (search_files grep keyword files result_lines found_any).1
    = result_lines ++ more.
Proof.
  revert result_lines found_any.
  induction files as [|[file_path is_file] rest IH];
    intros result_lines found_any.
  - exists []. by rewrite app_nil_r.
  - cbn [search_files].
    destruct (is_file && PyPath.is_supported file_path); [|apply IH].
    destruct (negb _); [|apply IH].
    destruct (10 <? _)%nat.
    + by eexists.
    + destruct (IH (result_lines
                    ++ ["**In " +:+ PyPath.name file_path +:+ ":**";
                        PyStr.take 200 (grep keyword file_path 2) +:+ "...";
                        ""]) true) as [more ->].
      eexists. by rewrite <- app_assoc.
Qed.

Lemma search_files_bound keyword files result_lines found_any :
  (length result_lines ≤ 10)%nat →
  (length (search_files grep keyword files result_lines found_any).1 ≤ 13)%nat.
Proof.
  revert result_lines found_any.
  induction files as [|[file_path is_file] rest IH];
    intros result_lines found_any Hlen.
  - simpl. lia.
  - cbn [search_files].
    destruct (is_file && PyPath.is_supported file_path); [|by apply IH].
    destruct (negb _); [|by apply IH].
    destruct (Nat.ltb_spec 10
                (length (result_lines
                         ++ ["**In " +:+ PyPath.name file_path +:+ ":**";
                             PyStr.take 200 (grep keyword file_path 2) +:+ "...";
                             ""]))) as [Hgt|Hle].
    + cbn [fst]. rewrite length_app. simpl. lia.
    + by apply IH.
Qed.

Lemma join_startswith p sep first rest :
  PyStr.startswith p first = true →
  PyStr.startswith p (PyStr.join sep (first :: rest)) = true.
Proof.
  intros Hp. destruct rest as [|x rest]; [exact Hp|].
  change (PyStr.join sep (first :: x :: rest))
    with (first +:+ sep +:+ PyStr.join sep (x :: rest)).
  by apply startswith_append.
Qed.

End FallbackFacts.

(** X23. The fallback search always has something to say: whatever the
    question, the files and the search results, its answer starts with the
    light-bulb sign and is never empty; and the results it lists stay
    within thirteen lines, the heading and at most four files of three
    lines each. *)
Theorem fallback_search_answer_shape
    (grep : string → string → Z → string)
    (rglob : option (list (string * bool))) (question : string) :
  PyStr.startswith "💡" (Agent._fallback_keyword_search grep rglob question)
  = true
  ∧ Agent._fallback_keyword_search grep rglob question ≠ ""
  ∧ ∀ keyword files heading,
      (length (Agent.search_files grep keyword files [heading] false).1
       ≤ 13)%nat.
Proof.
  assert (Hstart : PyStr.startswith "💡"
                     (Agent._fallback_keyword_search grep rglob question)
                   = true).
  { unfold Agent._fallback_keyword_search.
    destruct (filter _ _) as [|keyword rest]; [reflexivity|].
    destruct rglob as [files|].
    - destruct (search_files_keeps grep keyword files
                  ["💡 **Fallback Search Results** (keyword: '" +:+ keyword
                     +:+ "'):" +:+ Agent.nl] false) as [more Hmore].
      destruct (Agent.search_files _ _ _ _ _) as [result_lines found_any].
      cbn [fst] in Hmore. subst result_lines.
      destruct (negb found_any).
      + by apply (startswith_append "💡"
                    "💡 No direct matches found. Try using 'locallm search ").
      + apply join_startswith.
        by apply (startswith_append "💡"
                    "💡 **Fallback Search Results** (keyword: '").
    - by apply (startswith_append "💡"
                  "💡 **Suggestion**: Try 'locallm search "). }
  split; [exact Hstart|]. split.
  - intros Hempty. rewrite Hempty in Hstart. discriminate Hstart.
  - intros keyword files heading. apply search_files_bound. simpl. lia.
Qed.

(** How many matching files the fallback search lists before it stops:
    with five matching files, four are listed. *)
Example fallback_lists_four_files :
  let hit := λ (pattern file_path : string) (_ : Z), "Found 1 match(es)" in
  let files := [("a.txt", true); ("b.txt", true); ("c.txt", true);
                ("d.txt", true); ("e.txt", true)] in
  length (Agent.search_files hit "budget" files ["heading"] false).1 = 13%nat.
Proof. vm_compute. reflexivity. Qed.

(** ** Reasoning agent: reading a directive *)

Section StripFacts.

Variable f : ascii → bool.

Lemma lstrip_length s :
  (String.length (PyStr.lstrip_by f s) ≤ String.length s)%nat.
Proof.
  induction s as [|c s IH]; [done|]. simpl.
  destruct (f c); simpl; lia.
Qed.

Lemma rstrip_length s :
  (String.length (PyStr.rstrip_by f s) ≤ String.length s)%nat.
Proof.
  induction s as [|c s IH]; [done|]. simpl.
  destruct (PyStr.rstrip_by f s); [destruct (f c)|]; simpl in *; lia.
Qed.

(** A string that stripping leaves alone has nothing to strip at either
    end. *)
Lemma strip_fixed s :
  PyStr.strip_by f s = s →
  PyStr.lstrip_by f s = s ∧ PyStr.rstrip_by f s = s.
Proof.
  unfold PyStr.strip_by. intros Hs.
  assert (Hl : PyStr.lstrip_by f s = s).
  { destruct s as [|c s]; [done|]. simpl in *. destruct (f c); [|done].
    exfalso. apply (f_equal String.length) in Hs. simpl in Hs.
    pose proof (rstrip_length (PyStr.lstrip_by f s)).
    pose proof (lstrip_length s). lia. }
  split; [exact Hl|]. by rewrite Hl in Hs.
Qed.

Lemma rstrip_append s t :
  PyStr.rstrip_by f t = t → t ≠ "" →
  PyStr.rstrip_by f (s +:+ t) = s +:+ t.
Proof.
  intros Ht Hne. induction s as [|c s IH]; [exact Ht|].
  rewrite append_cons. simpl. rewrite IH.
  destruct (s +:+ t) eqn:E; [|done].
  destruct s; [|done]. by destruct t.
Qed.

End StripFacts.

Section DirectiveFacts.

Import Agent.

Lemma contains_char_append (c : ascii) (s t : string) :
  PyStr.contains (String c "") s = false →
  PyStr.contains (String c "") t = false →
  PyStr.contains (String c "") (s +:+ t) = false.
Proof.
  intros Hs Ht. induction s as [|a s IH]; [exact Ht|].
  apply contains_char_cons in Hs as [Hne Hs].
  rewrite append_cons. apply contains_char_cons. split; [done|by apply IH].
Qed.

(** Two lines joined by a newline split into these two lines. *)
Lemma split_two_lines (fuel : nat) (line1 line2 : string) :
  (2 ≤ fuel)%nat →
  PyStr.contains nl line1 = false →
  PyStr.contains nl line2 = false →
  PyStr.split_fuel fuel nl (line1 +:+ nl +:+ line2) = [line1; line2].
Proof.
  intros Hfuel H1 H2. destruct fuel as [|[|fuel]]; [lia|lia|].
  cbn [PyStr.split_fuel]. unfold nl in *.
  rewrite (partition_char _ line1 line2 H1).
  by rewrite (contains_false_partition _ _ H2).
Qed.

(** The text after a marker that opens a line, when the marker does not
    occur again. *)
Lemma after_marker_at_start (marker rest : string) :
  marker ≠ "" →
  PyStr.contains marker rest = false →
  after_marker marker (marker +:+ rest) = rest.
Proof.
  intros Hm Hrest. unfold after_marker, PyStr.split.
  assert (Hdrop : ∀ m r, PyStr.drop (String.length m) (m +:+ r) = r).
  { induction m as [|a m IHm]; intros r; [done|]. rewrite append_cons.
    simpl. apply IHm. }
  assert (Hlen : ∃ n, String.length (marker +:+ rest) = S n).
  { destruct marker; [done|]. rewrite append_cons. by eexists. }
  destruct Hlen as [n Hn]. rewrite Hn. cbn [PyStr.split_fuel].
  rewrite partition_unfold,
    (startswith_append marker marker rest (startswith_self marker)), Hdrop.
  destruct n; cbn [PyStr.split_fuel nth];
    by rewrite ?(contains_false_partition _ _ Hrest).
Qed.

End DirectiveFacts.

(** X24. A directive written the way the protocol asks is read back
    exactly: for a tool name and an input in ASCII that are not empty,
    carry no blanks at their ends, contain no line break and do not
    contain the marker that precedes them, the utterance made of the line
    ["Action: <tool>"] and the line ["Action Input: <input>"] parses to
    that tool and that input. *)
Theorem well_formed_directive_round_trip (tool input : string) :
  PyStr.is_ascii tool = true → PyStr.is_ascii input = true →
  tool ≠ "" → input ≠ "" →
  PyStr.strip tool = tool → PyStr.strip input = input →
  PyStr.contains Agent.nl tool = false →
  PyStr.contains Agent.nl input = false →
  PyStr.contains "Action:" tool = false →
  PyStr.contains "Action Input:" input = false →
  Agent.parse_action
    ("Action: " +:+ tool +:+ Agent.nl +:+ "Action Input: " +:+ input)
  = Some (tool, input).
Proof.
  intros _ _ Htne Hine Hts His Htnl Hinl Htm Him.
  destruct (strip_fixed PyStr.is_space tool Hts) as [Htl Htr].
  destruct (strip_fixed PyStr.is_space input His) as [Hil Hir].
  assert (Hu : "Action: " +:+ tool +:+ Agent.nl +:+ "Action Input: " +:+ input
               = ("Action: " +:+ tool) +:+ Agent.nl
                   +:+ ("Action Input: " +:+ input)).
  { by rewrite !append_assoc. }
  rewrite Hu.
  set (line1 := "Action: " +:+ tool).
  set (line2 := "Action Input: " +:+ input).
  unfold Agent.parse_action.
  assert (Hc1 : PyStr.contains "Action:" (line1 +:+ Agent.nl +:+ line2) = true).
  { unfold PyStr.contains. rewrite partition_unfold.
    by rewrite (startswith_append "Action:" line1 (Agent.nl +:+ line2)
                  eq_refl). }
  assert (Hc2 : PyStr.contains "Action Input:" (line1 +:+ Agent.nl +:+ line2)
                = true).
  { subst line2.
    replace (line1 +:+ Agent.nl +:+ "Action Input: " +:+ input)
      with ((line1 +:+ Agent.nl) +:+ "Action Input:" +:+ (" " +:+ input))
      by (by rewrite !append_assoc).
    apply contains_infix. }
  rewrite Hc1, Hc2. cbn [andb].
  assert (Hl1 : PyStr.contains Agent.nl line1 = false).
  { subst line1. unfold Agent.nl in *.
    by apply (contains_char_append _ "Action: " tool). }
  assert (Hl2 : PyStr.contains Agent.nl line2 = false).
  { subst line2. unfold Agent.nl in *.
    by apply (contains_char_append _ "Action Input: " input). }
  unfold PyStr.split. rewrite (split_two_lines _ line1 line2); [|
    |exact Hl1|exact Hl2].
  2:{ rewrite length_append. subst line1. rewrite length_append.
      change (String.length "Action: ") with 8%nat. lia. }
  assert (Hs1 : PyStr.strip line1 = line1).
  { subst line1. unfold PyStr.strip, PyStr.strip_by.
    change (PyStr.lstrip_by PyStr.is_space ("Action: " +:+ tool))
      with ("Action: " +:+ tool).
    by apply rstrip_append. }
  assert (Hs2 : PyStr.strip line2 = line2).
  { subst line2. unfold PyStr.strip, PyStr.strip_by.
    change (PyStr.lstrip_by PyStr.is_space ("Action Input: " +:+ input))
      with ("Action Input: " +:+ input).
    by apply rstrip_append. }
  cbn [Agent.scan_lines]. rewrite Hs1, Hs2.
  change (PyStr.startswith "Action:" line1) with true. cbv iota.
  change (PyStr.startswith "Action:" line2) with false.
  change (PyStr.startswith "Action Input:" line2) with true. cbv iota.
  assert (Ha1 : PyStr.strip (Agent.after_marker "Action:" line1) = tool).
  { subst line1.
    change ("Action: " +:+ tool) with ("Action:" +:+ (" " +:+ tool)).
    rewrite after_marker_at_start; [exact Hts|done|].
    unfold PyStr.contains. rewrite partition_unfold.
    change (PyStr.startswith "Action:" (" " +:+ tool)) with false.
    change (" " +:+ tool) with (String " " tool). cbv iota.
    by rewrite (contains_false_partition _ _ Htm). }
  assert (Ha2 : PyStr.strip (Agent.after_marker "Action Input:" line2) = input).
  { subst line2.
    change ("Action Input: " +:+ input)
      with ("Action Input:" +:+ (" " +:+ input)).
    rewrite after_marker_at_start; [exact His|done|].
    unfold PyStr.contains. rewrite partition_unfold.
    change (PyStr.startswith "Action Input:" (" " +:+ input)) with false.
    change (" " +:+ input) with (String " " input). cbv iota.
    by rewrite (contains_false_partition _ _ Him). }
  rewrite Ha1, Ha2.
  destruct tool; [done|]. destruct input; [done|]. reflexivity.
Qed.

(** Witness for X24: reading a file whose name has a blank in it. *)
Lemma well_formed_directive_round_trip_witness :
  Agent.parse_action
    ("Action: " +:+ "read_file" +:+ Agent.nl
       +:+ "Action Input: " +:+ "my notes.txt")
  = Some ("read_file", "my notes.txt").
Proof.
  apply (well_formed_directive_round_trip "read_file" "my notes.txt");
    try discriminate; reflexivity.
Defined.

(** ** Building the index *)

Section DocIds.

Import Decimal.

Lemma uint_of_string_zero (s : string) :
  NilEmpty.uint_of_string (String "0" s)
  = option_map D0 (NilEmpty.uint_of_string s).
Proof. reflexivity. Qed.

(** The number of a document is read back from its id. *)
Lemma pad3_decodes (n : nat) :
  option_map Nat.of_uint
    (NilEmpty.uint_of_string (Builder.pad3 (PyStr.of_nat n)))
  = Some n.
Proof.
  unfold PyStr.of_nat.
  pose proof (DecimalNat.Unsigned.of_to n) as Hn.
  assert (Hs : NilZero.string_of_uint (Nat.to_uint n)
               = NilEmpty.string_of_uint (Nat.to_uint n)).
  { destruct n as [|n]; [reflexivity|].
    by destruct (Nat.to_uint (S n)). }
  rewrite Hs.
  pose proof (NilEmpty.usu (Nat.to_uint n)) as Hu.
  unfold Builder.pad3.
  destruct (String.length _) as [|[|[|?]]];
    change ("000" +:+ ?s) with (String "0" (String "0" (String "0" s)));
    change ("00" +:+ ?s) with (String "0" (String "0" s));
    change ("0" +:+ ?s) with (String "0" s);
    rewrite ?uint_of_string_zero, Hu; cbn [option_map];
    f_equal; exact Hn.
Qed.

Lemma doc_id_inj (m n : nat) : Builder.doc_id m = Builder.doc_id n → m = n.
Proof.
  unfold Builder.doc_id. intros H.
  change ("doc_" +:+ ?s) with (String "d" (String "o" (String "c" (String "_" s))))
    in H.
  injection H as H.
  pose proof (pad3_decodes m) as Hm. rewrite H, pad3_decodes in Hm.
  by injection Hm.
Qed.

End DocIds.

Section BuilderFacts.

Import KnowledgeMap.

Context {float : Type}.
Variable size_kb_of : Z → float.
Variable docs_list : string.
Variable rglob : list (string * bool).
Variable read_file : string → string.
Variable _extract_toc_or_abstract : string → string.
Variable _ai_analyze_toc : string → string → string → string * list string.
Variable _ai_analyze_document :
  string → string → string → string * list string.
Variable stat : string → outcome (Z * Z).
Variable relative_to_directory : string → string.
Variable absolute_directory : string.
Variable output_file : string.
Variable fast_mode : bool.

Local Abbreviation files_to_process :=
  (Builder.files_to_process rglob output_file).
Local Abbreviation analyze :=
  (Builder.analyze _extract_toc_or_abstract _ai_analyze_toc
     _ai_analyze_document fast_mode).
Local Abbreviation process :=
  (Builder.process float size_kb_of read_file _extract_toc_or_abstract
     _ai_analyze_toc _ai_analyze_document stat relative_to_directory
     fast_mode).
Local Abbreviation generate_knowledge_map :=
  (Builder.generate_knowledge_map float size_kb_of docs_list rglob read_file
     _extract_toc_or_abstract _ai_analyze_toc _ai_analyze_document stat
     relative_to_directory absolute_directory output_file fast_mode).
Local Abbreviation indexable := (Builder.indexable read_file).

Implicit Types (files : list string) (e : Builder.entry float).

(** The entry of the index describes the file it was made from. *)
Local Abbreviation describes :=
  (λ (file_path : string) e,
     Builder.path e = relative_to_directory file_path
     ∧ Builder.title e = Builder.stem file_path
     ∧ Builder.file_type e = PyStr.drop 1 (PyPath.suffix file_path)
     ∧ Builder.key_concepts e ≠ []
     ∧ ∃ st_size, stat file_path = Ok (st_size, Builder.last_updated e)
                  ∧ Builder.size_kb e = size_kb_of st_size).

Lemma filename_concepts_nonempty (file_path : string) :
  Builder.filename_concepts file_path ≠ [].
Proof.
  unfold Builder.filename_concepts.
  destruct (Builder.has_cjk _); [|done].
  by destruct (Builder.cjk_runs _ _).
Qed.

Lemma analyze_concepts_nonempty (file_path content : string) :
  (analyze file_path content).2 ≠ [].
Proof.
  unfold Builder.analyze.
  destruct (if fast_mode then _ else _) as [description [|k ks]]; [|done].
  apply filename_concepts_nonempty.
Qed.

(** What the loop has appended when it ends. *)
Lemma process_inv files (acc result : list (Builder.entry float)) :
  process files acc = Ok result →
  ∃ new, result = acc ++ new
         ∧ Forall2 describes (List.filter indexable files) new
         ∧ ∀ k e, new !! k = Some e →
                  Builder.id e = Builder.doc_id (length acc + k).
Proof.
  revert acc. induction files as [|p files IH]; intros acc.
  { intros [= <-]. exists []. rewrite app_nil_r.
    split; [done|]. split; [constructor|]. intros k e Hk. by destruct k. }
  cbn [Builder.process List.filter]. unfold Builder.indexable at 1.
  destruct (Builder.skipped (read_file p)); cbn [negb]; [apply IH|].
  pose proof (analyze_concepts_nonempty p (read_file p)) as Hc.
  destruct (analyze p (read_file p)) as [description key_concepts].
  destruct (stat p) as [[st_size st_mtime]|err] eqn:Hstat; [|done].
  intros Hrun. destruct (IH _ Hrun) as (new & -> & Hd & Hid).
  eexists (_ :: new). split; [by rewrite <- app_assoc|].
  split.
  - constructor; [|exact Hd].
    repeat split; try done. by exists st_size.
  - intros [|k] e Hk.
    + injection Hk as <-. cbn [Builder.id]. by rewrite Nat.add_0_r.
    + rewrite (Hid k e Hk), length_app. cbn [length]. f_equal. lia.
Qed.

(** The loop ends without an exception exactly when [stat] answers for
    every file it does not skip. *)
Lemma process_ok_iff files (acc : list (Builder.entry float)) :
  (∃ result, process files acc = Ok result)
  ↔ ∀ p, p ∈ files → indexable p = true → ∃ st, stat p = Ok st.
Proof.
  revert acc. induction files as [|p files IH]; intros acc.
  { split; [|by eexists]. intros _ p Hp. by apply elem_of_nil in Hp. }
  cbn [Builder.process].
  destruct (Builder.skipped (read_file p)) eqn:Hskip.
  { rewrite IH. split.
    - intros H q Hq Hi. apply elem_of_cons in Hq as [->|Hq]; [|by apply H].
      unfold Builder.indexable in Hi. by rewrite Hskip in Hi.
    - intros H q Hq. apply H. by apply elem_of_cons; right. }
  destruct (analyze p (read_file p)) as [description key_concepts].
  destruct (stat p) as [[st_size st_mtime]|err] eqn:Hstat.
  - rewrite IH. split.
    + intros H q Hq Hi. apply elem_of_cons in Hq as [->|Hq]; [|by apply H].
      by eexists.
    + intros H q Hq. apply H. by apply elem_of_cons; right.
  - split; [by intros [? ?]|]. intros H.
    destruct (H p) as [st Hst]; [by apply elem_of_cons; left| |congruence].
    unfold Builder.indexable. by rewrite Hskip.
Qed.

(** The exception of the first [stat] that fails is the one that leaves
    the loop. *)
Lemma process_raises (done rest : list string) (p err : string)
    (acc : list (Builder.entry float)) :
  (∀ q, q ∈ done → indexable q = true → ∃ st, stat q = Ok st) →
  indexable p = true → stat p = Raise err →
  process (done ++ p :: rest) acc = Raise err.
Proof.
  revert acc. induction done as [|q done IH]; intros acc Hdone Hp Hstat.
  - cbn [app Builder.process]. unfold Builder.indexable in Hp.
    destruct (Builder.skipped (read_file p)); [done|].
    destruct (analyze p (read_file p)). by rewrite Hstat.
  - cbn [app Builder.process].
    assert (Hrest : ∀ q', q' ∈ done → indexable q' = true
                          → ∃ st, stat q' = Ok st).
    { intros q' Hq'. apply Hdone. by apply elem_of_cons; right. }
    destruct (Builder.skipped (read_file q)) eqn:Hskip; [by apply IH|].
    destruct (analyze q (read_file q)).
    destruct (Hdone q) as [[st_size st_mtime] Hst];
      [by apply elem_of_cons; left|unfold Builder.indexable; by rewrite Hskip|].
    rewrite Hst. by apply IH.
Qed.

Lemma ids_distinct (l : list (Builder.entry float)) :
  (∀ k e, l !! k = Some e → Builder.id e = Builder.doc_id k) →
  NoDup (Builder.id <$> l).
Proof.
  intros Hid. apply NoDup_alt. intros i j x Hi Hj.
  apply list_lookup_fmap_Some in Hi as (ei & -> & Hi).
  apply list_lookup_fmap_Some in Hj as (ej & Hx & Hj).
  rewrite (Hid i ei Hi), (Hid j ej Hj) in Hx. by apply doc_id_inj.
Qed.

(** X25. When the listing is not an error and [stat] answers for every
    file that is not skipped, the build returns its success message and
    writes an index that lists exactly the supported files the loop does
    not skip (those whose text does not start with ["Error:"] and is not
    blank), in the order of the directory scan, each with its relative
    path, stem, type, size, time and at least one key concept;
    the entries are numbered [doc_000], [doc_001], ... without gaps, and
    [total_documents] and the message carry their number.  (If every file
    is skipped the index is written with no document.) *)
Theorem index_lists_unskipped_files_in_order :
  PyStr.startswith "Error:" docs_list = false →
  PyStr.contains "No documents found" docs_list = false →
  files_to_process ≠ [] →
  (∀ p, p ∈ files_to_process → indexable p = true → ∃ st, stat p = Ok st) →
  ∃ documents,
    generate_knowledge_map
    = Ok {| Builder.message :=
              "✓ Knowledge map created ("
              +:+ PyStr.of_nat
                    (length (List.filter indexable files_to_process))
              +:+ " documents)";
            Builder.written :=
              Some {| Builder.version := "1.0";
                      Builder.directory := absolute_directory;
                      Builder.total_documents :=
                        length (List.filter indexable files_to_process);
                      Builder.documents := documents |} |}
    ∧ Forall2 describes (List.filter indexable files_to_process) documents
    ∧ ∀ k e, documents !! k = Some e → Builder.id e = Builder.doc_id k.
Proof.
  intros Herr Hnone Hfiles Hstat.
  destruct (proj2 (process_ok_iff files_to_process []) Hstat)
    as [result Hrun].
  destruct (process_inv _ _ _ Hrun) as (new & -> & Hd & Hid).
  exists new. split; [|by split].
  unfold Builder.generate_knowledge_map. rewrite Herr, Hnone. cbn [orb].
  destruct files_to_process as [|p files] eqn:Hf; [done|].
  rewrite Hrun. cbn [app]. by rewrite (Forall2_length _ _ _ Hd).
Qed.

(** X26. In every index the build writes, the ids of the entries are
    pairwise distinct, no entry is without key concepts (the file name
    stands in when the analysis gives none), and [total_documents] is the
    number of entries. *)
Theorem written_index_is_well_formed
    (b : Builder.built float) (km : Builder.knowledge_map float) :
  generate_knowledge_map = Ok b →
  Builder.written b = Some km →
  NoDup (Builder.id <$> Builder.documents km)
  ∧ Forall (λ e, Builder.key_concepts e ≠ []) (Builder.documents km)
  ∧ Builder.total_documents km = length (Builder.documents km).
Proof.
  unfold Builder.generate_knowledge_map.
  destruct (_ || _); [by intros [= <-]|].
  destruct files_to_process as [|p files]; [by intros [= <-]|].
  destruct (process (p :: files) []) as [result|err] eqn:Hrun; [|done].
  intros [= <-] [= <-]. cbn [Builder.documents Builder.total_documents].
  destruct (process_inv _ _ _ Hrun) as (new & -> & Hd & Hid).
  cbn [app]. split; [by apply ids_distinct|]. split; [|done].
  clear -Hd. induction Hd as [|q e l l' (_ & _ & _ & Hc & _) _ IH];
    by constructor.
Qed.

(** X27. The build writes an index exactly when the listing is neither an
    error nor empty, the scan finds a supported file and [stat] answers for
    every file that is not skipped.  Otherwise nothing is written: a
    refused listing is returned as the message, a scan without supported
    files gives the fixed sentence, and the exception of the first [stat]
    that fails leaves the build, whatever was analysed before it. *)
Theorem index_written_iff :
  ((∃ b km, generate_knowledge_map = Ok b ∧ Builder.written b = Some km)
   ↔ PyStr.startswith "Error:" docs_list = false
     ∧ PyStr.contains "No documents found" docs_list = false
     ∧ files_to_process ≠ []
     ∧ ∀ p, p ∈ files_to_process → indexable p = true
            → ∃ st, stat p = Ok st)
  ∧ (PyStr.startswith "Error:" docs_list
     || PyStr.contains "No documents found" docs_list = true →
     generate_knowledge_map
     = Ok {| Builder.message := docs_list; Builder.written := None |})
  ∧ (PyStr.startswith "Error:" docs_list
     || PyStr.contains "No documents found" docs_list = false →
     (files_to_process = [] →
      generate_knowledge_map
      = Ok {| Builder.message := "No documents found to process.";
              Builder.written := None |})
     ∧ ∀ done p rest err,
         files_to_process = done ++ p :: rest →
         (∀ q, q ∈ done → indexable q = true → ∃ st, stat q = Ok st) →
         indexable p = true → stat p = Raise err →
         generate_knowledge_map = Raise err).
Proof.
  unfold Builder.generate_knowledge_map. split; [|split].
  - destruct (PyStr.startswith "Error:" docs_list);
      [split; [by intros (b & km & [= <-] & ?)|by intros [? _]]|].
    destruct (PyStr.contains "No documents found" docs_list);
      [split; [by intros (b & km & [= <-] & ?)|by intros (_ & ? & _)]|].
    cbn [orb]. rewrite <- (process_ok_iff files_to_process []).
    destruct files_to_process as [|p files];
      [split; [by intros (b & km & [= <-] & ?)|by intros (_ & _ & ? & _)]|].
    destruct (process (p :: files) []) as [result|err].
    + split; [intros _; repeat split; [done|by eexists]|].
      intros _. by eexists _, _.
    + split; [by intros (b & km & ? & _)|by intros (_ & _ & _ & ? & ?)].
  - by intros ->.
  - intros ->. split; [by intros ->|].
    intros done p rest err -> Hdone Hp Hstat.
    rewrite (process_raises done rest p err [] Hdone Hp Hstat).
    by destruct done.
Qed.

End BuilderFacts.

(** Witness for X25: the directory of the stand-ins, where the PDF that
    cannot be opened is indexed and the blank file is not. *)
Lemma index_lists_unskipped_files_in_order_witness :
  ∃ documents,
    Builder.sample_build (FileOps.sample_list_docs "docs") FileOps.sample_stat
    = KnowledgeMap.Ok {| Builder.message := "✓ Knowledge map created (3 documents)";
            Builder.written :=
              Some {| Builder.version := "1.0";
                      Builder.directory := "/home/user/docs";
                      Builder.total_documents := 3;
                      Builder.documents := documents |} |}
    ∧ Forall2
        (λ file_path e,
           Builder.path e = FileOps.sample_relative_to file_path "docs"
           ∧ Builder.title e = Builder.stem file_path
           ∧ Builder.file_type e = PyStr.drop 1 (PyPath.suffix file_path)
           ∧ Builder.key_concepts e ≠ []
           ∧ ∃ st_size,
               FileOps.sample_stat file_path
               = KnowledgeMap.Ok (st_size, Builder.last_updated e)
               ∧ Builder.size_kb e = (st_size / 1024)%Z)
        ["docs/guide.md"; "docs/scan.pdf"; "docs/notes.txt"] documents
    ∧ ∀ k e, documents !! k = Some e → Builder.id e = Builder.doc_id k.
Proof.
  apply (index_lists_unskipped_files_in_order
           (λ st_size, (st_size / 1024)%Z) (FileOps.sample_list_docs "docs")
           (FileOps.sample_rglob "docs") FileOps.sample_read_file
           Builder.sample_extract Builder.sample_analyze_toc
           Builder.sample_analyze_document FileOps.sample_stat
           (λ file_path, FileOps.sample_relative_to file_path "docs")
           "/home/user/docs" "knowledge_map.yaml" true).
  - reflexivity.
  - reflexivity.
  - discriminate.
  - intros p _ _. by eexists.
Defined.

(** Witness for X26: the index built from the stand-ins. *)
Lemma written_index_is_well_formed_witness :
  ∃ b km,
    Builder.sample_build (FileOps.sample_list_docs "docs") FileOps.sample_stat
    = KnowledgeMap.Ok b
    ∧ Builder.written b = Some km
    ∧ NoDup (Builder.id <$> Builder.documents km)
    ∧ Forall (λ e, Builder.key_concepts e ≠ []) (Builder.documents km)
    ∧ Builder.total_documents km = length (Builder.documents km).
Proof.
  eexists _, _. split; [reflexivity|]. split; [reflexivity|].
  exact (written_index_is_well_formed
           (λ st_size, (st_size / 1024)%Z) (FileOps.sample_list_docs "docs")
           (FileOps.sample_rglob "docs") FileOps.sample_read_file
           Builder.sample_extract Builder.sample_analyze_toc
           Builder.sample_analyze_document FileOps.sample_stat
           (λ file_path, FileOps.sample_relative_to file_path "docs")
           "/home/user/docs" "knowledge_map.yaml" true _ _ eq_refl eq_refl).
Defined.

(** Witness for X27: [stat] fails on the second file that is read, after
    the first one has been analysed; nothing is written. *)
Lemma index_written_iff_witness :
  Builder.sample_build (FileOps.sample_list_docs "docs")
    (λ file_path,
       if String.eqb file_path "docs/scan.pdf"
       then KnowledgeMap.Raise "PermissionError: docs/scan.pdf"
       else FileOps.sample_stat file_path)
  = KnowledgeMap.Raise "PermissionError: docs/scan.pdf".
Proof.
  refine
    (proj2
       (proj2 (proj2
          (index_written_iff
             (λ st_size, (st_size / 1024)%Z) (FileOps.sample_list_docs "docs")
             (FileOps.sample_rglob "docs") FileOps.sample_read_file
             Builder.sample_extract Builder.sample_analyze_toc
             Builder.sample_analyze_document _
             (λ file_path, FileOps.sample_relative_to file_path "docs")
             "/home/user/docs" "knowledge_map.yaml" true)) eq_refl)
       ["docs/guide.md"; "docs/blank.txt"] "docs/scan.pdf" ["docs/notes.txt"]
       "PermissionError: docs/scan.pdf" eq_refl _ eq_refl eq_refl).
  intros q Hq _.
  apply elem_of_cons in Hq as [->|Hq]; [by eexists|].
  apply elem_of_cons in Hq as [->|Hq]; [by eexists|].
  by apply elem_of_nil in Hq.
Defined.

(** ** Reading and searching documents *)

Lemma prefix_drop (p s : string) :
  PyStr.startswith p s = true → s = p +:+ PyStr.drop (String.length p) s.
Proof.
  unfold PyStr.startswith. revert s.
  induction p as [|a p IH]; intros s Hp; [done|].
  destruct s as [|b s]; [done|]. cbn [String.prefix] in Hp.
  destruct (ascii_dec a b) as [->|]; [|done].
  rewrite append_cons. cbn [String.length PyStr.drop]. f_equal. by apply IH.
Qed.

(** [sub in s] holds only when [sub] occurs in [s]. *)
Lemma contains_occurs (sub s : string) :
  PyStr.contains sub s = true → ∃ a b, s = a +:+ sub +:+ b.
Proof.
  unfold PyStr.contains. induction s as [|c s IH]; rewrite partition_unfold.
  - destruct (PyStr.startswith sub "") eqn:Hp; [|done].
    intros _. exists "", (PyStr.drop (String.length sub) "").
    by apply prefix_drop.
  - destruct (PyStr.startswith sub (String c s)) eqn:Hp.
    + intros _. exists "", (PyStr.drop (String.length sub) (String c s)).
      by apply prefix_drop.
    + destruct (PyStr.partition sub s) as [[b a]|]; [|done].
      intros _. destruct IH as (a' & b' & ->); [done|].
      by exists (String c a'), b'.
Qed.

Lemma contains_inside (sub a s b : string) :
  PyStr.contains sub s = true → PyStr.contains sub (a +:+ s +:+ b) = true.
Proof.
  intros (a' & b' & ->)%contains_occurs.
  replace (a +:+ (a' +:+ sub +:+ b') +:+ b)
    with ((a +:+ a') +:+ sub +:+ (b' +:+ b)) by (by rewrite !append_assoc).
  apply contains_infix.
Qed.

Lemma contains_join (sub sep x : string) (l : list string) :
  x ∈ l → PyStr.contains sub x = true →
  PyStr.contains sub (PyStr.join sep l) = true.
Proof.
  intros Hx Hsub. induction l as [|y l IH]; [by apply elem_of_nil in Hx|].
  destruct l as [|z l].
  - apply list_elem_of_singleton in Hx as ->. exact Hsub.
  - change (PyStr.join sep (y :: z :: l))
      with (y +:+ sep +:+ PyStr.join sep (z :: l)).
    apply elem_of_cons in Hx as [->|Hx].
    + apply (contains_inside sub "" _ (sep +:+ PyStr.join sep (z :: l)) Hsub).
    + rewrite <- (append_nil_r (PyStr.join sep (z :: l))), <- append_assoc.
      apply contains_inside. by apply IH.
Qed.

Section FileOpsFacts.

Import KnowledgeMap.

Variable path_str : string → string.
Variable exists_ : string → bool.
Variable pdf_pages : string → outcome (list string).
Variable docx_paragraphs : string → outcome (list string).
Variable text_of : string → outcome string.
Variable compile : string → outcome (string → bool).

Local Abbreviation read_file :=
  (FileOps.read_file path_str exists_ pdf_pages docx_paragraphs text_of).
Local Abbreviation grep :=
  (FileOps.grep path_str exists_ pdf_pages docx_paragraphs text_of compile).

Local Abbreviation shown := FileOps.shown.

Lemma read_error_not_skipped (file_path e : string) :
  Builder.skipped ("Error reading file " +:+ file_path +:+ ": " +:+ e) = false.
Proof.
  unfold Builder.skipped.
  change (PyStr.startswith "Error:" _) with false.
  change (PyStr.truthy _) with true. cbn [orb negb].
  unfold PyStr.strip, PyStr.strip_by.
  change ("Error reading file " +:+ ?s) with (String "E" ("rror reading file " +:+ s)).
  cbn [PyStr.lstrip_by]. change (PyStr.is_space "E") with false. cbv iota.
  cbn [PyStr.rstrip_by]. change (PyStr.is_space "E") with false. cbv iota.
  by destruct (PyStr.rstrip_by _ _).
Qed.

Lemma match_blocks_none (search : string → bool) (lines rest : list string)
    (context_lines i : nat) :
  Forall (λ line, search line = false) rest →
  FileOps.match_blocks search lines context_lines i rest = [].
Proof.
  intros H. revert i. induction H as [|line rest Hl _ IH]; intros i; [done|].
  cbn [FileOps.match_blocks]. by rewrite Hl.
Qed.

(** X28. An exception of a document reader is not read as an error by the
    callers of [read_file]: the text it returns for it, ["Error reading
    file <path>: <exception>"] with the path as [pathlib] writes it, does
    not start with ["Error:"], so the index builder does not skip the file
    and [grep] searches the message as if it were the document (and
    reports no match when the pattern does not occur in it).  A file that
    does not exist gives a text that starts with ["Error:"]: the builder
    skips it and [grep] returns that text. *)
Theorem reader_exception_is_taken_for_content (file_path : string) :
  (exists_ (path_str file_path) = false →
   read_file file_path = "Error: File not found: " +:+ path_str file_path
   ∧ Builder.skipped (read_file file_path) = true
   ∧ ∀ pattern context_lines,
       grep pattern file_path context_lines = read_file file_path)
  ∧ ∀ e,
      exists_ (path_str file_path) = true →
      (PyStr.lower (PyPath.suffix (path_str file_path)) = ".pdf"
       ∧ pdf_pages (path_str file_path) = Raise e)
      ∨ (PyStr.lower (PyPath.suffix (path_str file_path)) ∈ [".docx"; ".doc"]
         ∧ docx_paragraphs (path_str file_path) = Raise e)
      ∨ (PyStr.lower (PyPath.suffix (path_str file_path))
           ∈ [".txt"; ".md"; ".markdown"]
         ∧ text_of (path_str file_path) = Raise e) →
      read_file file_path
      = "Error reading file " +:+ path_str file_path +:+ ": " +:+ e
      ∧ Builder.skipped (read_file file_path) = false
      ∧ ∀ pattern search context_lines,
          compile pattern = Ok search →
          Forall (λ line, search line = false)
            (FileOps.lines_of (read_file file_path)) →
          grep pattern file_path context_lines
          = "No matches found for '" +:+ pattern +:+ "' in " +:+ file_path.
Proof.
  split.
  - intros Hex.
    assert (Hr : read_file file_path
                 = "Error: File not found: " +:+ path_str file_path).
    { unfold FileOps.read_file. cbv zeta. by rewrite Hex. }
    split; [exact Hr|]. split.
    + by rewrite Hr.
    + intros pattern context_lines. unfold FileOps.grep.
      fold read_file. by rewrite Hr.
  - intros e Hex Hreader.
    assert (Hr : read_file file_path
                 = "Error reading file " +:+ path_str file_path +:+ ": "
                   +:+ e).
    { unfold FileOps.read_file, FileOps._read_pdf, FileOps._read_docx,
        FileOps._read_text.
      cbv zeta. rewrite Hex. cbn [negb].
      destruct Hreader as [[-> ->]|[[Hs ->]|[Hs ->]]]; [done|..].
      - apply elem_of_cons in Hs as [->|Hs]; [done|].
        apply list_elem_of_singleton in Hs as ->. done.
      - apply elem_of_cons in Hs as [->|Hs]; [done|].
        apply elem_of_cons in Hs as [->|Hs]; [done|].
        apply list_elem_of_singleton in Hs as ->. done. }
    split; [exact Hr|]. split.
    + rewrite Hr. apply read_error_not_skipped.
    + intros pattern search context_lines Hc Hnone.
      unfold FileOps.grep. fold read_file. rewrite Hr in *.
      change (PyStr.startswith "Error:" _) with false. cbv iota.
      rewrite Hc. by rewrite match_blocks_none.
Qed.

(** The lines of a block are the lines of its window, numbered from 1. *)
Lemma context_block_shown (lines : list string) (i start count : nat) :
  FileOps.context_block lines i start count
  = map (shown lines i) (seq start count).
Proof.
  revert start. induction count as [|count IH]; intros start; [done|].
  cbn [FileOps.context_block seq map]. by rewrite IH.
Qed.

Lemma shown_marked (lines : list string) (i j : nat) :
  PyStr.startswith ">>> " (shown lines i j) = Nat.eqb j i.
Proof. unfold FileOps.shown. by destruct (Nat.eqb j i). Qed.

(** A window that holds line [i] marks that line and no other. *)
Lemma marked_lines_of_window (lines : list string) (i start count : nat) :
  (start ≤ i < start + count)%nat →
  List.filter (PyStr.startswith ">>> ") (map (shown lines i) (seq start count))
  = [shown lines i i].
Proof.
  revert start. induction count as [|count IH]; intros start Hi; [lia|].
  cbn [seq map List.filter]. rewrite shown_marked.
  destruct (Nat.eqb_spec start i) as [->|Hne].
  - f_equal.
    assert (H : ∀ n s, (i < s)%nat →
                List.filter (PyStr.startswith ">>> ")
                  (map (shown lines i) (seq s n)) = []).
    { induction n as [|n IHn]; intros s' Hs; [done|].
      cbn [seq map List.filter]. rewrite shown_marked.
      destruct (Nat.eqb_spec s' i); [lia|]. apply IHn. lia. }
    apply H. lia.
  - apply IH. lia.
Qed.

(** The blocks of the loop, one for each matching line, in order. *)
Lemma match_blocks_spec (search : string → bool) (lines : list string)
    (context_lines i : nat) (rest : list string) :
  drop i lines = rest →
  ∃ blocks,
    FileOps.match_blocks search lines context_lines i rest
    = map (PyStr.join Agent.nl) blocks
    ∧ Forall2
        (λ (hit : nat * string) block,
           lines !! hit.1 = Some hit.2
           ∧ block
             = FileOps.context_block lines hit.1 (hit.1 - context_lines)
                 (Nat.min (length lines) (hit.1 + context_lines + 1)
                  - (hit.1 - context_lines)))
        (List.filter (λ hit, search hit.2) (zip (seq i (length rest)) rest))
        blocks.
Proof.
  revert i. induction rest as [|line rest IH]; intros i Hdrop.
  { exists []. split; [done|constructor]. }
  assert (Hi : lines !! i = Some line).
  { rewrite <- (Nat.add_0_r i), <- lookup_drop. by rewrite Hdrop. }
  assert (Hrest : drop (S i) lines = rest).
  { change (S i) with (1 + i)%nat. rewrite Nat.add_comm, <- drop_drop.
    by rewrite Hdrop. }
  destruct (IH (S i) Hrest) as (blocks & Hb & Hf).
  cbn [FileOps.match_blocks length seq zip zip_with List.filter snd].
  destruct (search line).
  - eexists (_ :: blocks). rewrite Hb. split; [reflexivity|].
    constructor; [|exact Hf]. by split.
  - by exists blocks.
Qed.

(** X29. [grep] on a text that is not an error answers with the fixed
    sentence ["No matches found for ..."] when the pattern matches no line;
    otherwise its header carries the number of matching lines and it shows
    one block for each of them, in order: a block has at least one and at
    most [2 * context_lines + 1] lines, and exactly one of them is marked,
    the matching line with its number counted from 1. *)
Theorem grep_shows_one_block_per_matching_line
    (pattern file_path : string) (context_lines : nat)
    (search : string → bool) :
  PyStr.startswith "Error:" (read_file file_path) = false →
  compile pattern = Ok search →
  let lines := FileOps.lines_of (read_file file_path) in
  let hits :=
    List.filter (λ hit, search hit.2) (zip (seq 0 (length lines)) lines) in
  (hits = [] →
   grep pattern file_path context_lines
   = "No matches found for '" +:+ pattern +:+ "' in " +:+ file_path)
  ∧ (hits ≠ [] →
     ∃ blocks,
       grep pattern file_path context_lines
       = "Found " +:+ PyStr.of_nat (length hits) +:+ " match(es) for '"
         +:+ pattern +:+ "' in " +:+ file_path +:+ ":" +:+ Agent.nl
         +:+ Agent.nl
         +:+ PyStr.join (Agent.nl +:+ Agent.nl +:+ "---" +:+ Agent.nl
                         +:+ Agent.nl)
               (map (PyStr.join Agent.nl) blocks)
       ∧ Forall2
           (λ (hit : nat * string) block,
              (1 ≤ length block ≤ 2 * context_lines + 1)%nat
              ∧ List.filter (PyStr.startswith ">>> ") block
                = [">>> Line " +:+ PyStr.of_nat (hit.1 + 1) +:+ ": "
                   +:+ hit.2])
           hits blocks).
Proof.
  intros Herr Hc lines hits.
  destruct (match_blocks_spec search lines context_lines 0 lines eq_refl)
    as (blocks & Hb & Hf).
  fold hits in Hf.
  assert (Hg : grep pattern file_path context_lines
               = match map (PyStr.join Agent.nl) blocks with
                 | [] => "No matches found for '" +:+ pattern +:+ "' in "
                         +:+ file_path
                 | matches =>
                     "Found " +:+ PyStr.of_nat (length matches)
                     +:+ " match(es) for '" +:+ pattern +:+ "' in "
                     +:+ file_path +:+ ":" +:+ Agent.nl +:+ Agent.nl
                     +:+ PyStr.join (Agent.nl +:+ Agent.nl +:+ "---"
                                     +:+ Agent.nl +:+ Agent.nl) matches
                 end).
  { unfold FileOps.grep. fold read_file. rewrite Herr, Hc. fold lines.
    by rewrite Hb. }
  split.
  - intros Hnone. rewrite Hnone in Hf. apply Forall2_nil_inv_l in Hf as ->.
    exact Hg.
  - intros Hsome. exists blocks. split.
    + rewrite Hg. destruct blocks as [|block blocks].
      { apply Forall2_nil_inv_r in Hf. done. }
      rewrite (Forall2_length _ _ _ Hf),
        <- (length_map (PyStr.join Agent.nl) (block :: blocks)).
      reflexivity.
    + eapply Forall2_impl; [exact Hf|].
      intros [i line] block [Hi ->]. cbn [fst snd] in *.
      pose proof (lookup_lt_Some _ _ _ Hi) as Hlt.
      rewrite context_block_shown. split.
      * rewrite length_map, length_seq. lia.
      * rewrite marked_lines_of_window by lia.
        unfold FileOps.shown. rewrite Nat.eqb_refl.
        by rewrite (nth_lookup_Some _ _ _ _ Hi).
Qed.

End FileOpsFacts.

(** Witness for X28: the PDF of the stand-ins, which its reader cannot
    open, asked for as [./docs/scan.pdf]. *)
Lemma reader_exception_is_taken_for_content_witness :
  let path_str := λ p : string,
                    if String.eqb p "./docs/scan.pdf" then "docs/scan.pdf"
                    else p in
  let read_file :=
    FileOps.read_file path_str FileOps.sample_exists FileOps.sample_pdf_pages
      FileOps.sample_docx_paragraphs FileOps.sample_text_of in
  let grep :=
    FileOps.grep path_str FileOps.sample_exists FileOps.sample_pdf_pages
      FileOps.sample_docx_paragraphs FileOps.sample_text_of
      FileOps.sample_compile in
  read_file "./docs/scan.pdf"
  = "Error reading file docs/scan.pdf: cannot open broken document"
  ∧ Builder.skipped (read_file "./docs/scan.pdf") = false
  ∧ grep "budget" "./docs/scan.pdf" 2%nat
    = "No matches found for 'budget' in ./docs/scan.pdf".
Proof.
  intros path_str read_file grep.
  destruct (proj2 (reader_exception_is_taken_for_content
                     path_str FileOps.sample_exists FileOps.sample_pdf_pages
                     FileOps.sample_docx_paragraphs FileOps.sample_text_of
                     FileOps.sample_compile "./docs/scan.pdf")
              "cannot open broken document" eq_refl
              (or_introl (conj eq_refl eq_refl)))
    as (Hread & Hskip & Hgrep).
  split; [exact Hread|]. split; [exact Hskip|].
  apply (Hgrep "budget" _ 2%nat eq_refl).
  repeat constructor.
Defined.

(** Witness for X29: two lines of the notes match in any case. *)
Lemma grep_shows_one_block_per_matching_line_witness :
  ∃ blocks,
    FileOps.sample_grep "budget" "docs/notes.txt" 1
    = "Found 2 match(es) for 'budget' in docs/notes.txt:" +:+ Agent.nl
      +:+ Agent.nl
      +:+ PyStr.join (Agent.nl +:+ Agent.nl +:+ "---" +:+ Agent.nl
                      +:+ Agent.nl)
            (map (PyStr.join Agent.nl) blocks)
    ∧ Forall2
        (λ (hit : nat * string) block,
           (1 ≤ length block ≤ 3)%nat
           ∧ List.filter (PyStr.startswith ">>> ") block
             = [">>> Line " +:+ PyStr.of_nat (hit.1 + 1) +:+ ": " +:+ hit.2])
        [(0%nat, "budget 2024"); (2%nat, "Budget review")] blocks.
Proof.
  apply (proj2 (grep_shows_one_block_per_matching_line
                  FileOps.sample_path_str FileOps.sample_exists
                  FileOps.sample_pdf_pages
                  FileOps.sample_docx_paragraphs FileOps.sample_text_of
                  FileOps.sample_compile "budget" "docs/notes.txt" 1 _
                  eq_refl eq_refl)).
  discriminate.
Defined.

(** ** Listing documents *)

Section ListingFacts.

Import KnowledgeMap.

Variable path_str : string → string.
Variable dir_exists : string → bool.
Variable rglob : string → list (string * bool).
Variable stat : string → outcome (Z * Z).
Variable relative_to : string → string → string.
Variable show_kb : Z → string.

Local Abbreviation collect := (FileOps.collect stat relative_to show_kb).
Local Abbreviation list_docs :=
  (FileOps.list_docs path_str dir_exists rglob stat relative_to show_kb).

Implicit Types (doc : FileOps.document) (documents : list FileOps.document).

Lemma elem_of_insert_newest doc doc' documents :
  doc' ∈ FileOps.insert_newest doc documents ↔ doc' = doc ∨ doc' ∈ documents.
Proof.
  induction documents as [|d documents IH]; cbn [FileOps.insert_newest].
  - rewrite list_elem_of_singleton, elem_of_nil. tauto.
  - destruct (_ <? _)%Z; rewrite !elem_of_cons, ?IH; tauto.
Qed.

(** Sorting loses and invents no document. *)
Lemma elem_of_sort_newest_first doc documents :
  doc ∈ FileOps.sort_newest_first documents ↔ doc ∈ documents.
Proof.
  induction documents as [|d documents IH]; [done|].
  cbn [FileOps.sort_newest_first foldr].
  rewrite elem_of_insert_newest, elem_of_cons.
  unfold FileOps.sort_newest_first in IH. by rewrite IH.
Qed.

(** The scan lists every supported regular file when [stat] answers. *)
Lemma collect_lists (directory : string) (entries : list (string * bool))
    (file_path : string) :
  (∀ q, (q, true) ∈ entries → PyPath.is_supported q = true
        → ∃ st, stat q = Ok st) →
  (file_path, true) ∈ entries → PyPath.is_supported file_path = true →
  ∃ documents doc,
    collect directory entries = Ok documents
    ∧ doc ∈ documents ∧ FileOps.name doc = PyPath.name file_path.
Proof.
  intros Hstat Hin Hsup.
  induction entries as [|[q is_file] entries IH];
    [by apply elem_of_nil in Hin|].
  cbn [FileOps.collect].
  assert (Hrest : ∀ q', (q', true) ∈ entries → PyPath.is_supported q' = true
                        → ∃ st, stat q' = Ok st).
  { intros q' Hq'. apply Hstat. by apply elem_of_cons; right. }
  destruct (is_file && PyPath.is_supported q) eqn:Hq.
  - apply andb_true_iff in Hq as [-> Hq].
    destruct (Hstat q) as [[st_size st_mtime] ->];
      [by apply elem_of_cons; left|done|].
    apply elem_of_cons in Hin as [[= <-]|Hin].
    + assert (Hok : ∃ documents, collect directory entries = Ok documents).
      { clear -Hrest. induction entries as [|[q' f] entries IH]; [by eexists|].
        cbn [FileOps.collect].
        assert (Hrest' : ∀ q, (q, true) ∈ entries
                              → PyPath.is_supported q = true
                              → ∃ st, stat q = Ok st).
        { intros q Hq. apply Hrest. by apply elem_of_cons; right. }
        destruct (IH Hrest') as [documents ->].
        destruct (f && PyPath.is_supported q') eqn:Hq; [|by eexists].
        apply andb_true_iff in Hq as [-> Hq].
        destruct (Hrest q') as [[? ?] ->];
          [by apply elem_of_cons; left|done|by eexists]. }
      destruct Hok as [documents ->].
      eexists _, _. split; [reflexivity|]. split; [by apply elem_of_cons; left|done].
    + destruct (IH Hrest Hin) as (documents & doc & -> & Hdoc & Hname).
      eexists _, doc. split; [reflexivity|].
      split; [by apply elem_of_cons; right|done].
  - apply elem_of_cons in Hin as [[= <- <-]|Hin].
    { by rewrite Hsup in Hq. }
    apply (IH Hrest Hin).
Qed.

Lemma listing_names doc documents :
  doc ∈ documents →
  ("  • " +:+ FileOps.name doc +:+ " (" +:+ FileOps.type_ doc +:+ ", "
   +:+ FileOps.size_kb doc +:+ " KB)") ∈ FileOps.listing_lines documents.
Proof.
  intros Hdoc. induction documents as [|d documents IH];
    [by apply elem_of_nil in Hdoc|].
  cbn [FileOps.listing_lines flat_map app].
  apply elem_of_cons in Hdoc as [->|Hdoc]; [by apply elem_of_cons; left|].
  apply elem_of_cons; right. apply elem_of_cons; right. by apply IH.
Qed.

Section Build.

Context {float : Type}.
Variable size_kb_of : Z → float.
Variable scan : list (string * bool).
Variable read_file : string → string.
Variable _extract_toc_or_abstract : string → string.
Variable _ai_analyze_toc : string → string → string → string * list string.
Variable _ai_analyze_document :
  string → string → string → string * list string.
Variable stat' : string → outcome (Z * Z).
Variable relative_to_directory : string → string.
Variable absolute_directory : string.
Variable output_file : string.
Variable fast_mode : bool.

(** X30. The build takes the listing for an empty one whenever the
    sentence ["No documents found"] occurs anywhere in it: if a supported
    document of the directory has that sentence in its name, the listing
    names the document, and the build returns the whole listing as its
    message and writes no index, whatever the directory holds. *)
Theorem document_name_can_stop_the_build (directory file_path : string) :
  dir_exists (path_str directory) = true →
  (∀ q, (q, true) ∈ rglob (path_str directory)
        → PyPath.is_supported q = true → ∃ st, stat q = Ok st) →
  (file_path, true) ∈ rglob (path_str directory) →
  PyPath.is_supported file_path = true →
  PyStr.contains "No documents found" (PyPath.name file_path) = true →
  PyStr.startswith "Found " (list_docs directory) = true
  ∧ Builder.generate_knowledge_map float size_kb_of (list_docs directory)
      scan read_file _extract_toc_or_abstract _ai_analyze_toc
      _ai_analyze_document stat' relative_to_directory absolute_directory
      output_file fast_mode
    = Ok {| Builder.message := list_docs directory;
            Builder.written := None |}.
Proof.
  intros Hdir Hstat Hin Hsup Hname.
  destruct (collect_lists (path_str directory) _ file_path Hstat Hin Hsup)
    as (documents & doc & Hcollect & Hdoc & Hdocname).
  assert (Hlist : ∃ header,
             list_docs directory
             = PyStr.join Agent.nl
                 (("Found " +:+ header)
                  :: FileOps.listing_lines
                       (FileOps.sort_newest_first documents))).
  { unfold FileOps.list_docs. cbv zeta. rewrite Hdir, Hcollect. cbn [negb].
    destruct documents as [|d documents]; [by apply elem_of_nil in Hdoc|].
    by eexists. }
  destruct Hlist as [header Hlist].
  assert (Hphrase : PyStr.contains "No documents found" (list_docs directory)
                    = true).
  { rewrite Hlist.
    apply (contains_join _ _
             ("  • " +:+ FileOps.name doc +:+ " (" +:+ FileOps.type_ doc
              +:+ ", " +:+ FileOps.size_kb doc +:+ " KB)")).
    - apply elem_of_cons; right. apply listing_names.
      by apply elem_of_sort_newest_first.
    - rewrite Hdocname. by apply contains_inside. }
  split.
  - rewrite Hlist. apply join_startswith.
    by apply (startswith_append "Found " "Found " header).
  - unfold Builder.generate_knowledge_map. rewrite Hphrase.
    by rewrite orb_true_r.
Qed.

End Build.

End ListingFacts.

(** Witness for X30: a note named after the sentence. *)
Lemma document_name_can_stop_the_build_witness :
  let list_docs :=
    FileOps.list_docs FileOps.sample_path_str FileOps.sample_dir_exists
      (λ _, [("docs/guide.md", true); ("docs/No documents found.md", true)])
      FileOps.sample_stat FileOps.sample_relative_to FileOps.sample_show_kb in
  PyStr.startswith "Found " (list_docs "docs") = true
  ∧ Builder.sample_build (list_docs "docs") FileOps.sample_stat
    = KnowledgeMap.Ok {| Builder.message := list_docs "docs";
                         Builder.written := None |}.
Proof.
  apply (document_name_can_stop_the_build
           FileOps.sample_path_str FileOps.sample_dir_exists
           (λ _, [("docs/guide.md", true); ("docs/No documents found.md", true)])
           FileOps.sample_stat FileOps.sample_relative_to
           FileOps.sample_show_kb (λ st_size, (st_size / 1024)%Z)
           (FileOps.sample_rglob "docs") FileOps.sample_read_file
           Builder.sample_extract Builder.sample_analyze_toc
           Builder.sample_analyze_document FileOps.sample_stat
           (λ file_path, FileOps.sample_relative_to file_path "docs")
           "/home/user/docs" "knowledge_map.yaml" true
           "docs" "docs/No documents found.md").
  - reflexivity.
  - intros q _ _. by eexists.
  - apply elem_of_cons; right. apply elem_of_cons; by left.
  - reflexivity.
  - reflexivity.
Defined.
